(** * tg_bot_sells: amount parsing, transaction repository, recent browser,
      amount step of the recording dialogue, report aggregation.

    Shallow embedding of
      - services/transaction_service.py  (parse_amount, TransactionService)
      - handlers/recent.py               (_fetch_recent, _with_delete_buttons)
      - main.py, utils/message_utils.py  (process_amount, cmd_undo, _send_step_message)
      - services/report_service.py       (_build_dataframe, _aggregate_df,
                                          _build_category_sections, build_report,
                                          the amount cell formatter)

    Conventions of the model.
      - A Python [str] is a list of characters; characters are the code points
        below 256 (type [ascii]).
      - [Decimal] values are a coefficient and a number of fractional
        digits; the [Numeric(12, 2)] column is read as integral hundredths.
      - A [float] is an IEEE 754 binary64 number, held exactly.  The sums of
        pandas over float columns are library code the sources do not fix:
        they are parameters of the report functions.
      - Timestamps are microseconds since 1970-01-01, as integers.
      - The SQL engine is SQLite, the default of config.py, and a table is
        the list of its rows; [ORDER BY] and the [sort_values] of pandas are
        a stable insertion sort (the order they give to equal keys is not
        specified).
      - Writing the files (xlsxwriter, matplotlib) is not modelled beyond
        whether the call raises: an artifact is the data handed to the
        writer. *)

From Stdlib Require Import Ascii String List ZArith Lia Bool Permutation Sorted.
Import ListNotations.

Local Open Scope Z_scope.

(** ** Python strings *)

Definition str := list ascii.

Definition py (s : string) : str := list_ascii_of_string s.

Definition code (c : ascii) : Z := Z.of_nat (nat_of_ascii c).

(** [str.isspace] on one character (code points below 256):
    TAB..CR, FS..US, SPACE, NEL, NBSP. *)
Definition isspace (c : ascii) : bool :=
  let n := code c in
  ((9 <=? n) && (n <=? 13)) || ((28 <=? n) && (n <=? 32))
  || (n =? 133) || (n =? 160).

(** The class [\d] (code points below 256: only 0..9). *)
Definition isdigit (c : ascii) : bool :=
  let n := code c in (48 <=? n) && (n <=? 57).

Definition digit_of (c : ascii) : Z := code c - 48.

Fixpoint lstrip (s : str) : str :=
  match s with
  | [] => []
  | c :: t => if isspace c then lstrip t else s
  end.

Definition rstrip (s : str) : str := rev (lstrip (rev s)).

(** [s.strip()] *)
Definition strip (s : str) : str := rstrip (lstrip s).

(** [s.replace(old, new)] for a one-character [old]. *)
Definition replace (old : ascii) (new : str) (s : str) : str :=
  flat_map (fun c => if Ascii.eqb c old then new else [c]) s.

(** ** Exceptions *)

Inductive exn : Type :=
| InvalidOperation      (* decimal.InvalidOperation *)
| KeyError
| MultipleResultsFound  (* sqlalchemy.exc.MultipleResultsFound *)
| SQLAlchemyError.      (* a failed commit *)

Inductive outcome (A : Type) : Type :=
| Return (a : A)
| Raise (e : exn).
Arguments Return {A} a.
Arguments Raise {A} e.

Definition bind {A B} (m : outcome A) (k : A -> outcome B) : outcome B :=
  match m with
  | Return a => k a
  | Raise e => Raise e
  end.

Notation "x <- m ;; k" := (bind m (fun x => k))
  (at level 61, m at next level, right associativity).

(** The exceptions of the handlers and of the report: those above, raised by
    a call below, and the built-in ones. *)
Inductive pyexn : Type :=
| Propagated (e : exn)
| TypeError
| ValueError
| IndexError
| OverflowError.

Inductive result (A : Type) : Type :=
| Done (a : A)
| Failed (e : pyexn).
Arguments Done {A} a.
Arguments Failed {A} e.

(** ** Regular expressions (the fragment of [re] the program uses) *)

Module Regex.

Inductive re : Type :=
| Void
| Eps
| Class (p : ascii -> bool)
| Cat (r s : re)
| Alt (r s : re)
| Star (r : re).

Definition Plus (r : re) : re := Cat r (Star r).
Definition Opt (r : re) : re := Alt r Eps.
Definition Lit (c : ascii) : re := Class (Ascii.eqb c).

Fixpoint nullable (r : re) : bool :=
  match r with
  | Void => false
  | Eps => true
  | Class _ => false
  | Cat r s => nullable r && nullable s
  | Alt r s => nullable r || nullable s
  | Star _ => true
  end.

Fixpoint deriv (c : ascii) (r : re) : re :=
  match r with
  | Void => Void
  | Eps => Void
  | Class p => if p c then Eps else Void
  | Cat r s =>
      if nullable r then Alt (Cat (deriv c r) s) (deriv c s)
      else Cat (deriv c r) s
  | Alt r s => Alt (deriv c r) (deriv c s)
  | Star r => Cat (deriv c r) (Star r)
  end.

Fixpoint fullmatch (r : re) (s : str) : bool :=
  match s with
  | [] => nullable r
  | c :: t => fullmatch (deriv c r) t
  end.

(** [re.match("^" r "$", s)] without flags: the pattern is anchored at the
    start, and [$] matches at the end of the string or just before a newline
    that ends the string. *)
Definition match_anchored (r : re) (s : str) : bool :=
  fullmatch (Cat r (Opt (Lit "010"%char))) s.

(** The language of an expression, for the proofs. *)
Inductive lang : re -> str -> Prop :=
| L_eps : lang Eps []
| L_class p c : p c = true -> lang (Class p) [c]
| L_cat r1 r2 s1 s2 : lang r1 s1 -> lang r2 s2 -> lang (Cat r1 r2) (s1 ++ s2)
| L_alt_l r1 r2 s : lang r1 s -> lang (Alt r1 r2) s
| L_alt_r r1 r2 s : lang r2 s -> lang (Alt r1 r2) s
| L_star_nil r : lang (Star r) []
| L_star_app r s1 s2 : lang r s1 -> lang (Star r) s2 -> lang (Star r) (s1 ++ s2).

End Regex.

(** ** decimal.Decimal *)

(** The value [coef * 10 ^ (- scale)].  Every Decimal this program builds has
    a non-positive exponent. *)
Record Decimal : Type := mkDecimal { coef : Z; scale : nat }.

Definition pow10 (n : nat) : Z := 10 ^ Z.of_nat n.

(** Numeric comparison, as [==], [<=] on Decimal. *)
Definition dec_compare (a b : Decimal) : comparison :=
  Z.compare (coef a * pow10 (scale b)) (coef b * pow10 (scale a)).

Definition dec_eqb (a b : Decimal) : bool :=
  match dec_compare a b with Eq => true | _ => false end.

Definition dec_leb (a b : Decimal) : bool :=
  match dec_compare a b with Gt => false | _ => true end.

Definition dec_zero : Decimal := mkDecimal 0 0.

Fixpoint digits_value (acc : Z) (s : str) : option Z :=
  match s with
  | [] => Some acc
  | c :: t => if isdigit c then digits_value (10 * acc + digit_of c) t else None
  end.

(** Split at the first ["."]: the part before it and, when there is one, the
    part after it. *)
Fixpoint split_point (s : str) : str * option str :=
  match s with
  | [] => ([], None)
  | c :: t =>
      if Ascii.eqb c "."%char then ([], Some t)
      else let (i, f) := split_point t in (c :: i, f)
  end.

(** [Decimal(s)] on unsigned digit strings with an optional decimal point
    (["12"], ["12."], ["12.50"], [".5"]).  [None] stands for
    [decimal.InvalidOperation]; forms outside this fragment (signs, exponents,
    infinities) are answered [None] too: [parse_amount] never passes one. *)
Definition Decimal_of_str (s : str) : option Decimal :=
  let (ip, f) := split_point s in
  let fp := match f with Some fp => fp | None => [] end in
  match ip ++ fp with
  | [] => None
  | ds =>
      match digits_value 0 ds with
      | Some n => Some (mkDecimal n (length fp))
      | None => None
      end
  end.

(** ** services/transaction_service.py: parse_amount *)

(** [r'\d+\.?\d*'] *)
Definition amount_pattern : Regex.re :=
  Regex.Cat (Regex.Plus (Regex.Class isdigit))
    (Regex.Cat (Regex.Opt (Regex.Lit "."%char)) (Regex.Star (Regex.Class isdigit))).

Definition cleaned (amount_str : str) : str :=
  replace ","%char (py ".") (replace " "%char (py "") (strip amount_str)).

(** The [try] only catches [ValueError] and [TypeError]; an
    [InvalidOperation] of the constructor would escape. *)
Definition parse_amount (amount_str : str) : outcome (option Decimal) :=
  let cleaned := cleaned amount_str in
  if negb (Regex.match_anchored amount_pattern cleaned) then Return None
  else
    match Decimal_of_str cleaned with
    | Some d => Return (Some d)
    | None => Raise InvalidOperation
    end.

(** ** storage/models.py *)

Inductive TransactionKind : Type := EXPENSE | INCOME.

Definition kind_eqb (a b : TransactionKind) : bool :=
  match a, b with
  | EXPENSE, EXPENSE | INCOME, INCOME => true
  | _, _ => false
  end.

(** [TransactionKind.value] *)
Definition kind_value (k : TransactionKind) : str :=
  match k with EXPENSE => py "expense" | INCOME => py "income" end.

Definition str_eq_dec : forall a b : str, {a = b} + {a <> b} :=
  list_eq_dec ascii_dec.

Definition str_eqb (a b : str) : bool :=
  if str_eq_dec a b then true else false.

(** A row of the table [transactions].  [t_amount] is the [Numeric(12, 2)]
    column, in hundredths. *)
Record Transaction : Type := mkTransaction {
  t_id : Z;
  t_user_id : Z;
  t_kind : TransactionKind;
  t_category_id : Z;
  t_subcategory_id : option Z;
  t_amount : Z;
  t_currency : str;
  t_comment : option str;
  t_created_at : Z;
  t_effective_at : Z
}.

Definition DB := list Transaction.

(** The primary key. *)
Definition unique_ids (db : DB) : Prop := NoDup (map t_id db).

(** ** SQL building blocks *)

Fixpoint insert_by {A} (before : A -> A -> bool) (x : A) (l : list A) : list A :=
  match l with
  | [] => [x]
  | y :: t => if before x y then x :: l else y :: insert_by before x t
  end.

(** Stable: [before x y] is asked for [x] standing earlier than [y]. *)
Definition sort_by {A} (before : A -> A -> bool) (l : list A) : list A :=
  fold_right (insert_by before) [] l.

Definition order_by_desc {A} (key : A -> Z) : list A -> list A :=
  sort_by (fun x y => key y <=? key x).

Definition order_by_asc {A} (key : A -> Z) : list A -> list A :=
  sort_by (fun x y => key x <=? key y).

(** [.limit(n)]: SQLite takes a negative limit for no limit. *)
Definition sql_limit {A} (n : Z) (l : list A) : list A :=
  if n <? 0 then l else firstn (Z.to_nat n) l.

(** [.offset(o).limit(n)]: a negative offset is no offset. *)
Definition offset_limit {A} (o n : Z) (l : list A) : list A :=
  sql_limit n (skipn (Z.to_nat o) l).

(** [session.delete(t)]: by primary key. *)
Definition delete_row (t : Transaction) (db : DB) : DB :=
  filter (fun r => negb (t_id r =? t_id t)) db.

(** [Result.scalar_one_or_none()] *)
Definition scalar_one_or_none {A} (rows : list A) : outcome (option A) :=
  match rows with
  | [] => Return None
  | [r] => Return (Some r)
  | _ => Raise MultipleResultsFound
  end.

(** ** Rounding to two places *)

(** Round [n / d] to the nearest integer, ties to the even one ([d > 0]). *)
Definition div_half_even (n d : Z) : Z :=
  let q := n / d in
  let r := n mod d in
  if 2 * r <? d then q
  else if d <? 2 * r then q + 1
  else if Z.even q then q else q + 1.

(** ** Python floats *)

(** A [float] is an IEEE 754 binary64 number.  A finite one is a whole
    multiple of the smallest positive double, 2^-1074, and is held as that
    multiple.  Zero has no sign here. *)
Inductive float : Type :=
| Fin (n : Z)
| PInf
| NInf
| NaN.

(** 1.0 and 2^1024, the first power of two that is no double, in multiples of
    2^-1074. *)
Definition ulps : Z := 2 ^ 1074.
Definition overflow : Z := 2 ^ 2098.

(** The multiple of 2^-1074 nearest to [n / d] among those of at most 53
    significant bits, ties to the even one ([0 <= n], [0 < d]). *)
Definition round53 (n d : Z) : Z :=
  let k := Z.max 0 (Z.log2 (n / d) - 52) in
  div_half_even n (d * 2 ^ k) * 2 ^ k.

Definition signed (negative : bool) (n : Z) : float :=
  if overflow <=? n then (if negative then NInf else PInf)
  else Fin (if negative then - n else n).

(** The double nearest to [p / q], ties to even ([0 < q]). *)
Definition nearest_double (p q : Z) : float :=
  signed (p <? 0) (round53 (Z.abs p * ulps) q).

(** [float(d)] of a Decimal: correctly rounded. *)
Definition float_of_Decimal (d : Decimal) : float :=
  nearest_double (coef d) (pow10 (scale d)).

(** [float(n)] of an [int] in the range of the doubles. *)
Definition float_of_int (n : Z) : float := nearest_double n 1.

(** [x + y] of two floats. *)
Definition fadd (x y : float) : float :=
  match x, y with
  | NaN, _ | _, NaN => NaN
  | PInf, NInf | NInf, PInf => NaN
  | PInf, _ | _, PInf => PInf
  | NInf, _ | _, NInf => NInf
  | Fin a, Fin b => signed (a + b <? 0) (round53 (Z.abs (a + b)) 1)
  end.

(** The values of a column added one after the other, from 0.0. *)
Definition ieee_sum (l : list float) : float := fold_left fadd l (Fin 0).

(** The hundredths the format [.2f] prints of a finite double of magnitude
    [a]: correctly rounded, ties to even. *)
Definition hundredths (a : Z) : Z := div_half_even (100 * a) ulps.

(** What the column [Numeric(12, 2)] keeps of a Decimal on SQLite, in
    hundredths: the value is bound as [float(d)] and read back as
    [Decimal("%.2f" % x)].  An amount whose float is infinite (from about
    1.8e308) reads back as [Decimal('Infinity')]; the model keeps 2^1024 for
    it, whose float is infinite as well. *)
Definition stored_numeric (d : Decimal) : Z :=
  match float_of_Decimal d with
  | Fin n => if n <? 0 then - hundredths (- n) else hundredths n
  | PInf => 100 * 2 ^ 1024
  | NInf => - (100 * 2 ^ 1024)
  | NaN => 0
  end.

(** ** services/transaction_service.py: TransactionService *)

Definition timedelta_minutes (m : Z) : Z := m * 60 * 1000000.
Definition timedelta_days (d : Z) : Z := d * 24 * 60 * 60 * 1000000.

Definition fresh_id (db : DB) : Z :=
  1 + fold_right Z.max 0 (map t_id db).

(** [create_transaction]; [now] is [datetime.utcnow()], [commit_ok] tells
    whether [session.commit()] goes through.  On failure the session is rolled
    back and the exception raised again: the table is the one before. *)
Definition create_transaction (commit_ok : bool) (now : Z) (user_id : Z)
    (kind : TransactionKind) (category_id : Z) (subcategory_id : option Z)
    (amount : Decimal) (comment : option str) (currency : str)
    (effective_at : option Z) (db : DB) : outcome (Transaction * DB) :=
  let transaction :=
    mkTransaction (fresh_id db) user_id kind category_id subcategory_id
      (stored_numeric amount) currency comment now
      (match effective_at with Some e => e | None => now end) in
  if commit_ok then Return (transaction, db ++ [transaction])
  else Raise SQLAlchemyError.

(** [delete_last_transaction]: the query, then the delete.  SQLite answers
    the query from the index on (user_id, created_at), read backwards: of the
    rows created at the same time the one stored last comes first. *)
Definition last_transaction_query (now : Z) (user_id : Z) (minutes : Z) (db : DB)
    : option Transaction :=
  let cutoff_time := now - timedelta_minutes minutes in
  hd_error
    (offset_limit 0 1
       (order_by_desc t_created_at
          (rev (filter (fun t => (t_user_id t =? user_id)
                                 && (cutoff_time <=? t_created_at t)) db)))).

Definition delete_last_transaction (commit_ok : bool) (now : Z) (user_id : Z)
    (minutes : Z) (db : DB) : outcome (option Transaction * DB) :=
  match last_transaction_query now user_id minutes db with
  | Some transaction =>
      if commit_ok then Return (Some transaction, delete_row transaction db)
      else Raise SQLAlchemyError
  | None => Return (None, db)
  end.

(** [delete_transaction_by_id]; a failed commit is caught, rolled back and
    answered [False]. *)
Definition delete_transaction_by_id (commit_ok : bool) (user_id transaction_id : Z)
    (db : DB) : outcome (bool * DB) :=
  transaction <- scalar_one_or_none (filter (fun t => t_id t =? transaction_id) db) ;;
  match transaction with
  | None => Return (false, db)
  | Some transaction =>
      if negb (t_user_id transaction =? user_id) then Return (false, db)
      else if commit_ok then Return (true, delete_row transaction db)
      else Return (false, db)
  end.

(** ** main.py: cmd_undo *)

Inductive UndoReply : Type :=
| UndoDone (amount : Z) (currency : str) (category_id : Z)
| NothingToUndo.

Definition cmd_undo (commit_ok : bool) (now : Z) (from_user : Z) (db : DB)
    : outcome (UndoReply * DB) :=
  r <- delete_last_transaction commit_ok now from_user 5 db ;;
  match r with
  | (Some deleted_transaction, db') =>
      Return (UndoDone (t_amount deleted_transaction) (t_currency deleted_transaction)
                (t_category_id deleted_transaction), db')
  | (None, db') => Return (NothingToUndo, db')
  end.

(** ** handlers/recent.py *)

Definition TransactionKind_of_value (s : str) : option TransactionKind :=
  if str_eqb s (kind_value EXPENSE) then Some EXPENSE
  else if str_eqb s (kind_value INCOME) then Some INCOME
  else None.

(** [_fetch_recent]; a [kind] that is neither value leaves both kinds in. *)
Definition _fetch_recent (db : DB) (user_id : Z) (kind : option str)
    (offset : Z) (limit : Z) : list Transaction :=
  let query := filter (fun t => t_user_id t =? user_id) db in
  let query :=
    match kind with
    | Some k =>
        match TransactionKind_of_value k with
        | Some tk => filter (fun t => kind_eqb (t_kind t) tk) query
        | None => query
        end
    | None => query
    end in
  offset_limit offset limit (order_by_desc t_effective_at query).

(** [callback_data]: ["recent:{scope}:{offset}"],
    ["tx:del:{id}:{scope}:{offset}"], ["main_menu"]. *)
Inductive Callback : Type :=
| CbRecent (scope : str) (offset : Z)
| CbTxDel (id : Z) (scope : str) (offset : Z)
| CbMainMenu.

Inductive Label : Type :=
| LblExpenses | LblIncomes | LblAll
| LblDelete (id : Z)
| LblBack | LblForward
| LblMenu.

Record InlineKeyboardButton : Type := mkButton {
  text : Label;
  callback_data : Callback
}.

Definition InlineKeyboardMarkup := list (list InlineKeyboardButton).

Definition _with_delete_buttons (scope : str) (offset : Z) (items : list Transaction)
    : InlineKeyboardMarkup :=
  let rows :=
    [ [ mkButton LblExpenses (CbRecent (py "expense") 0);
        mkButton LblIncomes (CbRecent (py "income") 0);
        mkButton LblAll (CbRecent (py "all") 0) ] ] in
  let rows :=
    rows ++ map (fun t => [ mkButton (LblDelete (t_id t)) (CbTxDel (t_id t) scope offset) ]) items in
  let nav :=
    (if 0 <? offset
     then [ mkButton LblBack (CbRecent scope (Z.max 0 (offset - 10))) ]
     else [])
    ++
    (if Z.of_nat (length items) =? 10
     then [ mkButton LblForward (CbRecent scope (offset + 10)) ]
     else []) in
  let rows := match nav with [] => rows | _ => rows ++ [nav] end in
  rows ++ [ [ mkButton LblMenu CbMainMenu ] ].

(** [recent_paged]: the page and its keyboard. *)
Definition recent_paged (db : DB) (from_user : Z) (scope : str) (offset : Z)
    : list Transaction * InlineKeyboardMarkup :=
  let kind := if str_eqb scope (py "all") then None else Some scope in
  let items := _fetch_recent db from_user kind offset 10 in
  (items, _with_delete_buttons scope offset items).

Definition is_forward (b : InlineKeyboardButton) : bool :=
  match text b with LblForward => true | _ => false end.

(** The keyboard offers a next page. *)
Definition has_more (kb : InlineKeyboardMarkup) : bool :=
  existsb (existsb is_forward) kb.

(** [tx_delete_confirm]: the delete, then the same page again. *)
Definition tx_delete_confirm (commit_ok : bool) (db : DB) (from_user tx_id : Z)
    (scope : str) (offset : Z)
    : outcome (bool * (list Transaction * InlineKeyboardMarkup) * DB) :=
  r <- delete_transaction_by_id commit_ok from_user tx_id db ;;
  let (ok, db') := r : bool * DB in
  Return (ok, recent_paged db' from_user scope offset, db').

(** ** keyboards/categories.py, keyboards/main.py *)

Inductive Caption : Type :=
| CaptionName (name : str)     (* the name of a category *)
| CaptionConfirm
| CaptionCancel.

Record KeyButton : Type := mkKey {
  key_text : Caption;
  key_data : str
}.

Definition Keyboard := list (list KeyButton).

Definition get_cancel_keyboard : Keyboard :=
  [ [ mkKey CaptionCancel (py "cancel") ] ].

(** [get_confirm_keyboard(action: str, data: str)]: neither parameter has a
    default. *)
Definition get_confirm_keyboard (action data : str) : Keyboard :=
  [ [ mkKey CaptionConfirm (action ++ py "_confirm:" ++ data);
      mkKey CaptionCancel (py "cancel") ] ].

(** A call of [get_confirm_keyboard] with positional arguments [args]: binding
    them to the two parameters fails with [TypeError] unless there are two. *)
Definition call_get_confirm_keyboard (args : list str) : option Keyboard :=
  match args with
  | [action; data] => Some (get_confirm_keyboard action data)
  | _ => None
  end.

(** ** main.py: the amount step of the recording dialogue *)

Inductive TransactionStates : Type :=
| waiting_for_category
| waiting_for_subcategory
| waiting_for_comment
| waiting_for_amount
| waiting_for_confirmation.

(** The FSM data of one user: the draft and the id of the last message the
    bot sent for a step.  A key that is absent is [None]. *)
Record FSMData : Type := mkData {
  d_kind : option str;
  d_category_id : option Z;
  d_category_name : option str;
  d_subcategory_id : option Z;
  d_subcategory_name : option str;
  d_comment : option str;
  d_amount : option Decimal;
  d_last_bot_message_id : option Z
}.

Record FSMContext : Type := mkContext {
  fsm_state : option TransactionStates;
  fsm_data : FSMData
}.

Definition set_state (s : TransactionStates) (c : FSMContext) : FSMContext :=
  mkContext (Some s) (fsm_data c).

Definition update_amount (a : Decimal) (c : FSMContext) : FSMContext :=
  let d := fsm_data c in
  mkContext (fsm_state c)
    (mkData (d_kind d) (d_category_id d) (d_category_name d) (d_subcategory_id d)
       (d_subcategory_name d) (d_comment d) (Some a) (d_last_bot_message_id d)).

Definition update_last_bot_message_id (m : Z) (c : FSMContext) : FSMContext :=
  let d := fsm_data c in
  mkContext (fsm_state c)
    (mkData (d_kind d) (d_category_id d) (d_category_name d) (d_subcategory_id d)
       (d_subcategory_name d) (d_comment d) (d_amount d) (Some m)).

(** The fields of the draft, without the message pointer. *)
Definition draft (d : FSMData) :=
  (d_kind d, d_category_id d, d_category_name d, d_subcategory_id d,
   d_subcategory_name d, d_comment d, d_amount d).

Inductive KindText : Type := Spending | Earning.   (* "trata" / "dokhod" *)

Inductive ReplyMarkup : Type :=
| cancel_keyboard        (* get_cancel_keyboard() *)
| confirm_keyboard.      (* the keyboard of get_confirm_keyboard *)

(** The texts the amount step sends. *)
Inductive BotText : Type :=
| BadFormatText          (* wrong amount format, try again (1000, 1 500, 2.50) *)
| NonPositiveText        (* the amount must be greater than zero, try again *)
| ConfirmText (kind_text : KindText) (category_name : str)
    (subcategory_name : option str) (amount : Decimal) (comment : option str).

Inductive ChatMessage : Type :=
| FromUser (message_id : Z) (text : str)
| FromBot (message_id : Z) (text : BotText) (reply_markup : ReplyMarkup).

Definition message_id_of (m : ChatMessage) : Z :=
  match m with FromUser i _ => i | FromBot i _ _ => i end.

(** The chat as the transport shows it: the messages alive, and the id the
    next message gets. *)
Record Chat : Type := mkChat {
  alive : list ChatMessage;
  next_message_id : Z
}.

(** [delete_message]; a failure of the transport is swallowed by the callers. *)
Definition delete_message (i : Z) (ch : Chat) : Chat :=
  mkChat (filter (fun m => negb (message_id_of m =? i)) (alive ch)) (next_message_id ch).

Definition send_message (t : BotText) (k : ReplyMarkup) (ch : Chat) : Z * Chat :=
  let i := next_message_id ch in
  (i, mkChat (alive ch ++ [FromBot i t k]) (i + 1)).

Record World : Type := mkWorld {
  w_fsm : FSMContext;
  w_chat : Chat;
  w_db : DB
}.

(** utils/message_utils.py: [_send_step_message] *)
Definition _send_step_message (t : BotText) (k : ReplyMarkup) (w : World) : World :=
  let prev_id := d_last_bot_message_id (fsm_data (w_fsm w)) in
  let chat :=
    match prev_id with
    | Some p => if p =? 0 then w_chat w else delete_message p (w_chat w)
    | None => w_chat w
    end in
  let (i, chat) := send_message t k chat in
  mkWorld (update_last_bot_message_id i (w_fsm w)) chat (w_db w).

(** Truthiness of an optional string: [None] and [""] are false. *)
Definition truthy (s : option str) : option str :=
  match s with
  | Some [] => None
  | _ => s
  end.

(** [process_amount], the handler of a text message in the state
    [waiting_for_amount].  The world after it, and the exception that left
    the handler, if any.  Its last statement is
    [_send_step_message(..., reply_markup=get_confirm_keyboard("transaction"))]:
    the argument is evaluated before the message is sent. *)
Definition process_amount (message_id : Z) (message_text : str) (w : World)
    : World * option pyexn :=
  let w := mkWorld (w_fsm w) (delete_message message_id (w_chat w)) (w_db w) in
  match parse_amount message_text with
  | Raise e => (w, Some (Propagated e))
  | Return None => (_send_step_message BadFormatText cancel_keyboard w, None)
  | Return (Some amount) =>
      if dec_leb amount dec_zero
      then (_send_step_message NonPositiveText cancel_keyboard w, None)
      else
        let data := fsm_data (w_fsm w) in
        let w := mkWorld (update_amount amount (w_fsm w)) (w_chat w) (w_db w) in
        match d_kind data, d_category_name data with
        | Some kind, Some category_name =>
            let kind_text := if str_eqb kind (py "expense") then Spending else Earning in
            let w := mkWorld (set_state waiting_for_confirmation (w_fsm w)) (w_chat w) (w_db w) in
            match call_get_confirm_keyboard [py "transaction"] with
            | Some _ =>
                (_send_step_message
                   (ConfirmText kind_text category_name (truthy (d_subcategory_name data))
                      amount (truthy (d_comment data)))
                   confirm_keyboard w, None)
            | None => (w, Some TypeError)
            end
        | _, _ => (w, Some (Propagated KeyError))
        end
  end.

(** ** services/report_service.py *)

Definition sumZ (l : list Z) : Z := fold_right Z.add 0 l.

Definition digit_char (d : Z) : ascii := ascii_of_nat (Z.to_nat (48 + d)).

Fixpoint digits_fuel (fuel : nat) (n : Z) (acc : str) : str :=
  match fuel with
  | O => acc
  | S f =>
      let acc' := digit_char (n mod 10) :: acc in
      if n / 10 =? 0 then acc' else digits_fuel f (n / 10) acc'
  end.

(** The decimal digits of a natural number. *)
Definition digits_of (n : Z) : str :=
  digits_fuel (S (Z.to_nat (Z.log2 n))) n [].

(** [str(z)] of an [int]. *)
Definition str_of_Z (z : Z) : str :=
  (if z <? 0 then py "-" else []) ++ digits_of (Z.abs z).

(** Lexicographic order of strings, by code point. *)
Fixpoint str_leb (a b : str) : bool :=
  match a, b with
  | [], _ => true
  | _ :: _, [] => false
  | x :: a', y :: b' =>
      if code x <? code y then true
      else if code y <? code x then false
      else str_leb a' b'
  end.

(** pandas: [Series.sum] of a float64 column and the sum of one group of a
    grouped float64 column, as functions of the values in the order of the
    rows.  Both add binary floats; how they group and compensate the
    additions is library code. *)
Record Pandas : Type := mkPandas {
  Series_sum : list float -> float;
  GroupBy_sum : list float -> float
}.

(** On fewer than eight values numpy adds a column one value after the other,
    and on a group of up to two values the compensated sum of pandas is the
    plain sum. *)
Definition ieee : Pandas := mkPandas ieee_sum ieee_sum.

(** The place of a float in [sort_values]: by value, NaN at the end of a
    descending order. *)
Definition sort_key (x : float) : Z :=
  match x with
  | Fin n => n
  | PInf => overflow
  | NInf => - overflow
  | NaN => - overflow - 1
  end.

(** Columns: date, category, subcategory, amount, currency, comment. *)
Record DetailRow : Type := mkDetailRow {
  r_date : Z;
  r_category : str;
  r_subcategory : str;
  r_amount : float;
  r_currency : str;
  r_comment : str
}.

(** Columns: category, count, amount. *)
Record CategoryRow : Type := mkCategoryRow {
  c_category : str;
  c_count : Z;
  c_sum : float
}.

(** Columns: category, subcategory, amount. *)
Record SubcategoryRow : Type := mkSubcategoryRow {
  s_category : str;
  s_subcategory : str;
  s_sum : float
}.

(** Columns: subcategory, amount (a section of one category). *)
Record SectionRow : Type := mkSectionRow {
  sec_subcategory : str;
  sec_sum : float
}.

Inductive Indicator : Type := TotalSum | OperationCount.

(** A DataFrame, by its columns.  The value column of [overall] holds a
    float and an int, which makes it a float64 column. *)
Inductive Table : Type :=
| Detail (rows : list DetailRow)
| ByCategory (rows : list CategoryRow)
| BySubcategory (rows : list SubcategoryRow)
| Overall (rows : list (Indicator * float))
| Section (rows : list SectionRow).

Definition table_length (t : Table) : nat :=
  match t with
  | Detail r => length r
  | ByCategory r => length r
  | BySubcategory r => length r
  | Overall r => length r
  | Section r => length r
  end.



(** The titles of the aggregated tables: by categories, by subcategories,
    total. *)
Inductive AggTitle : Type := TitleByCategory | TitleBySubcategory | TitleOverall.

Record Summary : Type := mkSummary {
  sm_kind : str;
  sm_total : float;
  sm_count : Z
}.

Definition CategoryMap := list (Z * str).

Fixpoint cm_get (m : CategoryMap) (k : Z) : option str :=
  match m with
  | [] => None
  | (k', v) :: t => if k' =? k then Some v else cm_get t k
  end.

(** [_sanitize]: characters above the basic plane are dropped; the strings of
    the model have none. *)
Definition _sanitize (text : option str) : str :=
  match text with
  | Some s => s
  | None => []
  end.

Definition _build_dataframe (transactions : list Transaction) (category_map : CategoryMap)
    : list DetailRow :=
  map (fun t =>
         mkDetailRow
           (t_effective_at t)
           (match cm_get category_map (t_category_id t) with
            | Some n => n
            | None => str_of_Z (t_category_id t)
            end)
           (match t_subcategory_id t with
            | Some s =>
                if s =? 0 then py "-"
                else match cm_get category_map s with Some n => n | None => py "-" end
            | None => py "-"
            end)
           (float_of_Decimal (mkDecimal (t_amount t) 2))
           (t_currency t)
           (_sanitize (t_comment t)))
      transactions.

(** The keys of a [groupby], distinct and in ascending order. *)
Definition group_keys {K} (eq_dec : forall a b : K, {a = b} + {a <> b})
    (leb : K -> K -> bool) (ks : list K) : list K :=
  sort_by leb (nodup eq_dec ks).

Definition pair_eq_dec : forall a b : str * str, {a = b} + {a <> b}.
Proof. decide equality; apply str_eq_dec. Defined.

Definition pair_leb (a b : str * str) : bool :=
  if str_eqb (fst a) (fst b) then str_leb (snd a) (snd b) else str_leb (fst a) (fst b).

Definition group_by_category (pd : Pandas) (df : list DetailRow) : list CategoryRow :=
  map (fun k =>
         let g := filter (fun r => str_eqb (r_category r) k) df in
         mkCategoryRow k (Z.of_nat (length g)) (GroupBy_sum pd (map r_amount g)))
      (group_keys str_eq_dec str_leb (map r_category df)).

Definition group_by_subcategory (pd : Pandas) (df : list DetailRow) : list SubcategoryRow :=
  map (fun k =>
         let g := filter (fun r => str_eqb (r_category r) (fst k)
                                   && str_eqb (r_subcategory r) (snd k)) df in
         mkSubcategoryRow (fst k) (snd k) (GroupBy_sum pd (map r_amount g)))
      (group_keys pair_eq_dec pair_leb (map (fun r => (r_category r, r_subcategory r)) df)).

Definition is_empty {A} (l : list A) : bool :=
  match l with [] => true | _ => false end.

Definition mode_is (mode : option str) (name : string) : bool :=
  match mode with
  | Some m => str_eqb m (py name)
  | None => false
  end.

(** [not mode]: [None] or the empty string. *)
Definition no_mode (mode : option str) : bool :=
  match mode with
  | None | Some [] => true
  | _ => false
  end.

Definition _aggregate_df (pd : Pandas) (df : list DetailRow) (mode : option str)
    : Table * option AggTitle :=
  if is_empty df || no_mode mode || mode_is mode "detail" then (Detail df, None)
  else if mode_is mode "by_category" then
    (ByCategory (order_by_desc (fun r => sort_key (c_sum r)) (group_by_category pd df)),
     Some TitleByCategory)
  else if mode_is mode "by_subcategory" then
    (BySubcategory (order_by_desc (fun r => sort_key (s_sum r)) (group_by_subcategory pd df)),
     Some TitleBySubcategory)
  else if mode_is mode "overall" then
    let total := Series_sum pd (map r_amount df) in
    let count := Z.of_nat (length df) in
    (Overall [(TotalSum, total); (OperationCount, float_of_int count)], Some TitleOverall)
  else (Detail df, None).

(** [_build_category_sections]: the sheets (a dict, in insertion order) and
    the tables of the image. *)
Definition _build_category_sections (pd : Pandas) (df : list DetailRow)
    : list (str * list SectionRow) * list (str * list SectionRow) :=
  if is_empty df then ([], [])
  else
    let cats :=
      order_by_desc (fun row => sort_key (snd row))
        (map (fun k =>
                (k, GroupBy_sum pd
                      (map r_amount (filter (fun r => str_eqb (r_category r) k) df))))
           (group_keys str_eq_dec str_leb (map r_category df))) in
    let tables :=
      map (fun row =>
             let cat_name := fst row in
             let g := filter (fun r => str_eqb (r_category r) cat_name) df in
             let sub :=
               order_by_desc (fun r => sort_key (sec_sum r))
                 (map (fun k =>
                         mkSectionRow k
                           (GroupBy_sum pd
                              (map r_amount
                                 (filter (fun r => str_eqb (r_subcategory r) k) g))))
                    (group_keys str_eq_dec str_leb (map r_subcategory g))) in
             (cat_name, sub))
          cats in
    (tables, tables).

(** *** The amount cell of a rendered table *)

(** The grouping option [,] of the format, on reversed digits. *)
Fixpoint group3_rev (l : str) : str :=
  match l with
  | a :: b :: c :: ((_ :: _) as t) => a :: b :: c :: ","%char :: group3_rev t
  | _ => l
  end.

Definition group3 (ds : str) : str := rev (group3_rev (rev ds)).

(** A sign, the grouped digits of the integral part, a point and two digits,
    for [a] hundredths. *)
Definition fixed2 (negative : bool) (a : Z) : str :=
  (if negative then py "-" else [])
  ++ group3 (digits_of (a / 100))
  ++ py "."
  ++ [digit_char ((a mod 100) / 10); digit_char (a mod 10)].

(** [f"{x:,.2f}"] of a float. *)
Definition format_2f (x : float) : str :=
  match x with
  | Fin n => fixed2 (n <? 0) (hundredths (Z.abs n))
  | PInf => py "inf"
  | NInf => py "-inf"
  | NaN => py "nan"
  end.

(** The lambda of [_render_table_on_axis]:
    [f"{x:,.2f}".replace(',', ' ').replace('.', ',')]. *)
Definition amount_cell (x : float) : str :=
  replace "."%char (py ",") (replace ","%char (py " ") (format_2f x)).


(** The display of a parsed amount: the cell of its float. *)
Definition format_amount (d : Decimal) : str := amount_cell (float_of_Decimal d).

(** *** Artifacts *)

Inductive SheetName : Type :=
| sheet_data | sheet_summary | sheet_meta
| sheet_aggregate (title : AggTitle)   (* "aggregate_" + title *)
| sheet_named (name : str).

Inductive Sheet : Type :=
| TableSheet (t : Table)
| SummarySheet (s : Summary)
| MetaSheet (generated_at : Z) (kind : str).

Definition Workbook := list (SheetName * Sheet).

(** A sheet name is at most 31 characters long. *)
Definition writer_sheet (name : str) : str :=
  if (31 <? length name)%nat then firstn 28 name ++ py "..." else name.

Definition _write_excel (now : Z) (df : list DetailRow) (kind : TransactionKind)
    (summary : Summary) (aggregate_df : option Table) (aggregate_title : option AggTitle)
    (extra_sheets : list (str * list SectionRow)) : Workbook :=
  [ (sheet_data, TableSheet (Detail df));
    (sheet_summary, SummarySheet summary);
    (sheet_meta, MetaSheet now (kind_value kind)) ]
  ++ match aggregate_df with
     | Some a =>
         [ (match aggregate_title with
            | Some t => sheet_aggregate t
            | None => sheet_named (py "aggregate")
            end, TableSheet a) ]
     | None => []
     end
  ++ map (fun s => (sheet_named (writer_sheet (fst s)), TableSheet (Section (snd s))))
       extra_sheets.

Inductive Png : Type :=
| SingleTable (kind : TransactionKind) (summary : Summary) (t : Table)
    (title_suffix : option AggTitle)
| NoData (kind : TransactionKind)
| Sections (kind : TransactionKind) (summary : Summary)
    (tables : list (str * list SectionRow)).

(** [_render_table_on_axis]: [ax.table] of matplotlib reads the first row of
    the cells for the number of columns and raises [IndexError] on a table
    without rows. *)
Definition _render_table_on_axis (table_df : Table) : result unit :=
  if (table_length table_df =? 0)%nat then Failed IndexError else Done tt.

Definition _write_png (table_df : Table) (kind : TransactionKind) (summary : Summary)
    (title_suffix : option AggTitle) : result Png :=
  match _render_table_on_axis table_df with
  | Failed e => Failed e
  | Done _ => Done (SingleTable kind summary table_df title_suffix)
  end.

(** The loop of [_write_png_sections] over the tables it draws. *)
Fixpoint render_each (tables : list (str * list SectionRow)) : result unit :=
  match tables with
  | [] => Done tt
  | (_, df) :: rest =>
      match _render_table_on_axis (Section df) with
      | Failed e => Failed e
      | Done _ => render_each rest
      end
  end.

Definition _write_png_sections (png_tables : list (str * list SectionRow))
    (kind : TransactionKind) (summary : Summary) : result Png :=
  let n := length png_tables in
  if (n =? 0)%nat then Done (NoData kind)
  else
    let max_tables := Nat.min n 12 in
    match render_each (firstn max_tables png_tables) with
    | Failed e => Failed e
    | Done _ => Done (Sections kind summary (firstn max_tables png_tables))
    end.

Record Report : Type := mkReport {
  xlsx : Workbook;
  png : list Png;
  summary : Summary
}.

Section ReportService.

(** [Transaction.comment.ilike(f"%{q}%")] of the SQL engine, on a comment
    that is not NULL. *)
Variable ilike_contains : str -> str -> bool.

Variable pd : Pandas.

Definition fetch_transactions (db : DB) (user_id : Z) (kind : TransactionKind)
    (start_date end_date : option Z) (category_ids subcategory_ids : list Z)
    (amount_min amount_max : option Decimal) (comment_query : option str)
    (limit : option Z) : list Transaction :=
  let keep (t : Transaction) : bool :=
    (t_user_id t =? user_id)
    && kind_eqb (t_kind t) kind
    && match start_date with Some s => s <=? t_effective_at t | None => true end
    && match end_date with Some e => t_effective_at t <=? e | None => true end
    && (if is_empty category_ids then true
        else existsb (Z.eqb (t_category_id t)) category_ids)
    && (if is_empty subcategory_ids then true
        else match t_subcategory_id t with
             | Some s => existsb (Z.eqb s) subcategory_ids
             | None => false
             end)
    && match amount_min with
       | Some m => dec_leb m (mkDecimal (t_amount t) 2)
       | None => true
       end
    && match amount_max with
       | Some m => dec_leb (mkDecimal (t_amount t) 2) m
       | None => true
       end
    && match truthy comment_query with
       | Some q =>
           match t_comment t with
           | Some c => ilike_contains q c
           | None => false
           end
       | None => true
       end in
  let rows := order_by_asc t_effective_at (filter keep db) in
  match limit with
  | Some l => if l =? 0 then rows else sql_limit l rows
  | None => rows
  end.

(** [build_report]; [now] is [datetime.utcnow()], [category_map] the result
    of [_load_category_map].  The workbook is written before the image is
    drawn; when the drawing raises nothing is returned. *)
Definition build_report (now : Z) (db : DB) (category_map : CategoryMap)
    (user_id : Z) (kind : TransactionKind)
    (start_date end_date : option Z) (category_ids subcategory_ids : list Z)
    (amount_min amount_max : option Decimal) (comment_query : option str)
    (aggregation : option str) : result Report :=
  let end_date := match end_date with Some e => e | None => now end in
  let start_date :=
    match start_date with Some s => s | None => end_date - timedelta_days 30 end in
  let transactions :=
    fetch_transactions db user_id kind (Some start_date) (Some end_date)
      category_ids subcategory_ids amount_min amount_max comment_query None in
  let df := _build_dataframe transactions category_map in
  let total := if is_empty df then Fin 0 else Series_sum pd (map r_amount df) in
  let count := Z.of_nat (length df) in
  let summary := mkSummary (kind_value kind) total count in
  if mode_is aggregation "by_category_sections" && kind_eqb kind EXPENSE then
    let (extra_sheets, png_tables) := _build_category_sections pd df in
    let workbook := _write_excel now df kind summary None None extra_sheets in
    match _write_png_sections png_tables kind summary with
    | Failed e => Failed e
    | Done image => Done (mkReport workbook [image] summary)
    end
  else
    let (agg_df, agg_title) := _aggregate_df pd df aggregation in
    let workbook :=
      _write_excel now df kind summary
        (match agg_title with Some _ => Some agg_df | None => None end)
        agg_title [] in
    let display_df := match agg_title with Some _ => agg_df | None => Detail df end in
    match _write_png display_df kind summary agg_title with
    | Failed e => Failed e
    | Done image => Done (mkReport workbook [image] summary)
    end.

End ReportService.

(** ** Specification-side notions *)

Definition digits (s : str) : Prop := Forall (fun c => isdigit c = true) s.

(** "digits, optionally one period, optionally trailing digits" *)
Definition amount_grammar (s : str) : Prop :=
  exists ip dot fp,
    ip <> [] /\ digits ip /\ digits fp /\ (dot = [] \/ dot = py ".")
    /\ s = ip ++ dot ++ fp.

(** The number a digit string denotes. *)
Definition number_of (ds : str) : Z :=
  fold_left (fun acc c => 10 * acc + digit_of c) ds 0.

(** The decimal reading of an accepted string. *)
Inductive reads : str -> Decimal -> Prop :=
| reads_integer ip :
    ip <> [] -> digits ip -> reads ip (mkDecimal (number_of ip) 0)
| reads_fraction ip fp :
    ip <> [] -> digits ip -> digits fp ->
    reads (ip ++ py "." ++ fp) (mkDecimal (number_of (ip ++ fp)) (length fp)).

Definition all_space (s : str) : Prop := Forall (fun c => isspace c = true) s.

(** No whitespace at either end. *)
Definition trimmed (s : str) : Prop :=
  (forall c t, s = c :: t -> isspace c = false)
  /\ (forall t c, s = t ++ [c] -> isspace c = false).

(** The amount parses and the validation step [amount <= 0] rejects it. *)
Definition parses_then_rejected (s : str) : Prop :=
  exists d, parse_amount s = Return (Some d) /\ dec_leb d dec_zero = true.

(** The step is asked again with the text [t]: the state and the draft are as
    before, the table of transactions too, and the chat ends with the new
    prompt, to which the message pointer moves; no other message is added. *)
Definition reprompted (t : BotText) (w w' : World) : Prop :=
  fsm_state (w_fsm w') = fsm_state (w_fsm w)
  /\ draft (fsm_data (w_fsm w')) = draft (fsm_data (w_fsm w))
  /\ w_db w' = w_db w
  /\ d_last_bot_message_id (fsm_data (w_fsm w')) = Some (next_message_id (w_chat w))
  /\ exists old,
       alive (w_chat w') = old ++ [FromBot (next_message_id (w_chat w)) t cancel_keyboard]
       /\ incl old (alive (w_chat w)).

(** The rows of one user, of one kind or of both. *)
Definition matching (db : DB) (user_id : Z) (kind : option TransactionKind)
    : list Transaction :=
  filter (fun t => (t_user_id t =? user_id)
                   && match kind with
                      | Some k => kind_eqb (t_kind t) k
                      | None => true
                      end) db.

Definition newest_first (l : list Transaction) : Prop :=
  StronglySorted (fun a b => t_effective_at b <= t_effective_at a) l.

(** Created by the user inside the window of [minutes] before [now]. *)
Definition undoable (now user_id minutes : Z) (t : Transaction) : Prop :=
  t_user_id t = user_id /\ now - timedelta_minutes minutes <= t_created_at t.

(** Every row of the user shows when the whole listing is asked for. *)
Definition listing (db : DB) (user_id : Z) : list Transaction :=
  _fetch_recent db user_id None 0 (Z.of_nat (length db)).

(** The kind a listing is narrowed to. *)
Definition scope_kind (kind : option str) : option TransactionKind :=
  match kind with
  | Some k => TransactionKind_of_value k
  | None => None
  end.

(** The kind a scope of the browser ("expense", "income", "all") selects. *)
Definition scope_filter (scope : str) : option TransactionKind :=
  scope_kind (if str_eqb scope (py "all") then None else Some scope).

(** The unaggregated filtered set of a report request, as a table. *)
Definition filtered_set (ilike_contains : str -> str -> bool) (now : Z) (db : DB)
    (category_map : CategoryMap) (user_id : Z) (kind : TransactionKind)
    (start_date end_date : option Z) (category_ids subcategory_ids : list Z)
    (amount_min amount_max : option Decimal) (comment_query : option str)
    : list DetailRow :=
  let e := match end_date with Some e => e | None => now end in
  let s := match start_date with Some s => s | None => e - timedelta_days 30 end in
  _build_dataframe
    (fetch_transactions ilike_contains db user_id kind (Some s) (Some e)
       category_ids subcategory_ids amount_min amount_max comment_query None)
    category_map.

(** The summary of a table of raw rows: the kind, the float sum of the
    amounts (0.0 of an empty table) and the number of rows. *)
Definition summary_of (pd : Pandas) (kind : TransactionKind) (df : list DetailRow)
    : Summary :=
  mkSummary (kind_value kind)
    (if is_empty df then Fin 0 else Series_sum pd (map r_amount df))
    (Z.of_nat (length df)).


(** The value of a Decimal lies below 2^46, about 7.03e13. *)
Definition below_2_46 (d : Decimal) : Prop :=
  coef d < 2 ^ 46 * pow10 (scale d).

(** Parsing what the display shows gives the parsed value back. *)
Definition display_roundtrip (d : Decimal) : Prop :=
  exists d', parse_amount (format_amount d) = Return (Some d') /\ dec_eqb d' d = true.

(** What cleaning does to the characters of an amount cell: the two
    replacements of the cell, then the two of [parse_amount]. *)
Definition uncell (s : str) : str :=
  map (fun x => if Ascii.eqb x ","%char then "."%char else x)
    (filter (fun x => negb (Ascii.eqb x " "%char))
       (map (fun x => if Ascii.eqb x "."%char then ","%char else x)
          (map (fun x => if Ascii.eqb x ","%char then " "%char else x) s))).

(** ** Sample data *)

Definition sample_expense : Transaction :=
  mkTransaction 1 1 EXPENSE 36 (Some 40) 5000 (py "RUB") (Some (py "test expense"))
    1000000000 1000000000.

Definition sample_income : Transaction :=
  mkTransaction 2 1 INCOME 103 None 70000 (py "RUB") (Some (py "test income"))
    1200000000 1200000000.

Definition sample_foreign : Transaction :=
  mkTransaction 3 2 EXPENSE 36 None 1250 (py "RUB") None 1250000000 1250000000.

Definition sample_db : DB := [sample_expense; sample_income; sample_foreign].

(** Fifteen expenses of user 1, one of user 2. *)
Definition sample_fifteen : DB :=
  map (fun i => mkTransaction (Z.of_nat i) 1 EXPENSE 36 None (100 * Z.of_nat i) (py "RUB")
                  None (Z.of_nat i) (Z.of_nat i))
      (seq 1 15)
  ++ [sample_foreign].


(** A dialogue waiting for the amount of an expense. *)
Definition sample_world : World :=
  mkWorld
    (mkContext (Some waiting_for_amount)
       (mkData (Some (py "expense")) (Some 36) (Some (py "Gifts")) None None None None
          (Some 11)))
    (mkChat [FromBot 11 BadFormatText cancel_keyboard; FromUser 12 (py "0")] 13)
    sample_db.

(** * The rest of the code *)

(** ** storage/models.py: Category, User *)

Record Category : Type := mkCategory {
  cat_id : Z;
  cat_name : str;
  cat_kind : TransactionKind;
  cat_parent_id : option Z
}.

Record User : Type := mkUser {
  u_id : Z;
  u_username : option str;
  u_first_name : option str;
  u_last_name : option str;
  u_timezone : str;
  u_created_at : Z;
  u_updated_at : Z
}.

(** ** keyboards/categories.py: the keyboard of categories *)

Definition get_categories_keyboard (categories : list Category) (action : str) : Keyboard :=
  map (fun category =>
         [ mkKey (CaptionName (cat_name category))
             (action ++ py "_category:" ++ str_of_Z (cat_id category)) ])
      categories
  ++ [ [ mkKey CaptionCancel (py "cancel") ] ].

(** ** main.py: the confirmation *)

(** [state.clear()] *)
Definition clear (c : FSMContext) : FSMContext :=
  mkContext None (mkData None None None None None None None None).

Inductive ConfirmReply : Type :=
| SavedReply (kind_text : KindText) (amount : Decimal) (id : Z)
| AmountErrorAnswer      (* the amount could not be processed *)
| SaveErrorReply.        (* the operation could not be saved, try again *)

(** [process_confirmation], on the FSM context of the caller and the table.
    The two conversions before the [try] are not guarded; everything inside
    it is caught, and the state is cleared on the success path only. *)
Definition process_confirmation (commit_ok : bool) (now : Z) (from_user : Z)
    (c : FSMContext) (db : DB) : FSMContext * DB * result ConfirmReply :=
  let data := fsm_data c in
  let kind := d_kind data in
  match d_category_id data with
  | None => (c, db, Failed TypeError)
  | Some category_id =>
      let subcategory_id :=
        match d_subcategory_id data with
        | Some s => if s =? 0 then None else Some s
        | None => None
        end in
      let amount := d_amount data in
      let comment := truthy (d_comment data) in
      match amount with
      | None => (c, db, Done AmountErrorAnswer)
      | Some amount =>
          match match kind with Some k => TransactionKind_of_value k | None => None end with
          | None => (c, db, Done SaveErrorReply)
          | Some tk =>
              match create_transaction commit_ok now from_user tk category_id
                      subcategory_id amount comment (py "RUB") None db with
              | Raise _ => (c, db, Done SaveErrorReply)
              | Return (transaction, db') =>
                  (clear c, db',
                   Done (SavedReply
                           (match kind with
                            | Some k => if str_eqb k (py "expense") then Spending else Earning
                            | None => Earning
                            end)
                           amount (t_id transaction)))
              end
          end
      end
  end.

(** The filter of [process_confirmation]: [c.data == "transaction_confirm"]. *)
Definition is_transaction_confirm (data : str) : bool :=
  str_eqb data (py "transaction_confirm").

(** A prompt of the amount step that asks again. *)
Definition is_error_prompt (next : Z) (m : ChatMessage) : Prop :=
  m = FromBot next BadFormatText cancel_keyboard
  \/ m = FromBot next NonPositiveText cancel_keyboard.

(** ** services/transaction_service.py: the other queries *)

(** [get_user_transactions]; both values of the enumeration are true, so
    [if kind:] tells whether a kind was given. *)
Definition get_user_transactions (db : DB) (user_id : Z) (kind : option TransactionKind)
    (start_date end_date : option Z) (limit : Z) : list Transaction :=
  let query := filter (fun t => t_user_id t =? user_id) db in
  let query :=
    match kind with
    | Some k => filter (fun t => kind_eqb (t_kind t) k) query
    | None => query
    end in
  let query :=
    match start_date with
    | Some s => filter (fun t => s <=? t_effective_at t) query
    | None => query
    end in
  let query :=
    match end_date with
    | Some e => filter (fun t => t_effective_at t <=? e) query
    | None => query
    end in
  sql_limit limit (order_by_desc t_effective_at query).

Definition get_recent_transactions (db : DB) (user_id : Z) (limit : Z) : list Transaction :=
  get_user_transactions db user_id None None None limit.





(** [get_or_create_user]; the commit of a new user is not guarded. *)
Definition get_or_create_user (commit_ok : bool) (now : Z) (user_id : Z)
    (username first_name last_name : option str) (users : list User)
    : outcome (User * list User) :=
  user <- scalar_one_or_none (filter (fun u => u_id u =? user_id) users) ;;
  match user with
  | Some user => Return (user, users)
  | None =>
      let user := mkUser user_id username first_name last_name (py "Europe/Moscow") now now in
      if commit_ok then Return (user, users ++ [user])
      else Raise SQLAlchemyError
  end.

(** The rows [get_user_transactions] selects from. *)
Definition in_scope (user_id : Z) (kind : option TransactionKind)
    (start_date end_date : option Z) (t : Transaction) : bool :=
  (t_user_id t =? user_id)
  && match kind with Some k => kind_eqb (t_kind t) k | None => true end
  && match start_date with Some s => s <=? t_effective_at t | None => true end
  && match end_date with Some e => t_effective_at t <=? e | None => true end.

(** The subcategory a confirmation stores: an id of zero counts as none. *)
Definition stored_subcategory (s : option Z) : option Z :=
  match s with
  | Some s => if s =? 0 then None else Some s
  | None => None
  end.

(** A complete draft of an expense, waiting for the confirmation. *)
Definition sample_confirm : FSMContext :=
  mkContext (Some waiting_for_confirmation)
    (mkData (Some (py "expense")) (Some 36) (Some (py "Gifts")) (Some 40)
       (Some (py "Other")) None (Some (mkDecimal 100 0)) (Some 11)).

(** Three stored users for the examples. *)
Definition sample_users : list User :=
  [ mkUser 1 (Some (py "tester")) None None (py "Europe/Moscow") 5 5;
    mkUser 2 None (Some (py "Ann")) None (py "Europe/Moscow") 7 7 ].

(** Ten expenses of user 1. *)
Definition sample_ten : DB :=
  map (fun i => mkTransaction (Z.of_nat i) 1 EXPENSE 36 None (100 * Z.of_nat i) (py "RUB")
                  None (Z.of_nat i) (Z.of_nat i))
      (seq 1 10).

(** The page of the browser at page number [k]. *)
Definition page (db : DB) (user_id : Z) (scope : str) (k : nat) : list Transaction :=
  fst (recent_paged db user_id scope (Z.of_nat (10 * k))).

(** The buttons of a keyboard, row after row. *)
Definition buttons (kb : InlineKeyboardMarkup) : list InlineKeyboardButton := concat kb.

Definition is_delete (b : InlineKeyboardButton) : bool :=
  match text b with LblDelete _ => true | _ => false end.

Definition is_back (b : InlineKeyboardButton) : bool :=
  match text b with LblBack => true | _ => false end.

Definition oldest_first (l : list Transaction) : Prop :=
  StronglySorted (fun a b => t_effective_at a <= t_effective_at b) l.

(** The dates a report covers: to [end_date] or now, from [start_date] or
    thirty days before the end. *)
Definition report_window (now : Z) (start_date end_date : option Z) : Z * Z :=
  let e := match end_date with Some e => e | None => now end in
  (match start_date with Some s => s | None => e - timedelta_days 30 end, e).

(** The transactions a report is made of. *)
Definition report_transactions (ilike_contains : str -> str -> bool) (now : Z) (db : DB)
    (user_id : Z) (kind : TransactionKind)
    (start_date end_date : option Z) (category_ids subcategory_ids : list Z)
    (amount_min amount_max : option Decimal) (comment_query : option str)
    : list Transaction :=
  fetch_transactions ilike_contains db user_id kind
    (Some (fst (report_window now start_date end_date)))
    (Some (snd (report_window now start_date end_date)))
    category_ids subcategory_ids amount_min amount_max comment_query None.

(** The grouped sum of the amounts of a category, taken in the order of the
    rows. *)
Definition category_total (pd : Pandas) (df : list DetailRow) (c : str) : float :=
  GroupBy_sum pd (map r_amount (filter (fun r => str_eqb (r_category r) c) df)).

(** The grouped sum of the amounts of a subcategory of a category. *)
Definition subcategory_total (pd : Pandas) (df : list DetailRow) (c s : str) : float :=
  GroupBy_sum pd
    (map r_amount
       (filter (fun r => str_eqb (r_category r) c && str_eqb (r_subcategory r) s) df)).

(** Ordered by falling amount, as [sort_values(ascending=False)] leaves a
    float column: NaN, if any, at the end. *)
Definition falling {A} (amount : A -> float) (l : list A) : Prop :=
  StronglySorted (fun a b => sort_key (amount b) <= sort_key (amount a)) l.

(** The sections of a table that is not empty. *)
Definition sections_of (pd : Pandas) (df : list DetailRow) : list (str * list SectionRow) :=
  map (fun row : str * float =>
         (fst row,
          order_by_desc (fun r => sort_key (sec_sum r))
            (map (fun k =>
                    mkSectionRow k
                      (GroupBy_sum pd
                         (map r_amount
                            (filter (fun r => str_eqb (r_subcategory r) k)
                               (filter (fun r => str_eqb (r_category r) (fst row)) df)))))
               (group_keys str_eq_dec str_leb
                  (map r_subcategory
                     (filter (fun r => str_eqb (r_category r) (fst row)) df))))))
      (order_by_desc (fun row => sort_key (snd row))
         (map (fun k => (k, category_total pd df k))
            (group_keys str_eq_dec str_leb (map r_category df)))).

(** ** storage/categories.py *)

Definition get_categories_by_kind (cats : list Category) (kind : TransactionKind)
    : list Category :=
  filter (fun c => kind_eqb (cat_kind c) kind
                   && match cat_parent_id c with None => true | Some _ => false end)
    cats.

Definition get_subcategories (cats : list Category) (parent_id : Z) : list Category :=
  filter (fun c => match cat_parent_id c with Some p => p =? parent_id | None => false end)
    cats.

Definition get_category_by_id (cats : list Category) (category_id : Z)
    : outcome (option Category) :=
  scalar_one_or_none (filter (fun c => cat_id c =? category_id) cats).

(** An object of the array in data/categories.json; a key that is absent is
    [None], a value has the type of its column. *)
Record CategoryEntry : Type := mkEntry {
  j_id : option Z;
  j_name : option str;
  j_kind : option str;
  j_parent_id : option Z
}.

(** [Category(id=cat_data["id"], name=cat_data["name"],
    kind=TransactionKind(cat_data["kind"]), parent_id=cat_data.get("parent_id"))] *)
Definition category_of_entry (e : CategoryEntry) : result Category :=
  match j_id e with
  | None => Failed (Propagated KeyError)
  | Some i =>
      match j_name e with
      | None => Failed (Propagated KeyError)
      | Some n =>
          match j_kind e with
          | None => Failed (Propagated KeyError)
          | Some k =>
              match TransactionKind_of_value k with
              | None => Failed ValueError
              | Some tk => Done (mkCategory i n tk (j_parent_id e))
              end
          end
      end
  end.

Fixpoint categories_of_entries (es : list CategoryEntry) : result (list Category) :=
  match es with
  | [] => Done []
  | e :: es' =>
      match category_of_entry e with
      | Failed x => Failed x
      | Done c =>
          match categories_of_entries es' with
          | Failed x => Failed x
          | Done cs => Done (c :: cs)
          end
      end
  end.

(** The ids of the rows are distinct. *)
Fixpoint distinct (ids : list Z) : bool :=
  match ids with
  | [] => true
  | i :: rest => negb (existsb (Z.eqb i) rest) && distinct rest
  end.

(** [load_categories_from_json].  [file] is [None] when the file does not
    exist, [Some None] when it is not JSON ([JSONDecodeError], a
    [ValueError]), else the array.  The table is the list of its rows as
    SQLite gives them to a query without [ORDER BY]: by primary key.  The
    commit fails on two rows with one id, and may fail for other reasons
    ([commit_ok]).  Every exception is raised again after a rollback: the
    table is then the one before. *)
Definition load_categories_from_json (commit_ok : bool)
    (file : option (option (list CategoryEntry))) (cats : list Category)
    : result (list Category) :=
  match file with
  | None => Done cats
  | Some None => Failed ValueError
  | Some (Some categories_data) =>
      match sql_limit 1 cats with
      | _ :: _ => Done cats
      | [] =>
          match categories_of_entries categories_data with
          | Failed x => Failed x
          | Done added =>
              if commit_ok && distinct (map cat_id (cats ++ added))
              then Done (order_by_asc cat_id (cats ++ added))
              else Failed (Propagated SQLAlchemyError)
          end
      end
  end.

(** ** Callback data as text *)

(** [s.split(sep)] for a one-character separator. *)
Fixpoint split_str (sep : ascii) (s : str) : list str :=
  match s with
  | [] => [[]]
  | c :: t =>
      if Ascii.eqb c sep then [] :: split_str sep t
      else match split_str sep t with
           | h :: r => (c :: h) :: r
           | [] => [[c]]
           end
  end.

(** [s.startswith(prefix)] *)
Fixpoint startswith (s prefix : str) : bool :=
  match prefix, s with
  | [], _ => true
  | p :: prefix', c :: s' => Ascii.eqb c p && startswith s' prefix'
  | _ :: _, [] => false
  end.

(** The digits of an [int] literal: single underscores may stand between
    digits. *)
Fixpoint int_digits (acc : Z) (after_digit : bool) (s : str) : option Z :=
  match s with
  | [] => if after_digit then Some acc else None
  | c :: t =>
      if isdigit c then int_digits (10 * acc + digit_of c) true t
      else if Ascii.eqb c "_"%char && after_digit then int_digits acc false t
      else None
  end.

(** [int(s)] of a string, base ten: surrounding whitespace, an optional sign,
    digits.  [None] stands for [ValueError].  The interpreter's limit on the
    length of the digit string is not modelled. *)
Definition int_of_str (s : str) : option Z :=
  match strip s with
  | [] => None
  | c :: body =>
      if Ascii.eqb c "-"%char then
        match int_digits 0 false body with Some n => Some (- n) | None => None end
      else if Ascii.eqb c "+"%char then int_digits 0 false body
      else int_digits 0 false (c :: body)
  end.

(** [int(callback.data.split(":")[1])], as the handlers of main.py read the
    id of a category. *)
Definition callback_id (data : str) : result Z :=
  match nth_error (split_str ":"%char data) 1 with
  | None => Failed IndexError
  | Some part =>
      match int_of_str part with
      | Some z => Done z
      | None => Failed ValueError
      end
  end.

(** The filters of [process_category_selection] and of
    [process_subcategory_selection]. *)
Definition is_category_callback (data : str) : bool :=
  startswith data (py "expense_category:") || startswith data (py "income_category:").

Definition is_subcategory_callback (data : str) : bool :=
  startswith data (py "subcategory_category:").

(** A categories file with a root and a subcategory of it. *)
Definition sample_file : option (option (list CategoryEntry)) :=
  Some (Some [ mkEntry (Some 36) (Some (py "Gifts")) (Some (py "expense")) None;
               mkEntry (Some 40) (Some (py "Other")) (Some (py "expense")) (Some 36) ]).

Definition sample_categories : list Category :=
  [ mkCategory 36 (py "Gifts") EXPENSE None;
    mkCategory 40 (py "Other") EXPENSE (Some 36);
    mkCategory 101 (py "Other income") INCOME None ].

(** A button of a category, as [get_categories_keyboard] makes it, reads back
    as the id of the category. *)
Definition reads_back (cats : list Category) (action : str) (b : KeyButton) : Prop :=
  exists c,
    In c cats
    /\ key_text b = CaptionName (cat_name c)
    /\ key_data b = action ++ py "_category:" ++ str_of_Z (cat_id c)
    /\ startswith (key_data b) (action ++ py "_category:") = true
    /\ callback_id (key_data b) = Done (cat_id c).

(** What the sample file loads into an empty table. *)
Definition sample_loaded : list Category :=
  [ mkCategory 36 (py "Gifts") EXPENSE None;
    mkCategory 40 (py "Other") EXPENSE (Some 36) ].

(** A categories file that lists its objects out of the order of their ids. *)
Definition sample_unordered : list CategoryEntry :=
  [ mkEntry (Some 50) (Some (py "Fuel")) (Some (py "expense")) None;
    mkEntry (Some 36) (Some (py "Gifts")) (Some (py "expense")) None;
    mkEntry (Some 41) (Some (py "Cards")) (Some (py "expense")) (Some 36);
    mkEntry (Some 40) (Some (py "Other")) (Some (py "expense")) (Some 36) ].

(** ** main.py: from the choice of the kind to the comment *)

Definition update_kind (k : str) (c : FSMContext) : FSMContext :=
  let d := fsm_data c in
  mkContext (fsm_state c)
    (mkData (Some k) (d_category_id d) (d_category_name d) (d_subcategory_id d)
       (d_subcategory_name d) (d_comment d) (d_amount d) (d_last_bot_message_id d)).

Definition update_category (i : Z) (n : str) (c : FSMContext) : FSMContext :=
  let d := fsm_data c in
  mkContext (fsm_state c)
    (mkData (d_kind d) (Some i) (Some n) (d_subcategory_id d)
       (d_subcategory_name d) (d_comment d) (d_amount d) (d_last_bot_message_id d)).

Definition update_subcategory (i : option Z) (n : option str) (c : FSMContext) : FSMContext :=
  let d := fsm_data c in
  mkContext (fsm_state c)
    (mkData (d_kind d) (d_category_id d) (d_category_name d) i n
       (d_comment d) (d_amount d) (d_last_bot_message_id d)).

Definition update_comment (t : option str) (c : FSMContext) : FSMContext :=
  let d := fsm_data c in
  mkContext (fsm_state c)
    (mkData (d_kind d) (d_category_id d) (d_category_name d) (d_subcategory_id d)
       (d_subcategory_name d) t (d_amount d) (d_last_bot_message_id d)).

(** What a handler of a choice shows: an answer to the callback, or the new
    text of the message the button was on. *)
Inductive SelectionReply : Type :=
| CategoryNotFoundAnswer
| SubcategoryNotFoundAnswer
| ChooseCategoryText (keyboard : Keyboard)
| ChooseSubcategoryText (category_name : str) (keyboard : Keyboard)
| EnterCommentText (category_name : str) (subcategory_name : option str)
| EnterAmountText.

(** [process_expense] *)
Definition process_expense (cats : list Category) (c : FSMContext)
    : FSMContext * SelectionReply :=
  (update_kind (py "expense") (set_state waiting_for_category c),
   ChooseCategoryText
     (get_categories_keyboard (get_categories_by_kind cats EXPENSE) (py "expense"))).

(** [process_category_selection]; [message_id] is the id of the message the
    button was on.  The branch with subcategories edits the message itself and
    leaves the message pointer; the other goes through
    [_edit_callback_message], which sets it. *)
Definition process_category_selection (cats : list Category) (data : str)
    (message_id : Z) (c : FSMContext) : FSMContext * result SelectionReply :=
  match callback_id data with
  | Failed e => (c, Failed e)
  | Done category_id =>
      match get_category_by_id cats category_id with
      | Raise e => (c, Failed (Propagated e))
      | Return None => (c, Done CategoryNotFoundAnswer)
      | Return (Some category) =>
          match get_subcategories cats category_id with
          | (_ :: _) as subcategories =>
              (update_category category_id (cat_name category)
                 (set_state waiting_for_subcategory c),
               Done (ChooseSubcategoryText (cat_name category)
                       (get_categories_keyboard subcategories (py "subcategory"))))
          | [] =>
              (update_last_bot_message_id message_id
                 (update_subcategory None None
                    (update_category category_id (cat_name category)
                       (set_state waiting_for_comment c))),
               Done (EnterCommentText (cat_name category) None))
          end
      end
  end.

(** [process_subcategory_selection]; the text of the prompt reads
    [data['category_name']] from the data fetched at the start, after the
    state and the subcategory have been written. *)
Definition process_subcategory_selection (cats : list Category) (data : str)
    (message_id : Z) (c : FSMContext) : FSMContext * result SelectionReply :=
  match callback_id data with
  | Failed e => (c, Failed e)
  | Done subcategory_id =>
      match get_category_by_id cats subcategory_id with
      | Raise e => (c, Failed (Propagated e))
      | Return None => (c, Done SubcategoryNotFoundAnswer)
      | Return (Some subcategory) =>
          let c' :=
            update_subcategory (Some subcategory_id) (Some (cat_name subcategory))
              (set_state waiting_for_comment c) in
          match d_category_name (fsm_data c) with
          | None => (c', Failed (Propagated KeyError))
          | Some category_name =>
              (update_last_bot_message_id message_id c',
               Done (EnterCommentText category_name (Some (cat_name subcategory))))
          end
      end
  end.

(** [process_comment], on the FSM context; [sent_id] is the id of the prompt
    for the amount that [_send_step_message] sends. *)
Definition process_comment (message_text : str) (sent_id : Z) (c : FSMContext)
    : FSMContext * SelectionReply :=
  let comment := strip message_text in
  let comment := if str_eqb comment (py "-") then None else Some comment in
  (update_last_bot_message_id sent_id
     (set_state waiting_for_amount (update_comment comment c)),
   EnterAmountText).

(** ** handlers/report.py: handle_export *)

(** The callback data ["export:kind:days"] or ["export:kind:days:aggregation"],
    taken apart: [_, kind_str, days_str, *rest = parts]. *)
Definition export_request (data : str) : result (TransactionKind * Z * option str) :=
  match split_str ":"%char data with
  | _ :: kind_str :: days_str :: rest =>
      match int_of_str days_str with
      | None => Failed ValueError
      | Some days =>
          Done (if str_eqb kind_str (py "expense") then EXPENSE else INCOME,
                days, hd_error rest)
      end
  | _ => Failed ValueError
  end.

(** [datetime.min] and [datetime.max], with the epoch at 1970-01-01:
    0001-01-01 00:00:00 and 9999-12-31 23:59:59.999999. *)
Definition datetime_min : Z := -62135596800000000.
Definition datetime_max : Z := 253402300799999999.

(** [timedelta(days=days)]: [OverflowError] beyond 999999999 days either
    way. *)
Definition timedelta_of_days (days : Z) : result Z :=
  if (-999999999 <=? days) && (days <=? 999999999) then Done (timedelta_days days)
  else Failed OverflowError.

(** [d - delta] of a datetime and a timedelta: [OverflowError] when the
    result is no datetime. *)
Definition datetime_sub (d delta : Z) : result Z :=
  if (datetime_min <=? d - delta) && (d - delta <=? datetime_max) then Done (d - delta)
  else Failed OverflowError.

(** [handle_export], down to the report it sends. *)
Definition handle_export (ilike_contains : str -> str -> bool) (pd : Pandas) (now : Z)
    (db : DB) (category_map : CategoryMap) (from_user : Z) (data : str) : result Report :=
  match export_request data with
  | Failed e => Failed e
  | Done (kind, days, aggregation) =>
      let end_ := now in
      match timedelta_of_days days with
      | Failed e => Failed e
      | Done delta =>
          match datetime_sub end_ delta with
          | Failed e => Failed e
          | Done start =>
              build_report ilike_contains pd now db category_map from_user kind
                (Some start) (Some end_) [] [] None None None aggregation
          end
      end
  end.

(** The days a report can be asked for at [now]. *)
Definition days_in_range (now days : Z) : Prop :=
  -999999999 <= days <= 999999999
  /\ datetime_min <= now - timedelta_days days <= datetime_max.

(** The button of a category on the keyboard of an action. *)
Definition category_button_data (action : str) (c : Category) : str :=
  action ++ py "_category:" ++ str_of_Z (cat_id c).

(** The callback data of an export button. *)
Definition export_data (kind : TransactionKind) (days : Z) (aggregation : option str) : str :=
  py "export:" ++ kind_value kind ++ py ":" ++ str_of_Z days
  ++ match aggregation with Some a => py ":" ++ a | None => [] end.

(** A dialogue that has not begun. *)
Definition idle : FSMContext :=
  mkContext None (mkData None None None None None None None None).

(** * Proofs *)

(** ** The matcher decides the language *)

Module RegexFacts.
Import Regex.

Lemma lang_cat_inv : forall r1 r2 s,
  lang (Cat r1 r2) s -> exists s1 s2, s = s1 ++ s2 /\ lang r1 s1 /\ lang r2 s2.
Proof. intros r1 r2 s H. inversion H; subst. eauto. Qed.

Lemma lang_alt_inv : forall r1 r2 s, lang (Alt r1 r2) s -> lang r1 s \/ lang r2 s.
Proof. intros r1 r2 s H. inversion H; subst; auto. Qed.

Lemma lang_class_inv : forall p s, lang (Class p) s -> exists c, s = [c] /\ p c = true.
Proof. intros p s H. inversion H; subst. eauto. Qed.

Lemma lang_eps_inv : forall s, lang Eps s -> s = [].
Proof. intros s H. inversion H. reflexivity. Qed.

Lemma lang_void_inv : forall s, ~ lang Void s.
Proof. intros s H. inversion H. Qed.

Lemma nullable_lang : forall r, nullable r = true <-> lang r [].
Proof.
  induction r as [ | | p | r1 IH1 r2 IH2 | r1 IH1 r2 IH2 | r IH]; simpl.
  - split; [discriminate | intro H; destruct (lang_void_inv _ H)].
  - split; [constructor | reflexivity].
  - split; [discriminate | ].
    intro H. apply lang_class_inv in H. destruct H as (c & E & _). discriminate.
  - rewrite andb_true_iff, IH1, IH2. split.
    + intros [H1 H2]. apply (L_cat r1 r2 [] [] H1 H2).
    + intro H. apply lang_cat_inv in H. destruct H as (s1 & s2 & E & Ha & Hb).
      symmetry in E. destruct (app_eq_nil _ _ E) as [-> ->]. auto.
  - rewrite orb_true_iff, IH1, IH2. split.
    + intros [H | H]; [apply L_alt_l | apply L_alt_r]; exact H.
    + apply lang_alt_inv.
  - split; [constructor | reflexivity].
Qed.

Lemma star_cons_split : forall r c s,
  lang (Star r) (c :: s) ->
  exists s1 s2, s = s1 ++ s2 /\ lang r (c :: s1) /\ lang (Star r) s2.
Proof.
  intros r c s H.
  remember (Star r) as r' eqn:Er. remember (c :: s) as w eqn:Ew.
  revert s Ew.
  induction H as [ | | | | | r0 | r0 s1 s2 H1 _ H2 IH2]; intros t Ew; try discriminate.
  injection Er as ->.
  destruct s1 as [ | a s1].
  - simpl in Ew. apply IH2; auto.
  - simpl in Ew. injection Ew as Ea Et. subst a t. exists s1, s2. auto.
Qed.

Lemma deriv_lang : forall r c s, lang (deriv c r) s <-> lang r (c :: s).
Proof.
  induction r as [ | | p | r1 IH1 r2 IH2 | r1 IH1 r2 IH2 | r IH]; intros c s; simpl.
  - split; intro H; destruct (lang_void_inv _ H).
  - split; intro H; [destruct (lang_void_inv _ H) | ].
    apply lang_eps_inv in H. discriminate.
  - destruct (p c) eqn:Hp; split; intro H.
    + apply lang_eps_inv in H. subst. constructor; exact Hp.
    + apply lang_class_inv in H. destruct H as (x & E & _).
      injection E as _ ->. constructor.
    + destruct (lang_void_inv _ H).
    + apply lang_class_inv in H. destruct H as (x & E & Hx).
      injection E as -> _. congruence.
  - assert (Hcat : lang (Cat (deriv c r1) r2) s -> lang (Cat r1 r2) (c :: s)).
    { intro H. apply lang_cat_inv in H. destruct H as (s1 & s2 & -> & Ha & Hb).
      apply IH1 in Ha. apply (L_cat r1 r2 (c :: s1) s2 Ha Hb). }
    assert (Hsplit : lang (Cat r1 r2) (c :: s) ->
                     lang (Cat (deriv c r1) r2) s \/ (lang r1 [] /\ lang r2 (c :: s))).
    { intro H. apply lang_cat_inv in H. destruct H as (s1 & s2 & E & Ha & Hb).
      destruct s1 as [ | x s1]; simpl in E.
      - right. subst. auto.
      - injection E as <- ->. left. constructor; [apply IH1; exact Ha | exact Hb]. }
    destruct (nullable r1) eqn:Hn.
    + split.
      * intro H. apply lang_alt_inv in H. destruct H as [H | H]; [auto | ].
        apply (L_cat r1 r2 [] (c :: s)); [apply nullable_lang; exact Hn | apply IH2; auto].
      * intro H. destruct (Hsplit H) as [H' | [_ H']].
        -- apply L_alt_l; exact H'.
        -- apply L_alt_r, IH2; exact H'.
    + split; [exact Hcat | ].
      intro H. destruct (Hsplit H) as [H' | [H' _]]; [exact H' | ].
      apply nullable_lang in H'. congruence.
  - split; intro H.
    + apply lang_alt_inv in H. destruct H as [H | H].
      * apply L_alt_l, IH1; auto.
      * apply L_alt_r, IH2; auto.
    + apply lang_alt_inv in H. destruct H as [H | H].
      * apply L_alt_l, IH1; auto.
      * apply L_alt_r, IH2; auto.
  - split; intro H.
    + apply lang_cat_inv in H. destruct H as (s1 & s2 & -> & Ha & Hb).
      apply IH in Ha. apply (L_star_app r (c :: s1) s2 Ha Hb).
    + destruct (star_cons_split r c s H) as (s1 & s2 & -> & Ha & Hb).
      constructor; [apply IH; exact Ha | exact Hb].
Qed.

Lemma fullmatch_lang : forall s r, fullmatch r s = true <-> lang r s.
Proof.
  induction s as [ | c s IH]; intro r; simpl.
  - apply nullable_lang.
  - rewrite IH. apply deriv_lang.
Qed.

Lemma lang_star_class : forall p s,
  lang (Star (Class p)) s <-> Forall (fun c => p c = true) s.
Proof.
  intros p s. split.
  - intro H. remember (Star (Class p)) as r eqn:Er.
    induction H as [ | | | | | r0 | r0 s1 s2 H1 _ H2 IH2]; try discriminate.
    + constructor.
    + injection Er as ->. apply lang_class_inv in H1. destruct H1 as (c & -> & Hc).
      constructor; auto.
  - induction 1 as [ | c t Hc _ IH].
    + constructor.
    + apply (L_star_app (Class p) [c] t); [constructor; exact Hc | exact IH].
Qed.

Lemma lang_opt_lit : forall c s, lang (Opt (Lit c)) s <-> s = [] \/ s = [c].
Proof.
  intros c s. unfold Opt, Lit. split.
  - intro H. apply lang_alt_inv in H. destruct H as [H | H].
    + apply lang_class_inv in H. destruct H as (x & -> & Hx).
      apply Ascii.eqb_eq in Hx. subst. auto.
    + apply lang_eps_inv in H. auto.
  - intros [-> | ->].
    + apply L_alt_r. constructor.
    + apply L_alt_l. constructor. apply Ascii.eqb_refl.
Qed.

Lemma match_anchored_lang : forall r s,
  match_anchored r s = true <->
  lang r s \/ exists w, s = w ++ ["010"%char] /\ lang r w.
Proof.
  intros r s. unfold match_anchored. rewrite fullmatch_lang. split.
  - intro H. apply lang_cat_inv in H. destruct H as (s1 & s2 & -> & Ha & Hb).
    apply lang_opt_lit in Hb. destruct Hb as [-> | ->].
    + left. rewrite app_nil_r. exact Ha.
    + right. exists s1. auto.
  - intros [H | (w & -> & H)].
    + rewrite <- (app_nil_r s). constructor; [exact H | apply lang_opt_lit; auto].
    + constructor; [exact H | apply lang_opt_lit; auto].
Qed.

End RegexFacts.

(** ** Strings *)

Module TextFacts.

Lemma lstrip_decomp : forall s, exists l, s = l ++ lstrip s /\ all_space l.
Proof.
  induction s as [ | c s (l & E & Hl)]; simpl.
  - exists []. split; [reflexivity | constructor].
  - destruct (isspace c) eqn:Hc.
    + exists (c :: l). split; [simpl; congruence | constructor; assumption].
    + exists []. split; [reflexivity | constructor].
Qed.

Lemma lstrip_head : forall s c t, lstrip s = c :: t -> isspace c = false.
Proof.
  induction s as [ | a s IH]; simpl; intros c t H; [discriminate | ].
  destruct (isspace a) eqn:Ha; [eauto | ].
  injection H as -> _. exact Ha.
Qed.

Lemma all_space_rev : forall l, all_space l -> all_space (rev l).
Proof. intros l H. apply Forall_rev. exact H. Qed.

Lemma strip_decomp : forall s,
  exists l r, s = l ++ strip s ++ r /\ all_space l /\ all_space r.
Proof.
  intro s. unfold strip, rstrip.
  destruct (lstrip_decomp s) as (l & E & Hl).
  destruct (lstrip_decomp (rev (lstrip s))) as (r & Er & Hr).
  exists l, (rev r). repeat split; [ | exact Hl | apply all_space_rev; exact Hr].
  rewrite <- rev_app_distr, <- Er, rev_involutive. exact E.
Qed.

Lemma strip_trimmed : forall s, trimmed (strip s).
Proof.
  intro s. split.
  - intros c t E.
    destruct (lstrip_decomp (rev (lstrip s))) as (r & Er & _).
    apply (f_equal (@rev ascii)) in Er.
    rewrite rev_involutive, rev_app_distr in Er.
    fold (rstrip (lstrip s)) in Er. fold (strip s) in Er.
    rewrite E in Er. simpl in Er.
    apply (lstrip_head s c _ Er).
  - intros t c E. unfold strip, rstrip in E.
    apply (f_equal (@rev ascii)) in E.
    rewrite rev_involutive, rev_app_distr in E. simpl in E.
    apply (lstrip_head _ _ _ E).
Qed.

Lemma replace_delete : forall c s,
  replace c [] s = filter (fun x => negb (Ascii.eqb x c)) s.
Proof.
  intros c s. unfold replace.
  induction s as [ | x s IH]; simpl; [reflexivity | ].
  rewrite IH. destruct (Ascii.eqb x c); reflexivity.
Qed.

Lemma replace_subst : forall c d s,
  replace c [d] s = map (fun x => if Ascii.eqb x c then d else x) s.
Proof.
  intros c d s. unfold replace.
  induction s as [ | x s IH]; simpl; [reflexivity | ].
  rewrite IH. destruct (Ascii.eqb x c); reflexivity.
Qed.

Lemma replace_app : forall c n a b,
  replace c n (a ++ b) = replace c n a ++ replace c n b.
Proof. intros. unfold replace. apply flat_map_app. Qed.

Lemma cleaned_eq : forall s,
  cleaned s =
  map (fun x => if Ascii.eqb x ","%char then "."%char else x)
    (filter (fun x => negb (Ascii.eqb x " "%char)) (strip s)).
Proof.
  intro s. unfold cleaned. simpl py.
  rewrite replace_delete. apply replace_subst.
Qed.

(** What [strip] leaves never ends in a newline, and neither does the
    cleaned string: the second way [$] can match is never taken. *)
Lemma cleaned_no_final_newline : forall s w, cleaned s <> w ++ ["010"%char].
Proof.
  intros s w E. rewrite cleaned_eq in E.
  destruct (strip_trimmed s) as [_ Hlast].
  assert (Hc : strip s = [] \/ exists x a, strip s = x ++ [a]).
  { destruct (strip s) as [ | a x _] using rev_ind; eauto. }
  destruct Hc as [Ex | (x & a & Ex)]; rewrite Ex in E.
  - simpl in E. destruct w; discriminate.
  - specialize (Hlast x a Ex).
    rewrite filter_app, map_app in E. simpl in E.
    destruct (Ascii.eqb a " "%char) eqn:Hsp.
    + apply Ascii.eqb_eq in Hsp. subst a. discriminate.
    + simpl in E. apply app_inj_tail in E. destruct E as [_ E].
      destruct (Ascii.eqb a ","%char) eqn:Hc; [discriminate | ].
      subst a. discriminate.
Qed.

End TextFacts.

(** ** parse_amount *)

Module ParseFacts.
Import Regex RegexFacts TextFacts.

Lemma digit_not_point : forall c, isdigit c = true -> Ascii.eqb c "."%char = false.
Proof.
  intros c H. destruct (Ascii.eqb c "."%char) eqn:E; [ | reflexivity].
  apply Ascii.eqb_eq in E. subst c. discriminate.
Qed.

Lemma digits_app : forall a b, digits (a ++ b) <-> digits a /\ digits b.
Proof. intros a b. apply Forall_app. Qed.

Lemma digits_value_number : forall ds acc,
  digits ds ->
  digits_value acc ds = Some (fold_left (fun a c => 10 * a + digit_of c) ds acc).
Proof.
  induction ds as [ | c ds IH]; intros acc H; simpl; [reflexivity | ].
  inversion H as [ | x l Hc Hds]; subst. rewrite Hc. apply IH. exact Hds.
Qed.

Lemma split_point_digits : forall ip r,
  digits ip ->
  split_point (ip ++ r) = (ip ++ fst (split_point r), snd (split_point r)).
Proof.
  induction ip as [ | c ip IH]; intros r H; simpl.
  - destruct (split_point r); reflexivity.
  - inversion H as [ | x l Hc Hip]; subst.
    rewrite (digit_not_point c Hc), (IH r Hip). reflexivity.
Qed.

Lemma decimal_of_digits : forall ds k,
  ds <> [] -> digits ds ->
  match ds with
  | [] => None
  | a :: l =>
      match digits_value 0 (a :: l) with
      | Some n => Some (mkDecimal n k)
      | None => None
      end
  end = Some (mkDecimal (number_of ds) k).
Proof.
  intros ds k Hne Hd. destruct ds as [ | c ds]; [congruence | ].
  rewrite (digits_value_number _ 0 Hd). reflexivity.
Qed.

Lemma Decimal_of_str_reads : forall s d, reads s d -> Decimal_of_str s = Some d.
Proof.
  intros s d H. unfold Decimal_of_str. destruct H as [ip Hne Hd | ip fp Hne Hd Hf].
  - rewrite <- (app_nil_r ip) at 1. rewrite (split_point_digits ip [] Hd).
    change (split_point []) with (@nil ascii, @None str).
    cbn [fst snd]. rewrite !app_nil_r.
    apply decimal_of_digits; assumption.
  - rewrite (split_point_digits ip _ Hd).
    change (split_point (py "." ++ fp)) with (@nil ascii, Some fp).
    cbn [fst snd]. rewrite app_nil_r.
    apply decimal_of_digits.
    + destruct ip; [congruence | discriminate].
    + apply digits_app; auto.
Qed.

Lemma reads_grammar : forall s, amount_grammar s <-> exists d, reads s d.
Proof.
  intro s. split.
  - intros (ip & dot & fp & Hne & Hd & Hf & Hdot & ->).
    destruct Hdot as [-> | ->].
    + simpl. eexists. apply reads_integer.
      * destruct ip; [congruence | discriminate].
      * apply digits_app; auto.
    + eexists. apply reads_fraction; assumption.
  - intros (d & H). destruct H as [ip Hne Hd | ip fp Hne Hd Hf].
    + exists ip, [], []. rewrite app_nil_r.
      repeat split; auto. constructor.
    + exists ip, (py "."), fp. repeat split; auto.
Qed.

Lemma reads_functional : forall s d1 d2, reads s d1 -> reads s d2 -> d1 = d2.
Proof.
  intros s d1 d2 H1 H2.
  apply Decimal_of_str_reads in H1. apply Decimal_of_str_reads in H2. congruence.
Qed.

Lemma amount_pattern_lang : forall s, lang amount_pattern s <-> amount_grammar s.
Proof.
  intro s. unfold amount_pattern, Plus. split.
  - intro H.
    apply lang_cat_inv in H. destruct H as (a & b & -> & Ha & Hb).
    apply lang_cat_inv in Ha. destruct Ha as (a1 & a2 & -> & Ha1 & Ha2).
    apply lang_class_inv in Ha1. destruct Ha1 as (c & -> & Hc).
    apply lang_star_class in Ha2.
    apply lang_cat_inv in Hb. destruct Hb as (dot & fp & -> & Hdot & Hfp).
    apply lang_opt_lit in Hdot. apply lang_star_class in Hfp.
    exists ([c] ++ a2), dot, fp. repeat split; auto.
    + discriminate.
    + constructor; assumption.
  - intros (ip & dot & fp & Hne & Hd & Hf & Hdot & ->).
    destruct ip as [ | c ip]; [congruence | ].
    inversion Hd as [ | x l Hc Hip]; subst.
    constructor.
    + apply (L_cat _ _ [c] ip); [constructor; exact Hc | apply lang_star_class; exact Hip].
    + constructor; [apply lang_opt_lit; exact Hdot | apply lang_star_class; exact Hf].
Qed.

Lemma match_cleaned : forall s,
  match_anchored amount_pattern (cleaned s) = true <-> amount_grammar (cleaned s).
Proof.
  intro s. rewrite match_anchored_lang, amount_pattern_lang. split.
  - intros [H | (w & E & _)]; [exact H | ].
    destruct (cleaned_no_final_newline s w E).
  - auto.
Qed.

Lemma parse_amount_accepts : forall s d,
  reads (cleaned s) d -> parse_amount s = Return (Some d).
Proof.
  intros s d H. unfold parse_amount.
  assert (Hm : match_anchored amount_pattern (cleaned s) = true).
  { apply match_cleaned, reads_grammar. eauto. }
  rewrite Hm. simpl. rewrite (Decimal_of_str_reads _ _ H). reflexivity.
Qed.

Lemma parse_amount_rejects : forall s,
  ~ amount_grammar (cleaned s) -> parse_amount s = Return None.
Proof.
  intros s H. unfold parse_amount.
  destruct (match_anchored amount_pattern (cleaned s)) eqn:Hm; [ | reflexivity].
  apply match_cleaned in Hm. contradiction.
Qed.

Lemma grammar_dec : forall s, amount_grammar (cleaned s) \/ ~ amount_grammar (cleaned s).
Proof.
  intro s. destruct (match_anchored amount_pattern (cleaned s)) eqn:Hm.
  - left. apply match_cleaned. exact Hm.
  - right. intro H. apply match_cleaned in H. congruence.
Qed.

(** The three outcomes of [parse_amount], and nothing else. *)
Lemma parse_amount_cases : forall s,
  (exists d, reads (cleaned s) d /\ parse_amount s = Return (Some d))
  \/ (~ amount_grammar (cleaned s) /\ parse_amount s = Return None).
Proof.
  intro s. destruct (grammar_dec s) as [H | H].
  - left. apply reads_grammar in H. destruct H as (d & H).
    exists d. split; [exact H | apply parse_amount_accepts; exact H].
  - right. split; [exact H | apply parse_amount_rejects; exact H].
Qed.

Lemma number_of_nonneg_from : forall ds acc,
  digits ds -> 0 <= acc -> 0 <= fold_left (fun a c => 10 * a + digit_of c) ds acc.
Proof.
  induction ds as [ | c ds IH]; intros acc H Hacc; cbn [fold_left]; [exact Hacc | ].
  inversion H as [ | x l Hc Hds]; subst. apply IH; [exact Hds | ].
  unfold isdigit in Hc. apply andb_true_iff in Hc. destruct Hc as [H1 H2].
  apply Z.leb_le in H1. unfold digit_of. lia.
Qed.

Lemma reads_nonneg : forall s d, reads s d -> 0 <= coef d.
Proof.
  intros s d H. destruct H as [ip Hne Hd | ip fp Hne Hd Hf]; simpl.
  - apply number_of_nonneg_from; [exact Hd | lia].
  - apply number_of_nonneg_from; [apply digits_app; auto | lia].
Qed.

Lemma parse_amount_nonneg : forall s d,
  parse_amount s = Return (Some d) -> 0 <= coef d.
Proof.
  intros s d H. destruct (parse_amount_cases s) as [(d' & Hr & E) | (_ & E)].
  - rewrite E in H. injection H as <-. apply (reads_nonneg _ _ Hr).
  - rewrite E in H. discriminate.
Qed.

End ParseFacts.

(** C2.  [parse_amount] works on the input stripped of surrounding whitespace,
    with its spaces removed and its commas turned into periods; it returns a
    value exactly when that string is digits, optionally one period,
    optionally trailing digits, the value being its decimal reading, and it
    returns no value otherwise (it never raises).  "1000" gives 1000.00,
    "1 500" gives 1500.00, "2,50" gives 2.50, "abc" fails. *)
Theorem C2_parse_amount :
  (forall s,
     (exists l r, s = l ++ strip s ++ r /\ all_space l /\ all_space r)
     /\ trimmed (strip s)
     /\ cleaned s =
        map (fun x => if Ascii.eqb x ","%char then "."%char else x)
          (filter (fun x => negb (Ascii.eqb x " "%char)) (strip s)))
  /\ (forall s, (exists d, parse_amount s = Return (Some d)) <-> amount_grammar (cleaned s))
  /\ (forall s, parse_amount s = Return None <-> ~ amount_grammar (cleaned s))
  /\ (forall s d, parse_amount s = Return (Some d) <-> reads (cleaned s) d)
  /\ (forall s e, parse_amount s <> Raise e)
  /\ (exists d, parse_amount (py "1000") = Return (Some d)
                /\ dec_eqb d (mkDecimal 100000 2) = true)
  /\ (exists d, parse_amount (py "1 500") = Return (Some d)
                /\ dec_eqb d (mkDecimal 150000 2) = true)
  /\ (exists d, parse_amount (py "2,50") = Return (Some d)
                /\ dec_eqb d (mkDecimal 250 2) = true)
  /\ parse_amount (py "abc") = Return None.
Proof.
  split; [ | split; [ | split; [ | split; [ | split]]]].
  - intro s. split; [apply TextFacts.strip_decomp | ].
    split; [apply TextFacts.strip_trimmed | apply TextFacts.cleaned_eq].
  - intro s. split.
    + intros (d & H).
      destruct (ParseFacts.parse_amount_cases s) as [(d' & Hr & _) | (_ & E)].
      * apply ParseFacts.reads_grammar. eauto.
      * congruence.
    + intro H. apply ParseFacts.reads_grammar in H. destruct H as (d & H).
      exists d. apply ParseFacts.parse_amount_accepts. exact H.
  - intro s. split.
    + intros H G. apply ParseFacts.reads_grammar in G. destruct G as (d & G).
      apply ParseFacts.parse_amount_accepts in G. congruence.
    + apply ParseFacts.parse_amount_rejects.
  - intros s d. split.
    + intro H.
      destruct (ParseFacts.parse_amount_cases s) as [(d' & Hr & E) | (_ & E)].
      * rewrite E in H. injection H as <-. exact Hr.
      * congruence.
    + apply ParseFacts.parse_amount_accepts.
  - intros s e H.
    destruct (ParseFacts.parse_amount_cases s) as [(d & _ & E) | (_ & E)]; congruence.
  - repeat split; try (eexists; split; [reflexivity | reflexivity]).
Qed.

(** ** The amount step *)

Module StepFacts.

Lemma send_step_reprompts : forall t w,
  reprompted t w (_send_step_message t cancel_keyboard w).
Proof.
  intros t w. unfold reprompted, _send_step_message, send_message.
  destruct (d_last_bot_message_id (fsm_data (w_fsm w))) as [p | ];
    [destruct (p =? 0) | ]; simpl; repeat split;
    try (eexists; split; [reflexivity | ]);
    try apply incl_refl; apply incl_filter.
Qed.

Lemma reprompted_after_delete : forall t i w w',
  reprompted t (mkWorld (w_fsm w) (delete_message i (w_chat w)) (w_db w)) w' ->
  reprompted t w w'.
Proof.
  intros t i w w' (Hs & Hd & Hdb & Hl & old & Ho & Hi). simpl in *.
  repeat split; auto.
  exists old. split; [exact Ho | ].
  intros m Hm. apply Hi in Hm. apply filter_In in Hm. tauto.
Qed.

Lemma process_amount_unparsed : forall i s w,
  parse_amount s = Return None ->
  exists w', process_amount i s w = (w', None) /\ reprompted BadFormatText w w'.
Proof.
  intros i s w H. unfold process_amount. rewrite H.
  eexists. split; [reflexivity | ].
  apply (reprompted_after_delete _ i), send_step_reprompts.
Qed.

Lemma process_amount_nonpositive : forall i s d w,
  parse_amount s = Return (Some d) -> dec_leb d dec_zero = true ->
  exists w', process_amount i s w = (w', None) /\ reprompted NonPositiveText w w'.
Proof.
  intros i s d w H Hd. unfold process_amount. rewrite H, Hd.
  eexists. split; [reflexivity | ].
  apply (reprompted_after_delete _ i), send_step_reprompts.
Qed.

Lemma dec_nonpositive_zero : forall d,
  0 <= coef d -> (dec_leb d dec_zero = true <-> coef d = 0).
Proof.
  intros d H. unfold dec_leb, dec_compare, dec_zero, pow10. simpl.
  assert (Hp : 0 < 10 ^ Z.of_nat (scale d)) by (apply Z.pow_pos_nonneg; lia).
  rewrite Z.mul_1_r.
  destruct (Z.compare_spec (coef d) 0) as [E | E | E]; split; intro G;
    try reflexivity; try discriminate; try lia.
Qed.

End StepFacts.

(** C3 (as stated, refuted).  "-5" does not parse, so it is never handed to
    the validation step. *)
Lemma C3_counterexample : ~ parses_then_rejected (py "-5").
Proof.
  intros (d & H & _). vm_compute in H. discriminate.
Qed.

(** C3 (amended).  A negative amount string such as "-5" is a parse failure:
    the sign is outside the accepted pattern, [parse_amount] returns no value
    and the step is asked again with the format error.  A parsed value is
    never negative; zero ("0") parses and is rejected by the validation step
    with its own text.  Both leave the dialogue in the amount step. *)
Theorem C3_sign_is_parse_failure :
  parse_amount (py "-5") = Return None
  /\ (forall i w, exists w',
        process_amount i (py "-5") w = (w', None) /\ reprompted BadFormatText w w')
  /\ (forall s d, parse_amount s = Return (Some d) ->
        0 <= coef d /\ (dec_leb d dec_zero = true <-> coef d = 0))
  /\ parses_then_rejected (py "0")
  /\ (forall i w, exists w',
        process_amount i (py "0") w = (w', None) /\ reprompted NonPositiveText w w').
Proof.
  split; [reflexivity | ].
  split; [intros i w; apply StepFacts.process_amount_unparsed; reflexivity | ].
  split.
  { intros s d H. pose proof (ParseFacts.parse_amount_nonneg s d H) as Hn.
    split; [exact Hn | apply StepFacts.dec_nonpositive_zero; exact Hn]. }
  split.
  { exists (mkDecimal 0 0). split; reflexivity. }
  intros i w. apply (StepFacts.process_amount_nonpositive i _ (mkDecimal 0 0)); reflexivity.
Qed.

(** C5.  In the amount step, an amount that does not parse or that is not
    positive is answered with an error text and the step is asked again: the
    state is still the amount step, the draft is untouched, no transaction is
    created (the table is the same), and no exception leaves the handler. *)
Theorem C5_invalid_amount_reenters :
  forall (i : Z) (s : str) (w : World),
    fsm_state (w_fsm w) = Some waiting_for_amount ->
    parse_amount s = Return None \/ parses_then_rejected s ->
    exists t w',
      process_amount i s w = (w', None)
      /\ (t = BadFormatText \/ t = NonPositiveText)
      /\ reprompted t w w'
      /\ fsm_state (w_fsm w') = Some waiting_for_amount
      /\ d_amount (fsm_data (w_fsm w')) = d_amount (fsm_data (w_fsm w))
      /\ w_db w' = w_db w.
Proof.
  intros i s w Hst [H | (d & H & Hd)].
  - destruct (StepFacts.process_amount_unparsed i s w H) as (w' & E & R).
    exists BadFormatText, w'. pose proof R as (Hs & Hdr & Hdb & _).
    split; [exact E | ]. split; [left; reflexivity | ]. split; [exact R | ].
    split; [congruence | ]. split; [ | exact Hdb].
    unfold draft in Hdr. congruence.
  - destruct (StepFacts.process_amount_nonpositive i s d w H Hd) as (w' & E & R).
    exists NonPositiveText, w'. pose proof R as (Hs & Hdr & Hdb & _).
    split; [exact E | ]. split; [right; reflexivity | ]. split; [exact R | ].
    split; [congruence | ]. split; [ | exact Hdb].
    unfold draft in Hdr. congruence.
Qed.

(** ** Sorting, offset and limit *)

Module SortFacts.

Section Sort.
Context {A : Type} (before : A -> A -> bool).

Lemma insert_by_perm : forall x l, Permutation (insert_by before x l) (x :: l).
Proof.
  intros x l. induction l as [ | y t IH]; simpl; [reflexivity | ].
  destruct (before x y); [reflexivity | ].
  rewrite IH. apply perm_swap.
Qed.

Lemma sort_by_perm : forall l, Permutation (sort_by before l) l.
Proof.
  induction l as [ | x l IH]; simpl; [reflexivity | ].
  rewrite insert_by_perm. constructor. exact IH.
Qed.

Lemma sort_by_length : forall l, length (sort_by before l) = length l.
Proof. intro l. apply Permutation_length, sort_by_perm. Qed.

Lemma sort_by_In : forall l x, In x (sort_by before l) <-> In x l.
Proof.
  intros l x. split; apply Permutation_in;
    [apply sort_by_perm | symmetry; apply sort_by_perm].
Qed.

End Sort.

Section Desc.
Context {A : Type} (key : A -> Z).

Let R := fun a b : A => key b <= key a.

Lemma insert_desc_sorted : forall x l,
  StronglySorted R l ->
  StronglySorted R (insert_by (fun x y => key y <=? key x) x l).
Proof.
  intros x l H. induction H as [ | y t Ht IH Hy]; simpl.
  - repeat constructor.
  - destruct (key y <=? key x) eqn:E.
    + apply Z.leb_le in E. constructor; [constructor; assumption | ].
      constructor; [exact E | ].
      eapply Forall_impl; [ | exact Hy]. unfold R. simpl. intros; lia.
    + apply Z.leb_gt in E. constructor; [exact IH | ].
      eapply Permutation_Forall; [symmetry; apply insert_by_perm | ].
      constructor; [unfold R; lia | exact Hy].
Qed.

Lemma order_by_desc_sorted : forall l, StronglySorted R (order_by_desc key l).
Proof.
  induction l as [ | x l IH]; simpl; [constructor | ].
  apply insert_desc_sorted. exact IH.
Qed.

Lemma order_by_desc_head : forall l h t,
  order_by_desc key l = h :: t -> forall x, In x l -> key x <= key h.
Proof.
  intros l h t E x Hx.
  pose proof (order_by_desc_sorted l) as Hs. rewrite E in Hs.
  apply (sort_by_In (fun x y => key y <=? key x)) in Hx.
  fold (order_by_desc key l) in Hx. rewrite E in Hx.
  inversion Hs as [ | a b Hb Hall]; subst.
  destruct Hx as [<- | Hx]; [lia | ].
  rewrite Forall_forall in Hall. apply Hall. exact Hx.
Qed.

End Desc.

Lemma firstn_incl : forall A n (l : list A), incl (firstn n l) l.
Proof.
  intros A n l x H. rewrite <- (firstn_skipn n l). apply in_or_app. left. exact H.
Qed.

Lemma skipn_incl : forall A n (l : list A), incl (skipn n l) l.
Proof.
  intros A n l x H. rewrite <- (firstn_skipn n l). apply in_or_app. right. exact H.
Qed.

Lemma sql_limit_incl : forall A n (l : list A), incl (sql_limit n l) l.
Proof.
  intros A n l x H. unfold sql_limit in H.
  destruct (n <? 0); [exact H | apply firstn_incl in H; exact H].
Qed.

(** A limit that is not negative takes the first rows. *)
Lemma sql_limit_firstn : forall A n (l : list A),
  0 <= n -> sql_limit n l = firstn (Z.to_nat n) l.
Proof.
  intros A n l H. unfold sql_limit.
  replace (n <? 0) with false by (symmetry; apply Z.ltb_ge; exact H). reflexivity.
Qed.

Lemma offset_limit_firstn : forall A o n (l : list A),
  0 <= n -> offset_limit o n l = firstn (Z.to_nat n) (skipn (Z.to_nat o) l).
Proof. intros A o n l H. unfold offset_limit. apply sql_limit_firstn. exact H. Qed.

Lemma offset_limit_incl : forall A o n (l : list A), incl (offset_limit o n l) l.
Proof.
  intros A o n l x H. unfold offset_limit in H.
  apply sql_limit_incl, skipn_incl in H. exact H.
Qed.

Lemma offset_limit_all : forall A (l : list A) n,
  (length l <= n)%nat -> offset_limit 0 (Z.of_nat n) l = l.
Proof.
  intros A l n H. rewrite offset_limit_firstn by lia. simpl.
  rewrite Nat2Z.id. apply firstn_all2. exact H.
Qed.

End SortFacts.

(** ** The repository *)

Module RepoFacts.
Import SortFacts.

Lemma filter_nil : forall A (f : A -> bool) l,
  (forall x, In x l -> f x = false) -> filter f l = [].
Proof.
  intros A f l H. induction l as [ | a l IH]; simpl; [reflexivity | ].
  rewrite (H a (or_introl eq_refl)). apply IH. intros x Hx. apply H. right. exact Hx.
Qed.

Lemma filter_all : forall A (f : A -> bool) l,
  (forall x, In x l -> f x = true) -> filter f l = l.
Proof.
  intros A f l H. induction l as [ | a l IH]; simpl; [reflexivity | ].
  rewrite (H a (or_introl eq_refl)). f_equal. apply IH. intros x Hx. apply H. right. exact Hx.
Qed.

Lemma filter_fuse : forall A (f g : A -> bool) l,
  filter f (filter g l) = filter (fun x => g x && f x) l.
Proof.
  intros A f g l. induction l as [ | a l IH]; simpl; [reflexivity | ].
  destruct (g a); simpl; [destruct (f a) | ]; rewrite IH; reflexivity.
Qed.

Lemma unique_ids_inj : forall db r t,
  unique_ids db -> In r db -> In t db -> t_id r = t_id t -> r = t.
Proof.
  unfold unique_ids. induction db as [ | a db IH]; intros r t Hu Hr Ht E; [destruct Hr | ].
  simpl in Hu. inversion Hu as [ | x l Hn Hnd]; subst.
  destruct Hr as [-> | Hr], Ht as [-> | Ht].
  - reflexivity.
  - exfalso. apply Hn. rewrite E. apply in_map. exact Ht.
  - exfalso. apply Hn. rewrite <- E. apply in_map. exact Hr.
  - apply IH; assumption.
Qed.

Lemma select_by_id : forall db t,
  unique_ids db -> In t db -> filter (fun r => t_id r =? t_id t) db = [t].
Proof.
  induction db as [ | a db IH]; intros t Hu Ht; [destruct Ht | ].
  pose proof Hu as Hu'. unfold unique_ids in Hu'. simpl in Hu'.
  inversion Hu' as [ | x l Hn Hnd]; subst. simpl.
  destruct (t_id a =? t_id t) eqn:E.
  - apply Z.eqb_eq in E.
    assert (a = t) by (apply (unique_ids_inj (a :: db)); simpl; auto).
    subst a. f_equal. apply filter_nil. intros x Hx.
    apply Z.eqb_neq. intro E'. apply Hn. rewrite <- E'. apply in_map. exact Hx.
  - destruct Ht as [-> | Ht]; [rewrite Z.eqb_refl in E; discriminate | ].
    apply IH; assumption.
Qed.

Lemma select_missing : forall db i,
  (forall r, In r db -> t_id r <> i) -> filter (fun r => t_id r =? i) db = [].
Proof.
  intros db i H. apply filter_nil. intros x Hx. apply Z.eqb_neq. apply H. exact Hx.
Qed.

Lemma delete_row_In : forall db t r,
  unique_ids db -> In t db -> (In r (delete_row t db) <-> In r db /\ r <> t).
Proof.
  intros db t r Hu Ht. unfold delete_row. rewrite filter_In. split.
  - intros [Hr E]. split; [exact Hr | ]. intros ->.
    rewrite Z.eqb_refl in E. discriminate.
  - intros [Hr Hne]. split; [exact Hr | ].
    destruct (t_id r =? t_id t) eqn:E; [ | reflexivity].
    apply Z.eqb_eq in E. exfalso. apply Hne. apply (unique_ids_inj db); assumption.
Qed.

Lemma delete_row_length : forall db t,
  unique_ids db -> In t db -> length db = S (length (delete_row t db)).
Proof.
  induction db as [ | a db IH]; intros t Hu Ht; [destruct Ht | ].
  pose proof Hu as Hu'. unfold unique_ids in Hu'. simpl in Hu'.
  inversion Hu' as [ | x l Hn Hnd]; subst.
  unfold delete_row. simpl. destruct (t_id a =? t_id t) eqn:E; simpl.
  - apply Z.eqb_eq in E. f_equal. f_equal. symmetry. apply filter_all.
    intros x Hx. apply negb_true_iff, Z.eqb_neq. intro E'.
    apply Hn. rewrite E, <- E'. apply in_map. exact Hx.
  - destruct Ht as [-> | Ht]; [rewrite Z.eqb_refl in E; discriminate | ].
    f_equal. apply IH; assumption.
Qed.

Lemma delete_row_unique : forall db t, unique_ids db -> unique_ids (delete_row t db).
Proof.
  unfold unique_ids, delete_row. intros db t.
  induction db as [ | a db IH]; simpl; intro H; [constructor | ].
  inversion H as [ | x l Hn Hnd]; subst.
  destruct (negb (t_id a =? t_id t)); simpl; [ | auto].
  constructor; [ | auto].
  intro Hin. apply Hn. apply in_map_iff in Hin. destruct Hin as (r & E & Hr).
  apply filter_In in Hr. rewrite <- E. apply in_map. tauto.
Qed.

Lemma fetch_recent_matching : forall db u kind o l,
  _fetch_recent db u kind o l =
  offset_limit o l (order_by_desc t_effective_at (matching db u (scope_kind kind))).
Proof.
  intros db u kind o l. unfold _fetch_recent, matching, scope_kind.
  f_equal. f_equal.
  destruct kind as [k | ]; [destruct (TransactionKind_of_value k) | ].
  - apply filter_fuse.
  - apply filter_ext. intro a. rewrite andb_true_r. reflexivity.
  - apply filter_ext. intro a. rewrite andb_true_r. reflexivity.
Qed.

Lemma fetch_recent_incl : forall db u kind o l r,
  In r (_fetch_recent db u kind o l) -> In r db /\ t_user_id r = u.
Proof.
  intros db u kind o l r H. rewrite fetch_recent_matching in H.
  apply offset_limit_incl in H. unfold order_by_desc in H.
  apply sort_by_In in H. unfold matching in H. apply filter_In in H.
  destruct H as [Hr E]. apply andb_true_iff in E. destruct E as [E _].
  apply Z.eqb_eq in E. auto.
Qed.

Lemma listing_complete : forall db u t,
  In t db -> t_user_id t = u -> In t (listing db u).
Proof.
  intros db u t Ht Hu. unfold listing. rewrite fetch_recent_matching.
  rewrite offset_limit_all.
  - apply sort_by_In. unfold matching. apply filter_In. split; [exact Ht | ].
    simpl. rewrite andb_true_r. apply Z.eqb_eq. exact Hu.
  - unfold order_by_desc. rewrite sort_by_length. apply filter_length_le.
Qed.

Lemma hd_offset_limit : forall A (l : list A), hd_error (offset_limit 0 1 l) = hd_error l.
Proof. intros A l. destruct l; reflexivity. Qed.

End RepoFacts.

Module UndoFacts.
Import SortFacts RepoFacts.

Lemma undoable_filter : forall now u m t,
  ((t_user_id t =? u) && (now - timedelta_minutes m <=? t_created_at t) = true)
  <-> undoable now u m t.
Proof.
  intros now u m t. unfold undoable.
  rewrite andb_true_iff, Z.eqb_eq, Z.leb_le. reflexivity.
Qed.

Lemma last_query_some : forall now u m db t,
  last_transaction_query now u m db = Some t ->
  In t db /\ undoable now u m t
  /\ forall r, In r db -> undoable now u m r -> t_created_at r <= t_created_at t.
Proof.
  intros now u m db t H. unfold last_transaction_query in H.
  rewrite hd_offset_limit in H.
  destruct (order_by_desc t_created_at _) as [ | h tl] eqn:E; [discriminate | ].
  injection H as ->.
  assert (Hin : In t (order_by_desc t_created_at
             (rev (filter (fun t => (t_user_id t =? u)
                                    && (now - timedelta_minutes m <=? t_created_at t)) db)))).
  { rewrite E. left. reflexivity. }
  apply sort_by_In in Hin. apply in_rev, filter_In in Hin. destruct Hin as [Hin Hq].
  split; [exact Hin | ]. split; [apply undoable_filter; exact Hq | ].
  intros r Hr Hu. apply (order_by_desc_head t_created_at _ _ _ E).
  apply -> in_rev. apply filter_In. split; [exact Hr | apply undoable_filter; exact Hu].
Qed.

Lemma last_query_none : forall now u m db,
  last_transaction_query now u m db = None ->
  forall r, In r db -> ~ undoable now u m r.
Proof.
  intros now u m db H r Hr Hu. unfold last_transaction_query in H.
  rewrite hd_offset_limit in H.
  assert (Hin : In r (order_by_desc t_created_at
             (rev (filter (fun t => (t_user_id t =? u)
                                    && (now - timedelta_minutes m <=? t_created_at t)) db)))).
  { apply sort_by_In. apply -> in_rev. apply filter_In.
    split; [exact Hr | apply undoable_filter; exact Hu]. }
  destruct (order_by_desc t_created_at _); [destruct Hin | discriminate].
Qed.

(** What [delete_last_transaction] does, when the commit goes through. *)
Lemma delete_last_spec : forall db now u m,
  unique_ids db ->
  ((exists r, In r db /\ undoable now u m r) ->
     exists t,
       delete_last_transaction true now u m db = Return (Some t, delete_row t db)
       /\ In t db /\ undoable now u m t
       /\ (forall r, In r db -> undoable now u m r -> t_created_at r <= t_created_at t)
       /\ (forall r, In r (delete_row t db) <-> In r db /\ r <> t)
       /\ length db = S (length (delete_row t db)))
  /\ ((forall r, In r db -> ~ undoable now u m r) ->
      forall commit_ok, delete_last_transaction commit_ok now u m db = Return (None, db)).
Proof.
  intros db now u m Hu. unfold delete_last_transaction. split.
  - intros (r & Hr & Hq).
    destruct (last_transaction_query now u m db) as [t | ] eqn:E.
    + destruct (last_query_some _ _ _ _ _ E) as (Hin & Ht & Hmax).
      exists t. split; [reflexivity | ]. split; [exact Hin | ]. split; [exact Ht | ].
      split; [exact Hmax | ].
      split; [intro x; apply delete_row_In; assumption
             | apply delete_row_length; assumption].
    + destruct (last_query_none _ _ _ _ E r Hr Hq).
  - intros Hnone commit_ok.
    destruct (last_transaction_query now u m db) as [t | ] eqn:E; [ | reflexivity].
    destruct (last_query_some _ _ _ _ _ E) as (Hin & Ht & _).
    destruct (Hnone t Hin Ht).
Qed.

Lemma max_id_above : forall db r, In r db -> t_id r <= fold_right Z.max 0 (map t_id db).
Proof.
  induction db as [ | a db IH]; intros r Hr; [destruct Hr | ].
  cbn [map fold_right]. destruct Hr as [-> | Hr]; [lia | ]. specialize (IH r Hr). lia.
Qed.

Lemma fresh_id_above : forall db r, In r db -> t_id r < fresh_id db.
Proof.
  intros db r Hr. pose proof (max_id_above db r Hr). unfold fresh_id. lia.
Qed.

(** An undo right after a creation takes back exactly the new row, when no
    earlier row of the user carries the same or a later creation time. *)
Lemma undo_after_create : forall db now now' u k c sc a cm cur eff,
  unique_ids db ->
  (forall r, In r db -> t_user_id r = u -> t_created_at r < now) ->
  now <= now' <= now + timedelta_minutes 5 ->
  exists t,
    create_transaction true now u k c sc a cm cur eff db = Return (t, db ++ [t])
    /\ delete_last_transaction true now' u 5 (db ++ [t]) = Return (Some t, db).
Proof.
  intros db now now' u k c sc a cm cur eff Hu Hold Hnow.
  eexists. split; [reflexivity | ].
  set (t := mkTransaction _ _ _ _ _ _ _ _ _ _).
  assert (Hfresh : forall r, In r db -> t_id r <> t_id t).
  { intros r Hr. pose proof (fresh_id_above db r Hr). subst t. cbn [t_id]. lia. }
  assert (Hu2 : unique_ids (db ++ [t])).
  { unfold unique_ids. rewrite map_app. simpl.
    apply NoDup_app_remove_l with (l := []). simpl.
    apply Permutation_NoDup with (l := t_id t :: map t_id db).
    - apply Permutation_cons_append.
    - constructor; [ | exact Hu].
      intro Hin. apply in_map_iff in Hin. destruct Hin as (r & E & Hr).
      apply (Hfresh r Hr E). }
  assert (Ht : undoable now' u 5 t) by (unfold undoable; simpl; lia).
  destruct (delete_last_spec (db ++ [t]) now' u 5 Hu2) as [Hsome _].
  assert (Hint : In t (db ++ [t])) by (apply in_or_app; right; left; reflexivity).
  destruct Hsome as (t' & E & Hin & Hq & Hmax & _).
  { exists t. split; [exact Hint | exact Ht]. }
  assert (t' = t).
  { apply in_app_or in Hin. destruct Hin as [Hin | [<- | []]]; [ | reflexivity].
    exfalso. destruct Hq as [Hq _].
    specialize (Hold t' Hin Hq). specialize (Hmax t Hint Ht).
    subst t. cbn [t_created_at] in Hmax. lia. }
  subst t'. rewrite E. f_equal. f_equal.
  unfold delete_row. rewrite filter_app. simpl. rewrite Z.eqb_refl. simpl.
  rewrite app_nil_r. apply filter_all.
  intros x Hx. apply negb_true_iff, Z.eqb_neq, Hfresh, Hx.
Qed.

End UndoFacts.

(** C6.  For a stored transaction, deleting it by id as its owner succeeds
    (the commit going through), removes that row and no other, and no later
    listing of the owner shows it.  Deleting it as another user answers false,
    exactly as for an id that does not exist, leaves the table as it was, and
    the owner still finds the transaction in the listing. *)
Theorem C6_delete_by_id :
  forall (db : DB) (t : Transaction) (other : Z),
    unique_ids db -> In t db -> other <> t_user_id t ->
    (exists db',
        delete_transaction_by_id true (t_user_id t) (t_id t) db = Return (true, db')
        /\ (forall kind offset limit,
              ~ In t (_fetch_recent db' (t_user_id t) kind offset limit))
        /\ (forall r, In r db' <-> In r db /\ r <> t))
    /\ (forall commit_ok,
          delete_transaction_by_id commit_ok other (t_id t) db = Return (false, db))
    /\ (forall commit_ok i,
          (forall r, In r db -> t_id r <> i) ->
          delete_transaction_by_id commit_ok other i db = Return (false, db))
    /\ In t (listing db (t_user_id t)).
Proof.
  intros db t other Hu Ht Hother. unfold delete_transaction_by_id.
  rewrite (RepoFacts.select_by_id db t Hu Ht). simpl.
  rewrite Z.eqb_refl. simpl.
  split; [ | split; [ | split]].
  - exists (delete_row t db). split; [reflexivity | ]. split.
    + intros kind offset limit Hin.
      apply RepoFacts.fetch_recent_incl in Hin. destruct Hin as [Hin _].
      apply (RepoFacts.delete_row_In db t t Hu Ht) in Hin. destruct Hin as [_ Hne].
      apply Hne. reflexivity.
    + intro r. apply RepoFacts.delete_row_In; assumption.
  - intro commit_ok.
    destruct (t_user_id t =? other) eqn:E; [ | reflexivity].
    apply Z.eqb_eq in E. congruence.
  - intros commit_ok i Hi. rewrite (RepoFacts.select_missing db i Hi). reflexivity.
  - apply RepoFacts.listing_complete; [exact Ht | reflexivity].
Qed.

(** C7.  Undo deletes the transaction of the requesting user with the latest
    creation time among those created in the last five minutes, that row and
    no other; when the user has none in the window it answers that there is
    nothing to undo, raises nothing and leaves the table as it was.  An undo
    within five minutes of a creation, the user having no row as recent as the
    new one, gives back the table of before the creation. *)
Theorem C7_undo_last :
  forall (db : DB) (now user_id : Z),
    unique_ids db ->
    ((exists r, In r db /\ undoable now user_id 5 r) ->
       exists t db',
         cmd_undo true now user_id db =
           Return (UndoDone (t_amount t) (t_currency t) (t_category_id t), db')
         /\ delete_last_transaction true now user_id 5 db = Return (Some t, db')
         /\ In t db /\ undoable now user_id 5 t
         /\ (forall r, In r db -> undoable now user_id 5 r ->
               t_created_at r <= t_created_at t)
         /\ (forall r, In r db' <-> In r db /\ r <> t)
         /\ length db = S (length db'))
    /\ ((forall r, In r db -> ~ undoable now user_id 5 r) ->
        forall commit_ok,
          cmd_undo commit_ok now user_id db = Return (NothingToUndo, db))
    /\ (forall created kind category_id subcategory_id amount comment currency effective_at,
          (forall r, In r db -> t_user_id r = user_id -> t_created_at r < created) ->
          created <= now <= created + timedelta_minutes 5 ->
          exists t,
            create_transaction true created user_id kind category_id subcategory_id
              amount comment currency effective_at db = Return (t, db ++ [t])
            /\ cmd_undo true now user_id (db ++ [t]) =
                 Return (UndoDone (t_amount t) (t_currency t) (t_category_id t), db)).
Proof.
  intros db now u Hu.
  destruct (UndoFacts.delete_last_spec db now u 5 Hu) as [Hsome Hnone].
  split; [ | split].
  - intro Hex. destruct (Hsome Hex) as (t & E & Hin & Hq & Hmax & Hrows & Hlen).
    exists t, (delete_row t db). unfold cmd_undo. rewrite E. simpl.
    split; [reflexivity | ]. split; [reflexivity | ]. split; [exact Hin | ].
    split; [exact Hq | ]. split; [exact Hmax | ]. split; [exact Hrows | exact Hlen].
  - intros Hno commit_ok. unfold cmd_undo. rewrite (Hnone Hno commit_ok). reflexivity.
  - intros created k c sc a cm cur eff Hold Hnow.
    destruct (UndoFacts.undo_after_create db created now u k c sc a cm cur eff Hu Hold Hnow)
      as (t & Ec & Ed).
    exists t. split; [exact Ec | ]. unfold cmd_undo. rewrite Ed. reflexivity.
Qed.

(** ** The recent browser *)

Module RecentFacts.
Import SortFacts RepoFacts.

Lemma delete_rows_no_forward : forall scope offset (items : list Transaction),
  existsb (existsb is_forward)
    (map (fun t => [ mkButton (LblDelete (t_id t)) (CbTxDel (t_id t) scope offset) ]) items)
  = false.
Proof.
  intros scope offset items. induction items as [ | t items IH]; simpl; [reflexivity | exact IH].
Qed.

(** The keyboard offers a next page exactly when the page is full. *)
Lemma has_more_full_page : forall scope offset items,
  has_more (_with_delete_buttons scope offset items) = (Z.of_nat (length items) =? 10).
Proof.
  intros scope offset items. unfold has_more, _with_delete_buttons.
  destruct (0 <? offset), (Z.of_nat (length items) =? 10); cbn [app];
    rewrite ?existsb_app; cbn [existsb is_forward text orb];
    rewrite ?existsb_app, delete_rows_no_forward; reflexivity.
Qed.

Lemma recent_paged_items : forall db u scope o,
  fst (recent_paged db u scope o) =
  offset_limit o 10 (order_by_desc t_effective_at (matching db u (scope_filter scope))).
Proof.
  intros db u scope o. unfold recent_paged, scope_filter. cbn [fst].
  apply fetch_recent_matching.
Qed.

Lemma recent_paged_more : forall db u scope o,
  has_more (snd (recent_paged db u scope o))
  = (Z.of_nat (length (fst (recent_paged db u scope o))) =? 10).
Proof.
  intros db u scope o. unfold recent_paged. cbn [fst snd]. apply has_more_full_page.
Qed.

End RecentFacts.

(** C8.  With 15 matching transactions the browser shows them newest first in
    pages of 10: offset 0 gives 10 rows and offers a next page, offset 10
    gives the remaining 5 and offers none; the two pages together are the 15
    transactions. *)
Theorem C8_recent_pages :
  forall (db : DB) (user_id : Z) (scope : str),
    length (matching db user_id (scope_filter scope)) = 15%nat ->
    length (fst (recent_paged db user_id scope 0)) = 10%nat
    /\ has_more (snd (recent_paged db user_id scope 0)) = true
    /\ length (fst (recent_paged db user_id scope 10)) = 5%nat
    /\ has_more (snd (recent_paged db user_id scope 10)) = false
    /\ newest_first (fst (recent_paged db user_id scope 0)
                     ++ fst (recent_paged db user_id scope 10))
    /\ Permutation (fst (recent_paged db user_id scope 0)
                    ++ fst (recent_paged db user_id scope 10))
         (matching db user_id (scope_filter scope)).
Proof.
  intros db u scope Hlen.
  rewrite !RecentFacts.recent_paged_more, !RecentFacts.recent_paged_items.
  set (L := order_by_desc t_effective_at (matching db u (scope_filter scope))).
  assert (HL : length L = 15%nat).
  { unfold L, order_by_desc. rewrite SortFacts.sort_by_length. exact Hlen. }
  rewrite !SortFacts.offset_limit_firstn by lia.
  change (Z.to_nat 0) with 0%nat. change (Z.to_nat 10) with 10%nat.
  change (skipn 0 L) with L.
  assert (H0 : length (firstn 10 L) = 10%nat) by (rewrite length_firstn; lia).
  assert (H1 : firstn 10 (skipn 10 L) = skipn 10 L).
  { apply firstn_all2. rewrite length_skipn. lia. }
  assert (H2 : length (skipn 10 L) = 5%nat) by (rewrite length_skipn; lia).
  rewrite H1, H0, H2, firstn_skipn.
  split; [reflexivity | ]. split; [reflexivity | ].
  split; [reflexivity | ]. split; [reflexivity | ].
  split.
  - apply (SortFacts.order_by_desc_sorted t_effective_at).
  - apply SortFacts.sort_by_perm.
Qed.

(** ** Aggregation *)

Module ReportFacts.
Import SortFacts.

Lemma str_eqb_eq : forall a b, str_eqb a b = true <-> a = b.
Proof.
  intros a b. unfold str_eqb. destruct (str_eq_dec a b); split; congruence.
Qed.

Lemma sumZ_app : forall a b, sumZ (a ++ b) = sumZ a + sumZ b.
Proof.
  intros a b. unfold sumZ. induction a as [ | x a IH]; cbn [app fold_right]; lia.
Qed.




Section Partition.
Context {R K : Type} (eqb : K -> K -> bool) (key : R -> K) (f : R -> Z).
Hypothesis eqb_eq : forall a b, eqb a b = true <-> a = b.




End Partition.

Lemma group_keys_NoDup : forall K (eq_dec : forall a b : K, {a = b} + {a <> b}) leb ks,
  NoDup (group_keys eq_dec leb ks).
Proof.
  intros K eq_dec leb ks. unfold group_keys.
  apply Permutation_NoDup with (l := nodup eq_dec ks).
  - symmetry. apply sort_by_perm.
  - apply NoDup_nodup.
Qed.

Lemma group_keys_In : forall K (eq_dec : forall a b : K, {a = b} + {a <> b}) leb ks k,
  In k (group_keys eq_dec leb ks) <-> In k ks.
Proof.
  intros K eq_dec leb ks k. unfold group_keys. rewrite sort_by_In. apply nodup_In.
Qed.

Lemma order_by_desc_perm : forall A (key : A -> Z) l, Permutation (order_by_desc key l) l.
Proof. intros. apply sort_by_perm. Qed.



Lemma aggregate_empty : forall pd mode, _aggregate_df pd [] mode = (Detail [], None).
Proof. reflexivity. Qed.

(** A [groupby] of rows has a group. *)
Lemma group_keys_rows : forall K (eq_dec : forall a b : K, {a = b} + {a <> b}) leb k ks,
  group_keys eq_dec leb (k :: ks) <> [].
Proof.
  intros K eq_dec leb k ks E.
  assert (H : In k (group_keys eq_dec leb (k :: ks))) by (apply group_keys_In; left; reflexivity).
  rewrite E in H. destruct H.
Qed.

Lemma sorted_rows : forall A (key : A -> Z) l, l <> [] -> order_by_desc key l <> [].
Proof.
  intros A key l H E. apply H. apply length_zero_iff_nil.
  rewrite <- (sort_by_length (fun x y => key y <=? key x) l).
  fold (order_by_desc key l). rewrite E. reflexivity.
Qed.

Lemma map_rows : forall A B (f : A -> B) l, l <> [] -> map f l <> [].
Proof. intros A B f l H E. apply map_eq_nil in E. contradiction. Qed.

(** ** Drawing the image *)

Lemma write_png_rows : forall t k s ti,
  table_length t <> 0%nat -> _write_png t k s ti = Done (SingleTable k s t ti).
Proof.
  intros t k s ti H. unfold _write_png, _render_table_on_axis.
  destruct (Nat.eqb_spec (table_length t) 0); [contradiction | reflexivity].
Qed.

Lemma write_png_empty : forall t k s ti,
  table_length t = 0%nat -> _write_png t k s ti = Failed IndexError.
Proof.
  intros t k s ti H. unfold _write_png, _render_table_on_axis. rewrite H. reflexivity.
Qed.

Lemma render_each_rows : forall l,
  Forall (fun s : str * list SectionRow => snd s <> []) l -> render_each l = Done tt.
Proof.
  induction 1 as [ | [c rows] l Hx _ IH]; [reflexivity | ].
  cbn [render_each]. unfold _render_table_on_axis. cbn [table_length].
  cbn [snd] in Hx. destruct rows as [ | x rows]; [contradiction | exact IH].
Qed.

Lemma firstn_min_length : forall A (l : list A) n,
  firstn (Nat.min (length l) n) l = firstn n l.
Proof.
  intros A l n. destruct (Nat.le_ge_cases (length l) n) as [H | H].
  - rewrite Nat.min_l by exact H. rewrite !firstn_all2; [reflexivity | exact H | lia].
  - rewrite Nat.min_r by exact H. reflexivity.
Qed.

Lemma build_sections_eq : forall pd df,
  _build_category_sections pd df
  = if is_empty df then ([], []) else (sections_of pd df, sections_of pd df).
Proof. intros pd df. reflexivity. Qed.

(** Every section has a row: its category has a row in the data. *)
Lemma sections_rows : forall pd df,
  Forall (fun s : str * list SectionRow => snd s <> []) (sections_of pd df).
Proof.
  intros pd df. apply Forall_forall. intros [c rows] H. cbn [snd].
  unfold sections_of in H. apply in_map_iff in H.
  destruct H as ([k v] & E & Hk). cbn [fst] in E. injection E as <- <-.
  unfold order_by_desc in Hk. apply sort_by_In in Hk.
  apply in_map_iff in Hk. destruct Hk as (k' & E & Hk'). injection E as -> _.
  apply group_keys_In in Hk'. apply in_map_iff in Hk'. destruct Hk' as (r & E & Hr).
  assert (Hin : In r (filter (fun r => str_eqb (r_category r) k) df)).
  { apply filter_In. split; [exact Hr | apply str_eqb_eq; exact E]. }
  destruct (filter (fun r => str_eqb (r_category r) k) df) as [ | g0 g] eqn:Eg;
    [destruct Hin | ].
  apply sorted_rows, map_rows. cbn [map]. apply group_keys_rows.
Qed.

Lemma write_png_sections_eq : forall pd df k s,
  _write_png_sections (sections_of pd df) k s
  = Done (if is_empty (sections_of pd df) then NoData k
          else Sections k s (firstn 12 (sections_of pd df))).
Proof.
  intros pd df k s. unfold _write_png_sections. cbv zeta.
  rewrite firstn_min_length.
  destruct (sections_of pd df) as [ | x l] eqn:E; [reflexivity | ].
  cbn [length Nat.eqb is_empty].
  rewrite render_each_rows; [reflexivity | ].
  apply Forall_forall. intros y Hy. apply firstn_incl in Hy.
  pose proof (sections_rows pd df) as Hs. rewrite E in Hs.
  rewrite Forall_forall in Hs. apply Hs. exact Hy.
Qed.

(** What an aggregation shows is never a table without rows, the data having
    a row. *)
Lemma display_rows : forall pd r df mode,
  table_length
    (match snd (_aggregate_df pd (r :: df) mode) with
     | Some _ => fst (_aggregate_df pd (r :: df) mode)
     | None => Detail (r :: df)
     end) <> 0%nat.
Proof.
  intros pd r df mode. unfold _aggregate_df. cbn [is_empty orb].
  destruct (no_mode mode || mode_is mode "detail"); [cbn; discriminate | ].
  destruct (mode_is mode "by_category").
  { cbn [fst snd table_length]. intro E. apply length_zero_iff_nil in E. revert E.
    apply sorted_rows. unfold group_by_category. apply map_rows. cbn [map].
    apply group_keys_rows. }
  destruct (mode_is mode "by_subcategory").
  { cbn [fst snd table_length]. intro E. apply length_zero_iff_nil in E. revert E.
    apply sorted_rows. unfold group_by_subcategory. apply map_rows. cbn [map].
    apply group_keys_rows. }
  destruct (mode_is mode "overall"); cbn; discriminate.
Qed.

(** ** The two paths of [build_report] *)

Lemma sections_path : forall agg kind,
  mode_is agg "by_category_sections" && kind_eqb kind EXPENSE = true ->
  agg = Some (py "by_category_sections") /\ kind = EXPENSE.
Proof.
  intros agg kind E. apply andb_true_iff in E. destruct E as [E1 E2]. split.
  - destruct agg as [m | ]; [ | discriminate]. unfold mode_is in E1.
    apply str_eqb_eq in E1. rewrite E1. reflexivity.
  - destruct kind; [reflexivity | discriminate].
Qed.

Section Paths.
Variables (ilike : str -> str -> bool) (pd : Pandas) (now : Z) (db : DB)
          (cmap : CategoryMap) (u : Z) (kind : TransactionKind) (sd ed : option Z)
          (cids sids : list Z) (amin amax : option Decimal) (cq : option str).

Let df := filtered_set ilike now db cmap u kind sd ed cids sids amin amax cq.
Let s := summary_of pd kind df.

Lemma build_report_plain : forall agg,
  mode_is agg "by_category_sections" && kind_eqb kind EXPENSE = false ->
  build_report ilike pd now db cmap u kind sd ed cids sids amin amax cq agg
  = match _write_png
            (match snd (_aggregate_df pd df agg) with
             | Some _ => fst (_aggregate_df pd df agg)
             | None => Detail df
             end) kind s (snd (_aggregate_df pd df agg)) with
    | Failed e => Failed e
    | Done image =>
        Done (mkReport
                (_write_excel now df kind s
                   (match snd (_aggregate_df pd df agg) with
                    | Some _ => Some (fst (_aggregate_df pd df agg))
                    | None => None
                    end)
                   (snd (_aggregate_df pd df agg)) [])
                [image] s)
    end.
Proof.
  intros agg H. unfold build_report. subst s df. unfold filtered_set, summary_of.
  rewrite H. destruct (_aggregate_df pd _ agg). reflexivity.
Qed.

Lemma build_report_sections :
  kind = EXPENSE ->
  build_report ilike pd now db cmap u kind sd ed cids sids amin amax cq
    (Some (py "by_category_sections"))
  = Done (mkReport
            (_write_excel now df kind s None None (fst (_build_category_sections pd df)))
            [ if is_empty (fst (_build_category_sections pd df)) then NoData kind
              else Sections kind s (firstn 12 (fst (_build_category_sections pd df))) ]
            s).
Proof.
  intros ->. unfold build_report. subst s df. unfold filtered_set, summary_of.
  set (d := _build_dataframe _ cmap).
  change (mode_is (Some (py "by_category_sections")) "by_category_sections"
          && kind_eqb EXPENSE EXPENSE) with true.
  cbv iota. rewrite build_sections_eq.
  destruct (is_empty d) eqn:E; [reflexivity | ].
  rewrite write_png_sections_eq. reflexivity.
Qed.

(** Every report carries the summary of the unaggregated rows. *)
Lemma build_report_summary : forall agg r,
  build_report ilike pd now db cmap u kind sd ed cids sids amin amax cq agg = Done r ->
  summary r = s.
Proof.
  intros agg r H.
  destruct (mode_is agg "by_category_sections" && kind_eqb kind EXPENSE) eqn:E.
  - destruct (sections_path agg kind E) as [-> Hk].
    rewrite (build_report_sections Hk) in H. injection H as <-. reflexivity.
  - rewrite (build_report_plain agg E) in H.
    destruct (_write_png _ kind s _); [ | discriminate]. injection H as <-. reflexivity.
Qed.

(** A report is produced whenever the filtered set has a row. *)
Lemma build_report_rows : forall agg,
  df <> [] ->
  exists r, build_report ilike pd now db cmap u kind sd ed cids sids amin amax cq agg = Done r.
Proof.
  intros agg Hdf.
  destruct (mode_is agg "by_category_sections" && kind_eqb kind EXPENSE) eqn:E.
  - destruct (sections_path agg kind E) as [-> Hk].
    rewrite (build_report_sections Hk). eexists. reflexivity.
  - rewrite (build_report_plain agg E).
    destruct df as [ | r0 d0] eqn:Ed; [contradiction | ].
    rewrite write_png_rows by apply display_rows. eexists. reflexivity.
Qed.

(** Without a row the plain path fails at the image. *)
Lemma build_report_no_rows : forall agg,
  df = [] ->
  mode_is agg "by_category_sections" && kind_eqb kind EXPENSE = false ->
  build_report ilike pd now db cmap u kind sd ed cids sids amin amax cq agg
  = Failed IndexError.
Proof.
  intros agg Hdf E. rewrite (build_report_plain agg E). rewrite Hdf.
  rewrite aggregate_empty. reflexivity.
Qed.

(** The plain path when nothing is aggregated. *)
Lemma build_report_detail : forall agg,
  mode_is agg "by_category_sections" && kind_eqb kind EXPENSE = false ->
  _aggregate_df pd df agg = (Detail df, None) ->
  build_report ilike pd now db cmap u kind sd ed cids sids amin amax cq agg
  = match df with
    | [] => Failed IndexError
    | _ :: _ =>
        Done (mkReport
                [ (sheet_data, TableSheet (Detail df));
                  (sheet_summary, SummarySheet s);
                  (sheet_meta, MetaSheet now (kind_value kind)) ]
                [ SingleTable kind s (Detail df) None ]
                s)
    end.
Proof.
  intros agg E Ha. rewrite (build_report_plain agg E), Ha. cbn [fst snd].
  destruct df as [ | r0 d0]; [reflexivity | ].
  rewrite write_png_rows by (cbn; discriminate). reflexivity.
Qed.

End Paths.

End ReportFacts.



Module ModeFacts.

Lemma aggregate_sections : forall pd df,
  _aggregate_df pd df (Some (py "by_category_sections")) = (Detail df, None).
Proof. intros pd df. destruct df; reflexivity. Qed.

Lemma aggregate_detail : forall pd df,
  _aggregate_df pd df (Some (py "detail")) = (Detail df, None).
Proof. intros pd df. destruct df; reflexivity. Qed.

Lemma aggregate_none : forall pd df, _aggregate_df pd df None = (Detail df, None).
Proof. intros pd df. destruct df; reflexivity. Qed.

End ModeFacts.

(** C4 (as stated, refuted).  On an empty set the mode [overall] gives back
    the empty table of raw rows: no row, not two. *)
Lemma C4_counterexample :
  table_length (fst (_aggregate_df ieee [] (Some (py "overall")))) <> 2%nat.
Proof. cbn. discriminate. Qed.

(** C4 (amended).  On a filtered set that is not empty the mode [overall]
    yields exactly two rows, the total sum and the number of operations, and
    the report shows that table, its total being the total of the summary.
    On an empty filtered set [_aggregate_df] yields the empty table of raw
    rows with no aggregate title. *)
Theorem C4_overall_rows :
  forall pd : Pandas,
    (forall r df,
       _aggregate_df pd (r :: df) (Some (py "overall"))
       = (Overall [ (TotalSum, Series_sum pd (map r_amount (r :: df)));
                    (OperationCount, float_of_int (Z.of_nat (length (r :: df)))) ],
          Some TitleOverall)
       /\ table_length (fst (_aggregate_df pd (r :: df) (Some (py "overall")))) = 2%nat)
    /\ _aggregate_df pd [] (Some (py "overall")) = (Detail [], None)
    /\ (forall ilike now db cmap u kind sd ed cids sids amin amax cq,
          let df := filtered_set ilike now db cmap u kind sd ed cids sids amin amax cq in
          let s := summary_of pd kind df in
          let t := Overall [ (TotalSum, sm_total s);
                             (OperationCount, float_of_int (sm_count s)) ] in
          df <> [] ->
          build_report ilike pd now db cmap u kind sd ed cids sids amin amax cq
            (Some (py "overall"))
          = Done (mkReport
                    [ (sheet_data, TableSheet (Detail df));
                      (sheet_summary, SummarySheet s);
                      (sheet_meta, MetaSheet now (kind_value kind));
                      (sheet_aggregate TitleOverall, TableSheet t) ]
                    [ SingleTable kind s t (Some TitleOverall) ]
                    s)).
Proof.
  intro pd. split; [ | split].
  - intros r df. split; reflexivity.
  - reflexivity.
  - intros ilike now db cmap u kind sd ed cids sids amin amax cq df s t Hdf.
    rewrite ReportFacts.build_report_plain by reflexivity. fold df. fold s.
    destruct df as [ | r0 d0] eqn:Ed; [contradiction | ].
    reflexivity.
Qed.

(** C10 (the defect).  A report of the INCOME kind asked with
    [by_category_sections] takes the plain path with nothing aggregated.
    When its filtered set has a row the report is the workbook of three
    sheets and one picture of the detail table, with no sheet per category.
    When its filtered set is empty that path raises [IndexError] at the
    image, after the workbook has been written.  The same request for the
    EXPENSE kind takes the sections path, which on an empty set draws the
    no-data picture and returns. *)
Theorem C10_empty_income_raises :
  forall ilike pd now db cmap u sd ed cids sids amin amax cq,
    let df := filtered_set ilike now db cmap u INCOME sd ed cids sids amin amax cq in
    let s := summary_of pd INCOME df in
    (df = [] ->
     build_report ilike pd now db cmap u INCOME sd ed cids sids amin amax cq
       (Some (py "by_category_sections"))
     = Failed IndexError)
    /\ (df <> [] ->
        build_report ilike pd now db cmap u INCOME sd ed cids sids amin amax cq
          (Some (py "by_category_sections"))
        = Done (mkReport
                  [ (sheet_data, TableSheet (Detail df));
                    (sheet_summary, SummarySheet s);
                    (sheet_meta, MetaSheet now (kind_value INCOME)) ]
                  [ SingleTable INCOME s (Detail df) None ]
                  s))
    /\ (filtered_set ilike now db cmap u EXPENSE sd ed cids sids amin amax cq = [] ->
        build_report ilike pd now db cmap u EXPENSE sd ed cids sids amin amax cq
          (Some (py "by_category_sections"))
        = Done (mkReport
                  [ (sheet_data, TableSheet (Detail []));
                    (sheet_summary, SummarySheet (mkSummary (kind_value EXPENSE) (Fin 0) 0));
                    (sheet_meta, MetaSheet now (kind_value EXPENSE)) ]
                  [ NoData EXPENSE ]
                  (mkSummary (kind_value EXPENSE) (Fin 0) 0))).
Proof.
  intros ilike pd now db cmap u sd ed cids sids amin amax cq df s.
  split; [ | split].
  - intro Hempty. apply ReportFacts.build_report_no_rows; [exact Hempty | reflexivity].
  - intro Hdf.
    rewrite ReportFacts.build_report_detail;
      [ | reflexivity | apply ModeFacts.aggregate_sections].
    fold df. fold s. destruct df as [ | r0 d0]; [contradiction | reflexivity].
  - intro He. rewrite ReportFacts.build_report_sections by reflexivity.
    rewrite He. reflexivity.
Qed.

(** C10 at a user of the sample table who has no income: the report of the
    incomes by sections raises [IndexError]. *)
Lemma C10_witness :
  build_report (fun _ _ => true) ieee 1300000000 sample_db [] 77 INCOME None None
    [] [] None None None (Some (py "by_category_sections"))
  = Failed IndexError.
Proof.
  apply (C10_empty_income_raises (fun _ _ => true) ieee 1300000000 sample_db [] 77
           None None [] [] None None None).
  reflexivity.
Defined.

(** ** Floats: the nearest double and the format of two places *)

Module FloatFacts.

Lemma div_half_even_cases : forall n d,
  0 < d ->
  exists q r, n = d * q + r /\ 0 <= r < d
    /\ (div_half_even n d = q /\ 2 * r <= d \/ div_half_even n d = q + 1 /\ d <= 2 * r).
Proof.
  intros n d Hd. exists (n / d), (n mod d).
  pose proof (Z.div_mod n d ltac:(lia)) as E.
  pose proof (Z.mod_pos_bound n d Hd) as B.
  split; [exact E | ]. split; [exact B | ].
  unfold div_half_even.
  destruct (Z.ltb_spec (2 * (n mod d)) d); [left; split; [reflexivity | lia] | ].
  destruct (Z.ltb_spec d (2 * (n mod d))); [right; split; [reflexivity | lia] | ].
  destruct (Z.even (n / d)); [left | right]; split; try reflexivity; lia.
Qed.

(** The rounded quotient is within half a unit of the quotient. *)
Lemma div_half_even_near : forall n d,
  0 < d -> 2 * Z.abs (n - d * div_half_even n d) <= d.
Proof.
  intros n d Hd.
  destruct (div_half_even_cases n d Hd) as (q & r & E & B & [[-> H] | [-> H]]); nia.
Qed.

(** An integer closer than half a unit to the quotient is the rounded
    quotient. *)
Lemma div_half_even_unique : forall n d h,
  0 < d -> 2 * Z.abs (n - d * h) < d -> div_half_even n d = h.
Proof.
  intros n d h Hd H.
  destruct (div_half_even_cases n d Hd) as (q & r & E & B & [[-> H'] | [-> H']]).
  - assert (h = q); [ | congruence].
    destruct (Z.lt_trichotomy h q) as [L | [L | L]]; [ | exact L | ]; exfalso; nia.
  - assert (h = q + 1); [ | congruence].
    destruct (Z.lt_trichotomy h (q + 1)) as [L | [L | L]]; [ | exact L | ]; exfalso; nia.
Qed.

Lemma div_half_even_nonneg : forall n d, 0 <= n -> 0 < d -> 0 <= div_half_even n d.
Proof.
  intros n d Hn Hd.
  destruct (div_half_even_cases n d Hd) as (q & r & E & B & [[-> H] | [-> H]]); nia.
Qed.

(** The exponent of a value below 2^46. *)
Lemma round53_small : forall n d,
  0 <= n -> 0 < d -> n < 2 ^ 1120 * d ->
  exists K, 0 < K <= 2 ^ 1067 /\ round53 n d = div_half_even n (d * K) * K.
Proof.
  intros n d Hn Hd H. unfold round53.
  set (k := Z.max 0 (Z.log2 (n / d) - 52)).
  exists (2 ^ k). split; [ | reflexivity].
  assert (Hk : 0 <= k <= 1067).
  { subst k. split; [lia | ].
    assert (Hq : n / d < 2 ^ 1120) by (apply Z.div_lt_upper_bound; lia).
    destruct (Z.le_gt_cases (n / d) 0) as [L | L].
    - rewrite (Z.log2_nonpos _ L). lia.
    - apply (Z.log2_lt_pow2 _ _ L) in Hq. lia. }
  split; [apply Z.pow_pos_nonneg; lia | ].
  apply Z.pow_le_mono_r; lia.
Qed.

(** A value of at most two decimal places below 2^46 goes through the
    double nearest to it and the format [.2f] unchanged. *)
Lemma two_places_exact : forall p q c,
  0 <= p -> 0 < q -> 0 < c -> c * q = 100 -> p < 2 ^ 46 * q ->
  exists n, nearest_double p q = Fin n /\ 0 <= n /\ hundredths n = p * c.
Proof.
  intros p q c Hp Hq Hc Hcq Hlt. unfold nearest_double.
  replace (p <? 0) with false by (symmetry; apply Z.ltb_ge; exact Hp).
  rewrite (Z.abs_eq p Hp).
  assert (HU : ulps = 128 * 2 ^ 1067) by reflexivity.
  assert (HO : overflow = 2 ^ 1024 * ulps) by reflexivity.
  assert (H1120 : 2 ^ 1120 = 2 ^ 46 * ulps) by reflexivity.
  assert (HE : 0 < 2 ^ 1067) by reflexivity.
  assert (H46 : 2 ^ 46 + 1 < 2 ^ 1024) by reflexivity.
  assert (H46' : 0 < 2 ^ 46) by reflexivity.
  set (E := 2 ^ 1067) in *. set (U := ulps) in *. set (B := 2 ^ 46) in *.
  set (T := 2 ^ 1024) in *.
  destruct (round53_small (p * U) q) as (K & HK & ->); [nia | exact Hq | | ].
  { rewrite H1120. nia. }
  assert (HD : 0 < q * K) by nia.
  pose proof (div_half_even_near (p * U) (q * K) HD) as Hnear.
  pose proof (div_half_even_nonneg (p * U) (q * K) ltac:(nia) HD) as Hm.
  set (m := div_half_even (p * U) (q * K)) in *.
  assert (Hn : 0 <= m * K) by nia.
  assert (Hq2 : 2 * Z.abs (p * U - q * (m * K)) <= q * K).
  { replace (q * (m * K)) with (q * K * m) by ring. exact Hnear. }
  assert (Hsmall : m * K < overflow).
  { rewrite HO. fold T. fold U.
    assert (2 * (q * (m * K)) <= 2 * (p * U) + q * K) by lia.
    assert (q * (2 * (m * K)) < q * (2 * (B * U) + K)) by nia.
    assert (2 * (m * K) < 2 * (B * U) + K) by (apply (Z.mul_lt_mono_pos_l q); assumption).
    nia. }
  unfold signed. replace (overflow <=? m * K) with false by (symmetry; apply Z.leb_gt; exact Hsmall).
  exists (m * K). split; [reflexivity | ]. split; [exact Hn | ].
  unfold hundredths. fold U. apply div_half_even_unique; [lia | ].
  replace (100 * (m * K) - U * (p * c)) with (c * (q * (m * K) - p * U)) by (rewrite <- Hcq; ring).
  rewrite Z.abs_mul, (Z.abs_eq c) by lia.
  assert (Hs : Z.abs (q * (m * K) - p * U) = Z.abs (p * U - q * (m * K))) by lia.
  rewrite Hs.
  assert (2 * (c * Z.abs (p * U - q * (m * K))) <= c * (q * K)) by nia.
  assert (c * (q * K) = 100 * K) by (rewrite <- Hcq; ring).
  lia.
Qed.

Lemma pow10_places : forall k, (k <= 2)%nat -> pow10 (2 - k) * pow10 k = 100.
Proof. intros [ | [ | [ | k]]] H; [reflexivity | reflexivity | reflexivity | lia]. Qed.

Lemma pow10_pos : forall k, 0 < pow10 k.
Proof. intro k. unfold pow10. apply Z.pow_pos_nonneg; lia. Qed.

(** The float of a Decimal of at most two places below 2^46. *)
Lemma float_two_places : forall d,
  0 <= coef d -> (scale d <= 2)%nat -> below_2_46 d ->
  exists n, float_of_Decimal d = Fin n /\ 0 <= n
            /\ hundredths n = coef d * pow10 (2 - scale d).
Proof.
  intros d Hc Hs Hb. unfold float_of_Decimal.
  apply two_places_exact;
    [exact Hc | apply pow10_pos | apply pow10_pos | apply pow10_places; exact Hs | exact Hb].
Qed.

(** Such an amount is stored as it is. *)
Lemma stored_two_places : forall d,
  0 <= coef d -> (scale d <= 2)%nat -> below_2_46 d ->
  stored_numeric d = coef d * pow10 (2 - scale d).
Proof.
  intros d Hc Hs Hb. unfold stored_numeric.
  destruct (float_two_places d Hc Hs Hb) as (n & -> & Hn & E).
  replace (n <? 0) with false by (symmetry; apply Z.ltb_ge; exact Hn). exact E.
Qed.

End FloatFacts.

(** ** The amount cell *)

Module DisplayFacts.
Import TextFacts ParseFacts.

Lemma digit_char_spec : forall d,
  0 <= d <= 9 -> isdigit (digit_char d) = true /\ digit_of (digit_char d) = d.
Proof.
  intros d H.
  assert (C : d = 0 \/ d = 1 \/ d = 2 \/ d = 3 \/ d = 4 \/ d = 5 \/ d = 6 \/ d = 7
              \/ d = 8 \/ d = 9) by lia.
  repeat (destruct C as [-> | C]; [split; reflexivity | ]).
  subst d. split; reflexivity.
Qed.

Lemma number_of_snoc : forall l c, number_of (l ++ [c]) = 10 * number_of l + digit_of c.
Proof. intros l c. unfold number_of. rewrite fold_left_app. reflexivity. Qed.

Lemma digits_fuel_spec : forall f n acc,
  0 <= n < 2 ^ Z.of_nat (S f) ->
  exists ds, digits_fuel (S f) n acc = ds ++ acc
             /\ digits ds /\ ds <> [] /\ number_of ds = n.
Proof.
  induction f as [ | f IH]; intros n acc Hn.
  - assert (Hd : n / 10 = 0) by (apply Z.div_small; change (2 ^ Z.of_nat 1) with 2 in Hn; lia).
    cbn [digits_fuel]. rewrite Hd. cbn [Z.eqb].
    assert (Hm : n mod 10 = n) by (apply Z.mod_small; change (2 ^ Z.of_nat 1) with 2 in Hn; lia).
    destruct (digit_char_spec (n mod 10)) as [H1 H2]; [lia | ].
    exists [digit_char (n mod 10)]. split; [reflexivity | ].
    split; [constructor; [exact H1 | constructor] | ].
    split; [discriminate | ].
    unfold number_of. cbn [fold_left]. rewrite H2. lia.
  - change (digits_fuel (S (S f)) n acc)
      with (if n / 10 =? 0 then digit_char (n mod 10) :: acc
            else digits_fuel (S f) (n / 10) (digit_char (n mod 10) :: acc)).
    pose proof (Z.mod_pos_bound n 10 ltac:(lia)) as Hmod.
    destruct (digit_char_spec (n mod 10)) as [H1 H2]; [lia | ].
    pose proof (Z.div_mod n 10 ltac:(lia)) as Hdm.
    destruct (n / 10 =? 0) eqn:E.
    + apply Z.eqb_eq in E.
      exists [digit_char (n mod 10)]. split; [reflexivity | ].
      split; [constructor; [exact H1 | constructor] | ].
      split; [discriminate | ].
      unfold number_of. cbn [fold_left]. rewrite H2. lia.
    + apply Z.eqb_neq in E.
      assert (Hq : 0 <= n / 10 < 2 ^ Z.of_nat (S f)).
      { split; [apply Z.div_pos; lia | ].
        apply Z.div_lt_upper_bound; [lia | ].
        rewrite (Nat2Z.inj_succ (S f)), Z.pow_succ_r in Hn by lia. lia. }
      destruct (IH (n / 10) (digit_char (n mod 10) :: acc) Hq) as (ds & Eds & Hds & _ & Hv).
      exists (ds ++ [digit_char (n mod 10)]). split.
      * rewrite Eds, <- app_assoc. reflexivity.
      * split; [apply digits_app; split; [exact Hds | constructor; [exact H1 | constructor]] | ].
        split; [destruct ds; discriminate | ].
        rewrite number_of_snoc, Hv, H2. lia.
Qed.

Lemma digits_of_spec : forall n,
  0 <= n -> digits (digits_of n) /\ digits_of n <> [] /\ number_of (digits_of n) = n.
Proof.
  intros n Hn. unfold digits_of.
  destruct (digits_fuel_spec (Z.to_nat (Z.log2 n)) n []) as (ds & E & H).
  - split; [exact Hn | ].
    rewrite Nat2Z.inj_succ, Z2Nat.id by apply Z.log2_nonneg.
    destruct (Z.eq_dec n 0) as [-> | Hne]; [reflexivity | ].
    apply Z.log2_spec. lia.
  - rewrite E, app_nil_r. exact H.
Qed.

End DisplayFacts.

Module CellFacts.
Import TextFacts ParseFacts DisplayFacts.

Lemma digit_differs : forall c x, isdigit c = true -> isdigit x = false -> Ascii.eqb c x = false.
Proof.
  intros c x Hc Hx. destruct (Ascii.eqb c x) eqn:E; [ | reflexivity].
  apply Ascii.eqb_eq in E. congruence.
Qed.

Lemma digit_not_space : forall c, isdigit c = true -> isspace c = false.
Proof.
  intros c H. unfold isdigit in H. unfold isspace.
  apply andb_true_iff in H. destruct H as [H1 H2]. apply Z.leb_le in H1, H2.
  replace (code c <=? 13) with false by (symmetry; apply Z.leb_gt; lia).
  replace (code c <=? 32) with false by (symmetry; apply Z.leb_gt; lia).
  replace (code c =? 133) with false by (symmetry; apply Z.eqb_neq; lia).
  replace (code c =? 160) with false by (symmetry; apply Z.eqb_neq; lia).
  rewrite !andb_false_r. reflexivity.
Qed.

Lemma uncell_app : forall a b, uncell (a ++ b) = uncell a ++ uncell b.
Proof. intros a b. unfold uncell. rewrite !map_app, filter_app, map_app. reflexivity. Qed.

Lemma uncell_rev : forall a, uncell (rev a) = rev (uncell a).
Proof. intro a. unfold uncell. rewrite !map_rev, filter_rev, map_rev. reflexivity. Qed.

Lemma uncell_digit : forall c, isdigit c = true -> uncell [c] = [c].
Proof.
  intros c H. unfold uncell. cbn [map].
  rewrite (digit_differs c ","%char H eq_refl).
  rewrite (digit_differs c "."%char H eq_refl).
  cbn [filter]. rewrite (digit_differs c " "%char H eq_refl). cbn [negb map].
  rewrite (digit_differs c ","%char H eq_refl). reflexivity.
Qed.

Lemma uncell_cons_digit : forall c l, isdigit c = true -> uncell (c :: l) = c :: uncell l.
Proof.
  intros c l H. change (c :: l) with ([c] ++ l).
  rewrite uncell_app, (uncell_digit c H). reflexivity.
Qed.

Lemma uncell_digits : forall l, digits l -> uncell l = l.
Proof.
  induction 1 as [ | c l Hc _ IH]; [reflexivity | ].
  rewrite (uncell_cons_digit c l Hc), IH. reflexivity.
Qed.

(** Induction along [group3_rev]: three characters at a time. *)
Lemma group3_rev_ind : forall P : str -> str -> Prop,
  (forall l, (length l <= 3)%nat -> P l l) ->
  (forall a b c d t,
     P (d :: t) (group3_rev (d :: t)) ->
     P (a :: b :: c :: d :: t) (a :: b :: c :: ","%char :: group3_rev (d :: t))) ->
  forall l, P l (group3_rev l).
Proof.
  intros P Hbase Hstep l.
  assert (H : forall n l, (length l <= n)%nat -> P l (group3_rev l)).
  { clear l. induction n as [ | n IH]; intros l Hl.
    - destruct l; [apply (Hbase []); simpl; lia | simpl in Hl; lia].
    - destruct l as [ | a [ | b [ | c [ | d t]]]];
        try (apply Hbase; simpl; lia).
      change (group3_rev (a :: b :: c :: d :: t))
        with (a :: b :: c :: ","%char :: group3_rev (d :: t)).
      apply Hstep. apply IH. simpl in *. lia. }
  apply (H (length l)). lia.
Qed.

Lemma uncell_group3_rev : forall l, digits l -> uncell (group3_rev l) = l.
Proof.
  intro l. apply (group3_rev_ind (fun l g => digits l -> uncell g = l)).
  - intros l0 _ H. apply uncell_digits. exact H.
  - intros a b c d t IH H.
    inversion H as [ | ? ? Ha H1]; subst. inversion H1 as [ | ? ? Hb H2]; subst.
    inversion H2 as [ | ? ? Hc H3]; subst.
    rewrite !uncell_cons_digit by assumption.
    change (","%char :: group3_rev (d :: t)) with ([","%char] ++ group3_rev (d :: t)).
    rewrite uncell_app. change (uncell [","%char]) with (@nil ascii).
    cbn [app]. rewrite (IH H3). reflexivity.
Qed.

Lemma uncell_group3 : forall l, digits l -> uncell (group3 l) = l.
Proof.
  intros l H. unfold group3. rewrite uncell_rev, uncell_group3_rev.
  - apply rev_involutive.
  - apply Forall_rev. exact H.
Qed.

Lemma group3_rev_last : forall l l0 x,
  l = l0 ++ [x] -> exists W, group3_rev l = W ++ [x].
Proof.
  intro l.
  apply (group3_rev_ind (fun l g => forall l0 x, l = l0 ++ [x] -> exists W, g = W ++ [x])).
  - intros l1 _ l0 x E. exists l0. exact E.
  - intros a b c d t IH l0 x E.
    destruct l0 as [ | a' [ | b' [ | c' l0]]]; cbn [app] in E; try discriminate.
    injection E as -> -> -> E.
    destruct (IH l0 x E) as (W & EW).
    exists (a' :: b' :: c' :: ","%char :: W). rewrite EW. reflexivity.
Qed.

Lemma group3_head : forall c t, exists W, group3 (c :: t) = c :: W.
Proof.
  intros c t. unfold group3. cbn [rev].
  destruct (group3_rev_last (rev t ++ [c]) (rev t) c eq_refl) as (W & E).
  exists (rev W). rewrite E, rev_app_distr. reflexivity.
Qed.

Lemma strip_untouched : forall s c t t' c',
  s = c :: t -> isspace c = false -> s = t' ++ [c'] -> isspace c' = false ->
  strip s = s.
Proof.
  intros s c t t' c' E1 H1 E2 H2. unfold strip, rstrip.
  assert (L : lstrip s = s) by (rewrite E1; cbn [lstrip]; rewrite H1; reflexivity).
  assert (R : rev s = c' :: rev t') by (rewrite E2, rev_app_distr; reflexivity).
  assert (L2 : lstrip (rev s) = rev s) by (rewrite R; cbn [lstrip]; rewrite H2; reflexivity).
  rewrite L, L2. apply rev_involutive.
Qed.

End CellFacts.

Module RoundTrip.
Import TextFacts ParseFacts DisplayFacts CellFacts.

Lemma fixed2_plain : forall q,
  fixed2 false q =
  group3 (digits_of (q / 100))
  ++ ["."%char; digit_char ((q mod 100) / 10); digit_char (q mod 10)].
Proof. reflexivity. Qed.

Lemma amount_cell_maps : forall q,
  amount_cell q =
  map (fun x => if Ascii.eqb x "."%char then ","%char else x)
    (map (fun x => if Ascii.eqb x ","%char then " "%char else x) (format_2f q)).
Proof.
  intro q. unfold amount_cell.
  change (py ",") with [","%char]. change (py " ") with [" "%char].
  rewrite !replace_subst. reflexivity.
Qed.

Lemma cell_digit : forall c,
  isdigit c = true ->
  (if Ascii.eqb (if Ascii.eqb c ","%char then " "%char else c) "."%char
   then ","%char else (if Ascii.eqb c ","%char then " "%char else c)) = c.
Proof.
  intros c H.
  rewrite (digit_differs c ","%char H eq_refl), (digit_differs c "."%char H eq_refl).
  reflexivity.
Qed.

(** The cell of a float that prints as [q] hundredths without a sign has no
    whitespace at its ends. *)
Lemma strip_amount_cell : forall x q,
  0 <= q -> format_2f x = fixed2 false q -> strip (amount_cell x) = amount_cell x.
Proof.
  intros x q Hq Hf.
  destruct (digits_of_spec (q / 100)) as (HI & Hne & _); [apply Z.div_pos; lia | ].
  destruct (digit_char_spec (q mod 10)) as [H0 _]; [Z.div_mod_to_equations; lia | ].
  rewrite amount_cell_maps, Hf, fixed2_plain.
  destruct (digits_of (q / 100)) as [ | c t] eqn:EI; [congruence | ].
  inversion HI as [ | ? ? Hc _]; subst.
  destruct (group3_head c t) as (W & EW). rewrite EW.
  eapply strip_untouched.
  - cbn [app map]. rewrite (cell_digit c Hc). reflexivity.
  - apply digit_not_space. exact Hc.
  - change ["."%char; digit_char (q mod 100 / 10); digit_char (q mod 10)]
      with (["."%char; digit_char (q mod 100 / 10)] ++ [digit_char (q mod 10)]).
    rewrite app_assoc, !map_app. cbn [map]. rewrite (cell_digit _ H0). reflexivity.
  - apply digit_not_space. exact H0.
Qed.

Lemma cleaned_amount_cell : forall x q,
  0 <= q -> format_2f x = fixed2 false q ->
  cleaned (amount_cell x) =
  digits_of (q / 100)
  ++ py "." ++ [digit_char ((q mod 100) / 10); digit_char (q mod 10)].
Proof.
  intros x q Hq Hf.
  destruct (digits_of_spec (q / 100)) as (HI & _ & _); [apply Z.div_pos; lia | ].
  destruct (digit_char_spec (q mod 10)) as [H0 _]; [Z.div_mod_to_equations; lia | ].
  destruct (digit_char_spec ((q mod 100) / 10)) as [H1 _]; [Z.div_mod_to_equations; lia | ].
  rewrite cleaned_eq, (strip_amount_cell x q Hq Hf), amount_cell_maps.
  fold (uncell (format_2f x)). rewrite Hf, fixed2_plain.
  rewrite uncell_app, (uncell_group3 _ HI). f_equal.
  change ["."%char; digit_char (q mod 100 / 10); digit_char (q mod 10)]
    with (["."%char] ++ [digit_char (q mod 100 / 10); digit_char (q mod 10)]).
  rewrite uncell_app. change (uncell ["."%char]) with ["."%char].
  rewrite uncell_digits; [reflexivity | ].
  constructor; [exact H1 | constructor; [exact H0 | constructor]].
Qed.

(** Parsing the cell of a float gives back the hundredths it prints. *)
Lemma parse_amount_cell : forall x q,
  0 <= q -> format_2f x = fixed2 false q ->
  parse_amount (amount_cell x) = Return (Some (mkDecimal q 2)).
Proof.
  intros x q Hq Hf.
  destruct (digits_of_spec (q / 100)) as (HI & Hne & Hv); [apply Z.div_pos; lia | ].
  destruct (digit_char_spec (q mod 10)) as [H0 V0]; [Z.div_mod_to_equations; lia | ].
  destruct (digit_char_spec ((q mod 100) / 10)) as [H1 V1]; [Z.div_mod_to_equations; lia | ].
  apply parse_amount_accepts. rewrite (cleaned_amount_cell x q Hq Hf).
  set (fp := [digit_char (q mod 100 / 10); digit_char (q mod 10)]).
  assert (E : number_of (digits_of (q / 100) ++ fp) = q).
  { unfold fp.
    change [digit_char (q mod 100 / 10); digit_char (q mod 10)]
      with ([digit_char (q mod 100 / 10)] ++ [digit_char (q mod 10)]).
    rewrite app_assoc, !number_of_snoc, Hv, V0, V1.
    Z.div_mod_to_equations. lia. }
  rewrite <- E at 2. change 2%nat with (length fp).
  apply reads_fraction; [exact Hne | exact HI | ].
  constructor; [exact H1 | constructor; [exact H0 | constructor]].
Qed.

End RoundTrip.

(** C9 (as stated, refuted).  "1.234" is accepted; its display is "1,23",
    which parses to 1.23. *)
Lemma C9_counterexample :
  exists d, parse_amount (py "1.234") = Return (Some d) /\ ~ display_roundtrip d.
Proof.
  exists (mkDecimal 1234 3). split; [reflexivity | ].
  intros (d' & H & E). vm_compute in H. injection H as <-.
  vm_compute in E. discriminate.
Qed.

(** C9 (amended).  For every accepted amount string with at most two digits
    after the decimal separator and a value below 2^46 (about 7.03e13),
    parsing the display of the parsed amount (the float of the amount with
    two decimals, spaces between thousands, a comma before the decimals)
    gives the parsed amount back.  The bound is needed: from 2^46 on the
    doubles are more than a hundredth apart, and "90071992547409.93" is shown
    as 90 071 992 547 409,94. *)
Theorem C9_display_roundtrip :
  (forall (s : str) (d : Decimal),
     parse_amount s = Return (Some d) ->
     (scale d <= 2)%nat ->
     below_2_46 d ->
     display_roundtrip d)
  /\ (exists d, parse_amount (py "90071992547409.93") = Return (Some d)
                /\ (scale d <= 2)%nat
                /\ format_amount d = py "90 071 992 547 409,94"
                /\ ~ display_roundtrip d).
Proof.
  split.
  - intros s d H Hs Hb.
    pose proof (ParseFacts.parse_amount_nonneg s d H) as Hc.
    destruct (FloatFacts.float_two_places d Hc Hs Hb) as (n & Ef & Hn & Eh).
    pose proof (FloatFacts.pow10_pos (2 - scale d)) as Hp.
    unfold display_roundtrip, format_amount. rewrite Ef.
    exists (mkDecimal (coef d * pow10 (2 - scale d)) 2). split.
    + apply RoundTrip.parse_amount_cell; [nia | ].
      cbn [format_2f]. rewrite (Z.abs_eq n Hn), Eh.
      replace (n <? 0) with false by (symmetry; apply Z.ltb_ge; exact Hn). reflexivity.
    + unfold dec_eqb, dec_compare. cbn [coef scale].
      assert (Eq : coef d * pow10 (2 - scale d) * pow10 (scale d) = coef d * pow10 2).
      { rewrite <- Z.mul_assoc, (FloatFacts.pow10_places _ Hs). reflexivity. }
      rewrite Eq, Z.compare_refl. reflexivity.
  - exists (mkDecimal 9007199254740993 2). split; [vm_compute; reflexivity | ].
    split; [simpl; apply le_n | ]. split; [vm_compute; reflexivity | ].
    intros (d' & H & E). vm_compute in H. injection H as <-.
    vm_compute in E. discriminate.
Qed.

(** ** The theorems at sample inputs *)

(** C5 at the input "0", in a dialogue that waits for the amount. *)
Lemma C5_witness :
  exists t w',
    process_amount 12 (py "0") sample_world = (w', None)
    /\ (t = BadFormatText \/ t = NonPositiveText)
    /\ reprompted t sample_world w'
    /\ fsm_state (w_fsm w') = Some waiting_for_amount
    /\ d_amount (fsm_data (w_fsm w')) = d_amount (fsm_data (w_fsm sample_world))
    /\ w_db w' = w_db sample_world.
Proof.
  apply (C5_invalid_amount_reenters 12 (py "0") sample_world).
  - reflexivity.
  - right. exists (mkDecimal 0 0). split; reflexivity.
Defined.

Lemma sample_db_unique : unique_ids sample_db.
Proof.
  unfold unique_ids. simpl.
  constructor; [simpl; intros [H | [H | []]]; discriminate | ].
  constructor; [simpl; intros [H | []]; discriminate | ].
  constructor; [simpl; intros [] | constructor].
Defined.

(** C6 on the sample table: user 1 owns transaction 1, user 2 does not. *)
Lemma C6_witness :
  (exists db',
      delete_transaction_by_id true 1 1 sample_db = Return (true, db')
      /\ (forall kind offset limit, ~ In sample_expense (_fetch_recent db' 1 kind offset limit))
      /\ (forall r, In r db' <-> In r sample_db /\ r <> sample_expense))
  /\ (forall commit_ok,
        delete_transaction_by_id commit_ok 2 1 sample_db = Return (false, sample_db))
  /\ (forall commit_ok i,
        (forall r, In r sample_db -> t_id r <> i) ->
        delete_transaction_by_id commit_ok 2 i sample_db = Return (false, sample_db))
  /\ In sample_expense (listing sample_db 1).
Proof.
  apply (C6_delete_by_id sample_db sample_expense 2).
  - exact sample_db_unique.
  - simpl. left. reflexivity.
  - simpl. discriminate.
Defined.

(** C7 on the sample table, five minutes after the first creation. *)
Lemma C7_witness :
  exists t db',
    cmd_undo true 1300000000 1 sample_db =
      Return (UndoDone (t_amount t) (t_currency t) (t_category_id t), db')
    /\ delete_last_transaction true 1300000000 1 5 sample_db = Return (Some t, db')
    /\ In t sample_db /\ undoable 1300000000 1 5 t
    /\ (forall r, In r sample_db -> undoable 1300000000 1 5 r ->
          t_created_at r <= t_created_at t)
    /\ (forall r, In r db' <-> In r sample_db /\ r <> t)
    /\ length sample_db = S (length db').
Proof.
  apply (proj1 (C7_undo_last sample_db 1300000000 1 sample_db_unique)).
  exists sample_expense. split; [simpl; left; reflexivity | ].
  split; [reflexivity | ]. vm_compute. discriminate.
Defined.

(** C8 on a table with fifteen transactions of user 1. *)
Lemma C8_witness :
  length (fst (recent_paged sample_fifteen 1 (py "all") 0)) = 10%nat
  /\ has_more (snd (recent_paged sample_fifteen 1 (py "all") 0)) = true
  /\ length (fst (recent_paged sample_fifteen 1 (py "all") 10)) = 5%nat
  /\ has_more (snd (recent_paged sample_fifteen 1 (py "all") 10)) = false
  /\ newest_first (fst (recent_paged sample_fifteen 1 (py "all") 0)
                   ++ fst (recent_paged sample_fifteen 1 (py "all") 10))
  /\ Permutation (fst (recent_paged sample_fifteen 1 (py "all") 0)
                  ++ fst (recent_paged sample_fifteen 1 (py "all") 10))
       (matching sample_fifteen 1 (scope_filter (py "all"))).
Proof.
  apply (C8_recent_pages sample_fifteen 1 (py "all")).
  vm_compute. reflexivity.
Defined.

(** C9 at the input "2,50". *)
Lemma C9_witness : display_roundtrip (mkDecimal 250 2).
Proof.
  apply (proj1 C9_display_roundtrip (py "2,50") (mkDecimal 250 2)).
  - vm_compute. reflexivity.
  - simpl. apply le_n.
  - reflexivity.
Defined.

(** * The rest of the code: proofs *)

(** ** The amount step and the confirmation *)

Module HandlerFacts.
Import ParseFacts StepFacts.

Lemma reprompted_chat : forall t w w',
  reprompted t w w' ->
  forall m, In m (alive (w_chat w')) ->
    In m (alive (w_chat w)) \/ m = FromBot (next_message_id (w_chat w)) t cancel_keyboard.
Proof.
  intros t w w' (_ & _ & _ & _ & old & E & Hold) m Hm.
  rewrite E in Hm. apply in_app_or in Hm. destruct Hm as [Hm | [<- | []]].
  - left. apply Hold. exact Hm.
  - right. reflexivity.
Qed.

(** An accepted amount: the handler stops at the call of the keyboard, or
    before it at a missing key. *)
Lemma handler_accepted : forall i s d w,
  parse_amount s = Return (Some d) -> dec_leb d dec_zero = false ->
  exists e,
    process_amount i s w =
      (mkWorld
         (match d_kind (fsm_data (w_fsm w)), d_category_name (fsm_data (w_fsm w)) with
          | Some _, Some _ => set_state waiting_for_confirmation (update_amount d (w_fsm w))
          | _, _ => update_amount d (w_fsm w)
          end)
         (delete_message i (w_chat w)) (w_db w),
       Some e).
Proof.
  intros i s d w H Hd. unfold process_amount. rewrite H, Hd. cbn.
  destruct (d_kind (fsm_data (w_fsm w))), (d_category_name (fsm_data (w_fsm w)));
    eexists; reflexivity.
Qed.

Lemma confirm_data_length : forall data,
  (19 < length (py "transaction" ++ py "_confirm:" ++ data))%nat.
Proof. intro data. rewrite !length_app. simpl. lia. Qed.

End HandlerFacts.

(** X1.  For an amount that parses to a positive value, with the kind and the
    category name in the draft, the amount step stores the amount, moves to
    the confirmation state and then raises TypeError at the call
    [get_confirm_keyboard("transaction")], which lacks the second argument:
    no confirmation prompt is sent, the earlier prompt stays, and only the
    user's message is removed from the chat. *)
Theorem X1_accepted_amount_raises :
  forall (i : Z) (s : str) (d : Decimal) (kind name : str) (w : World),
    parse_amount s = Return (Some d) ->
    dec_leb d dec_zero = false ->
    d_kind (fsm_data (w_fsm w)) = Some kind ->
    d_category_name (fsm_data (w_fsm w)) = Some name ->
    exists w',
      process_amount i s w = (w', Some TypeError)
      /\ fsm_state (w_fsm w') = Some waiting_for_confirmation
      /\ d_amount (fsm_data (w_fsm w')) = Some d
      /\ d_last_bot_message_id (fsm_data (w_fsm w'))
         = d_last_bot_message_id (fsm_data (w_fsm w))
      /\ alive (w_chat w')
         = filter (fun m => negb (message_id_of m =? i)) (alive (w_chat w))
      /\ w_db w' = w_db w.
Proof.
  intros i s d kind name w H Hd Hk Hn.
  unfold process_amount. rewrite H, Hd. cbn. rewrite Hk, Hn.
  eexists. split; [reflexivity | ]. cbn. repeat split.
Qed.

(** X1 at the input "100", in a dialogue that waits for the amount. *)
Lemma X1_witness :
  exists w',
    process_amount 12 (py "100") sample_world = (w', Some TypeError)
    /\ fsm_state (w_fsm w') = Some waiting_for_confirmation
    /\ d_amount (fsm_data (w_fsm w')) = Some (mkDecimal 100 0)
    /\ d_last_bot_message_id (fsm_data (w_fsm w'))
       = d_last_bot_message_id (fsm_data (w_fsm sample_world))
    /\ alive (w_chat w')
       = filter (fun m => negb (message_id_of m =? 12)) (alive (w_chat sample_world))
    /\ w_db w' = w_db sample_world.
Proof.
  apply (X1_accepted_amount_raises 12 (py "100") (mkDecimal 100 0)
           (py "expense") (py "Gifts") sample_world); reflexivity.
Defined.

(** X2.  Whatever the text, the amount step never sends a confirmation
    prompt: a message alive after it was alive before it or is one of the two
    error prompts; the table of transactions is untouched; and when no
    exception leaves the handler, the state and the draft are as before. *)
Theorem X2_amount_step_never_confirms :
  forall (i : Z) (s : str) (w : World),
    (forall m, In m (alive (w_chat (fst (process_amount i s w)))) ->
       In m (alive (w_chat w)) \/ is_error_prompt (next_message_id (w_chat w)) m)
    /\ w_db (fst (process_amount i s w)) = w_db w
    /\ (snd (process_amount i s w) = None ->
        fsm_state (w_fsm (fst (process_amount i s w))) = fsm_state (w_fsm w)
        /\ draft (fsm_data (w_fsm (fst (process_amount i s w))))
           = draft (fsm_data (w_fsm w))).
Proof.
  intros i s w.
  destruct (ParseFacts.parse_amount_cases s) as [(d & _ & E) | (_ & E)].
  - destruct (dec_leb d dec_zero) eqn:Hd.
    + destruct (StepFacts.process_amount_nonpositive i s d w E Hd) as (w' & -> & R).
      cbn [fst snd]. split; [ | split].
      * intros m Hm.
        destruct (HandlerFacts.reprompted_chat _ _ _ R m Hm) as [Hin | ->];
          [left; exact Hin | right; right; reflexivity].
      * apply R.
      * intros _. split; apply R.
    + destruct (HandlerFacts.handler_accepted i s d w E Hd) as (e & ->).
      cbn [fst snd w_chat w_db]. split; [ | split].
      * intros m Hm. left. apply filter_In in Hm. tauto.
      * reflexivity.
      * discriminate.
  - destruct (StepFacts.process_amount_unparsed i s w E) as (w' & -> & R).
    cbn [fst snd]. split; [ | split].
    + intros m Hm.
      destruct (HandlerFacts.reprompted_chat _ _ _ R m Hm) as [Hin | ->];
        [left; exact Hin | right; left; reflexivity].
    + apply R.
    + intros _. split; apply R.
Qed.

(** X3.  The confirm button that [get_confirm_keyboard("transaction", data)]
    builds is never taken by [process_confirmation]: for every [data] its
    callback data differs from "transaction_confirm", and so does that of the
    cancel button. *)
Theorem X3_confirm_button_unhandled :
  forall data : str,
    Forall (Forall (fun b => is_transaction_confirm (key_data b) = false))
      (get_confirm_keyboard (py "transaction") data).
Proof.
  intro data. unfold get_confirm_keyboard.
  constructor; [ | constructor].
  constructor; [ | constructor; [reflexivity | constructor]].
  cbn [key_data]. unfold is_transaction_confirm, str_eqb.
  destruct (str_eq_dec _ _) as [E | _]; [ | reflexivity].
  pose proof (HandlerFacts.confirm_data_length data) as L.
  rewrite E in L. simpl in L. lia.
Qed.

(** ** Creation, confirmation, deletion *)

Module CreateFacts.
Import RepoFacts UndoFacts.

Lemma fresh_unique : forall db t,
  t_id t = fresh_id db -> unique_ids db -> unique_ids (db ++ [t]).
Proof.
  intros db t Hid Hu. unfold unique_ids. rewrite map_app. cbn [map].
  apply Permutation_NoDup with (l := t_id t :: map t_id db).
  - apply Permutation_cons_append.
  - constructor; [ | exact Hu].
    intro Hin. apply in_map_iff in Hin. destruct Hin as (r & E & Hr).
    pose proof (fresh_id_above db r Hr). lia.
Qed.

Lemma select_fresh : forall db t,
  t_id t = fresh_id db -> filter (fun r => t_id r =? t_id t) (db ++ [t]) = [t].
Proof.
  intros db t Hid. rewrite filter_app. cbn [filter]. rewrite Z.eqb_refl.
  rewrite filter_nil; [reflexivity | ].
  intros x Hx. apply Z.eqb_neq. pose proof (fresh_id_above db x Hx). lia.
Qed.

Lemma delete_row_fresh : forall db t,
  t_id t = fresh_id db -> delete_row t (db ++ [t]) = db.
Proof.
  intros db t Hid. unfold delete_row. rewrite filter_app. cbn [filter].
  rewrite Z.eqb_refl. cbn [negb]. rewrite app_nil_r. apply filter_all.
  intros x Hx. apply negb_true_iff, Z.eqb_neq.
  pose proof (fresh_id_above db x Hx). lia.
Qed.

Lemma delete_row_keeps : forall db t r,
  In r db -> t_id r <> t_id t -> In r (delete_row t db).
Proof.
  intros db t r Hr Hne. unfold delete_row. apply filter_In. split; [exact Hr | ].
  apply negb_true_iff, Z.eqb_neq. exact Hne.
Qed.

End CreateFacts.

(** X4.  On a draft that holds a category, an amount and a valid kind, with a
    commit that goes through, the confirmation appends exactly one
    transaction, owned by the caller and built from the draft (kind, category,
    subcategory with zero counted as none, the amount as the column keeps it,
    comment with the empty one counted as none, currency RUB, both times the
    present one), under an id no stored row has; it clears the state and the
    draft and answers with that id.  Unique ids stay unique.  An amount of at
    most two places below 2^46 is kept as it is. *)
Theorem X4_confirmation_saves_draft :
  forall (now from_user : Z) (c : FSMContext) (db : DB)
         (category_id : Z) (amount : Decimal) (kind : str) (tk : TransactionKind),
    d_category_id (fsm_data c) = Some category_id ->
    d_amount (fsm_data c) = Some amount ->
    d_kind (fsm_data c) = Some kind ->
    TransactionKind_of_value kind = Some tk ->
    exists t,
      process_confirmation true now from_user c db
      = (clear c, db ++ [t],
         Done (SavedReply (if str_eqb kind (py "expense") then Spending else Earning)
                 amount (t_id t)))
      /\ t = mkTransaction (fresh_id db) from_user tk category_id
               (stored_subcategory (d_subcategory_id (fsm_data c)))
               (stored_numeric amount) (py "RUB") (truthy (d_comment (fsm_data c)))
               now now
      /\ (forall r, In r db -> t_id r <> t_id t)
      /\ (unique_ids db -> unique_ids (db ++ [t]))
      /\ fsm_state (clear c) = None
      /\ (0 <= coef amount -> (scale amount <= 2)%nat -> below_2_46 amount ->
          t_amount t = coef amount * pow10 (2 - scale amount)).
Proof.
  intros now u c db cid a kind tk Hc Ha Hk Htk.
  exists (mkTransaction (fresh_id db) u tk cid
            (stored_subcategory (d_subcategory_id (fsm_data c)))
            (stored_numeric a) (py "RUB") (truthy (d_comment (fsm_data c))) now now).
  unfold process_confirmation. rewrite Hc, Ha, Hk, Htk.
  split; [reflexivity | ]. split; [reflexivity | ].
  split; [ | split; [ | split; [reflexivity | ]]].
  - intros r Hr. pose proof (UndoFacts.fresh_id_above db r Hr). cbn [t_id]. lia.
  - apply CreateFacts.fresh_unique. reflexivity.
  - cbn [t_amount]. apply FloatFacts.stored_two_places.
Qed.

(** X4 on the sample table, with a complete draft of an expense. *)
Lemma X4_witness :
  exists t,
    process_confirmation true 1300000000 1 sample_confirm sample_db
    = (clear sample_confirm, sample_db ++ [t],
       Done (SavedReply (if str_eqb (py "expense") (py "expense") then Spending else Earning)
               (mkDecimal 100 0) (t_id t)))
    /\ t = mkTransaction (fresh_id sample_db) 1 EXPENSE 36
             (stored_subcategory (d_subcategory_id (fsm_data sample_confirm)))
             (stored_numeric (mkDecimal 100 0)) (py "RUB")
             (truthy (d_comment (fsm_data sample_confirm))) 1300000000 1300000000
    /\ (forall r, In r sample_db -> t_id r <> t_id t)
    /\ (unique_ids sample_db -> unique_ids (sample_db ++ [t]))
    /\ fsm_state (clear sample_confirm) = None
    /\ (0 <= coef (mkDecimal 100 0) -> (scale (mkDecimal 100 0) <= 2)%nat ->
        below_2_46 (mkDecimal 100 0) ->
        t_amount t = coef (mkDecimal 100 0) * pow10 (2 - scale (mkDecimal 100 0))).
Proof.
  apply (X4_confirmation_saves_draft 1300000000 1 sample_confirm sample_db 36
           (mkDecimal 100 0) (py "expense") EXPENSE); reflexivity.
Defined.

(** X5.  The confirmation saves or changes nothing: either it answers with
    the id of a transaction it appended and clears the state and the draft,
    or the table, the state and the draft are exactly as before.  When the
    commit fails it is the second: the dialogue stays where it was, with its
    draft. *)
Theorem X5_confirmation_all_or_nothing :
  forall (commit_ok : bool) (now from_user : Z) (c : FSMContext) (db : DB),
    (exists t kind_text amount,
       process_confirmation commit_ok now from_user c db
       = (clear c, db ++ [t], Done (SavedReply kind_text amount (t_id t)))
       /\ commit_ok = true)
    \/ (exists r,
          process_confirmation commit_ok now from_user c db = (c, db, r)
          /\ forall kind_text amount id, r <> Done (SavedReply kind_text amount id)).
Proof.
  intros commit_ok now u c db. unfold process_confirmation.
  destruct (d_category_id (fsm_data c)) as [cid | ];
    [ | right; eexists; split; [reflexivity | discriminate]].
  destruct (d_amount (fsm_data c)) as [a | ];
    [ | right; eexists; split; [reflexivity | discriminate]].
  destruct (match d_kind (fsm_data c) with
            | Some k => TransactionKind_of_value k
            | None => None
            end) as [tk | ];
    [ | right; eexists; split; [reflexivity | discriminate]].
  unfold create_transaction. destruct commit_ok.
  - left. eexists. eexists. eexists. split; reflexivity.
  - right. eexists. split; [reflexivity | discriminate].
Qed.

(** X6.  A created transaction can be taken back by its owner: with commits
    that go through, [create_transaction] followed by
    [delete_transaction_by_id] of the new id gives the table of before; the
    new row shows in the owner's listing and carries the amount as the column
    keeps it, the float of the amount printed to two places: an amount of at
    most two places below 2^46 is kept as it is, 1.015 becomes 1.01 and 2.675
    becomes 2.67.  When the commit of the creation fails the exception is
    raised again. *)
Theorem X6_create_then_delete :
  forall (now user_id : Z) (kind : TransactionKind) (category_id : Z)
         (subcategory_id : option Z) (amount : Decimal) (comment : option str)
         (currency : str) (effective_at : option Z) (db : DB),
    (exists t,
       create_transaction true now user_id kind category_id subcategory_id amount
         comment currency effective_at db = Return (t, db ++ [t])
       /\ t_amount t = stored_numeric amount
       /\ (0 <= coef amount -> (scale amount <= 2)%nat -> below_2_46 amount ->
           t_amount t = coef amount * pow10 (2 - scale amount))
       /\ t_created_at t = now
       /\ t_effective_at t = match effective_at with Some e => e | None => now end
       /\ In t (listing (db ++ [t]) user_id)
       /\ delete_transaction_by_id true user_id (t_id t) (db ++ [t]) = Return (true, db))
    /\ create_transaction false now user_id kind category_id subcategory_id amount
         comment currency effective_at db = Raise SQLAlchemyError
    /\ stored_numeric (mkDecimal 1015 3) = 101
    /\ stored_numeric (mkDecimal 2675 3) = 267.
Proof.
  intros. split; [ | split; [reflexivity | split; vm_compute; reflexivity]].
  eexists. split; [reflexivity | ].
  set (t := mkTransaction _ _ _ _ _ _ _ _ _ _).
  split; [reflexivity | ].
  split; [subst t; cbn [t_amount]; apply FloatFacts.stored_two_places | ].
  split; [reflexivity | ]. split; [reflexivity | ].
  split.
  - apply RepoFacts.listing_complete; [ | reflexivity].
    apply in_or_app. right. left. reflexivity.
  - unfold delete_transaction_by_id.
    rewrite (CreateFacts.select_fresh db t eq_refl). cbn [scalar_one_or_none bind].
    change (t_user_id t) with user_id. rewrite Z.eqb_refl. cbn [negb].
    rewrite (CreateFacts.delete_row_fresh db t eq_refl). reflexivity.
Qed.

(** X7.  [delete_transaction_by_id] removes nothing but the row asked for:
    when it answers, a row with another id or of another user is still
    stored, nothing is added, an answer of false leaves the table as it was
    and after an answer of true no row has the id; it raises only when
    several rows carry the id. *)
Theorem X7_delete_touches_one_row :
  forall (commit_ok : bool) (user_id transaction_id : Z) (db : DB),
    match delete_transaction_by_id commit_ok user_id transaction_id db with
    | Return (ok, db') =>
        (ok = false -> db' = db)
        /\ (ok = true -> forall r, In r db' -> t_id r <> transaction_id)
        /\ incl db' db
        /\ (forall r, In r db ->
              t_id r <> transaction_id \/ t_user_id r <> user_id -> In r db')
    | Raise e =>
        e = MultipleResultsFound
        /\ (2 <= length (filter (fun t => (t_id t =? transaction_id)%Z) db))%nat
    end.
Proof.
  intros commit_ok u tid db. unfold delete_transaction_by_id.
  destruct (filter (fun t => t_id t =? tid) db) as [ | t [ | t' l]] eqn:E;
    cbn [scalar_one_or_none bind].
  - split; [reflexivity | ]. split; [discriminate | ].
    split; [apply incl_refl | auto].
  - assert (Ht : In t db /\ t_id t = tid).
    { assert (Hin : In t (filter (fun t => t_id t =? tid) db)) by (rewrite E; left; reflexivity).
      apply filter_In in Hin. destruct Hin as [Hin Hid]. apply Z.eqb_eq in Hid. auto. }
    destruct Ht as [Ht Hid].
    destruct (t_user_id t =? u) eqn:Eu; cbn [negb].
    + destruct commit_ok.
      * split; [discriminate | ]. split; [ | split].
        -- intros _ r Hr. unfold delete_row in Hr. apply filter_In in Hr.
           destruct Hr as [_ Hr]. apply negb_true_iff, Z.eqb_neq in Hr. congruence.
        -- apply incl_filter.
        -- intros r Hr [Hne | Hne].
           ++ apply CreateFacts.delete_row_keeps; [exact Hr | congruence].
           ++ apply CreateFacts.delete_row_keeps; [exact Hr | ].
              intro Heq. assert (Hrf : In r (filter (fun t => t_id t =? tid) db)).
              { apply filter_In. split; [exact Hr | apply Z.eqb_eq; congruence]. }
              rewrite E in Hrf. destruct Hrf as [<- | []].
              apply Z.eqb_eq in Eu. contradiction.
      * split; [reflexivity | ]. split; [discriminate | ].
        split; [apply incl_refl | auto].
    + split; [reflexivity | ]. split; [discriminate | ].
      split; [apply incl_refl | auto].
  - split; [reflexivity | simpl; lia].
Qed.

(** ** The other queries of the service *)

Module QueryFacts.
Import SortFacts RepoFacts.

Lemma sorted_app_cross : forall A (R : A -> A -> Prop) (a b : list A),
  StronglySorted R (a ++ b) -> forall x y, In x a -> In y b -> R x y.
Proof.
  intros A R a b. induction a as [ | h a IH]; intros H x y Hx Hy; [destruct Hx | ].
  cbn [app] in H. inversion H as [ | ? ? Hs Hall]; subst.
  destruct Hx as [<- | Hx].
  - rewrite Forall_forall in Hall. apply Hall. apply in_or_app. right. exact Hy.
  - apply IH; assumption.
Qed.

Lemma sorted_app_l : forall A (R : A -> A -> Prop) (a b : list A),
  StronglySorted R (a ++ b) -> StronglySorted R a.
Proof.
  intros A R a b. induction a as [ | h a IH]; intro H; [constructor | ].
  cbn [app] in H. inversion H as [ | ? ? Hs Hall]; subst.
  constructor; [apply IH; exact Hs | ].
  apply Forall_app in Hall. tauto.
Qed.

Lemma get_user_transactions_eq : forall db u kind s e limit,
  get_user_transactions db u kind s e limit
  = sql_limit limit (order_by_desc t_effective_at (filter (in_scope u kind s e) db)).
Proof.
  intros db u kind s e limit. unfold get_user_transactions. f_equal. f_equal.
  unfold in_scope.
  destruct kind as [k | ], s as [s | ], e as [e | ];
    rewrite ?filter_fuse; apply filter_ext; intro t; cbv beta;
    rewrite ?andb_true_r, ?andb_assoc; reflexivity.
Qed.

Lemma in_scope_spec : forall u kind s e t,
  in_scope u kind s e t = true <->
  t_user_id t = u
  /\ (forall k, kind = Some k -> t_kind t = k)
  /\ (forall x, s = Some x -> x <= t_effective_at t)
  /\ (forall x, e = Some x -> t_effective_at t <= x).
Proof.
  intros u kind s e t. unfold in_scope.
  rewrite !andb_true_iff, Z.eqb_eq. split.
  - intros [[[Hu Hk] Hs] He]. split; [exact Hu | ]. split; [ | split].
    + intros k ->. destruct (t_kind t), k; simpl in Hk; congruence.
    + intros x ->. apply Z.leb_le. exact Hs.
    + intros x ->. apply Z.leb_le. exact He.
  - intros (Hu & Hk & Hs & He). repeat split.
    + exact Hu.
    + destruct kind as [k | ]; [ | reflexivity].
      rewrite (Hk k eq_refl). destruct k; reflexivity.
    + destruct s as [x | ]; [apply Z.leb_le; auto | reflexivity].
    + destruct e as [x | ]; [apply Z.leb_le; auto | reflexivity].
Qed.



End QueryFacts.

(** X8.  [get_user_transactions] returns at most [limit] rows (for a limit
    that is not negative), all of them rows of the user that pass the kind
    and date filters, newest first; a row that passes the filters and is left
    out is not newer than any row returned, and with enough room nothing is
    left out.  [get_recent_transactions] is the same query without filters. *)
Theorem X8_user_transactions :
  forall (db : DB) (user_id : Z) (kind : option TransactionKind)
         (start_date end_date : option Z) (limit : Z),
    0 <= limit ->
    Z.of_nat (length (get_user_transactions db user_id kind start_date end_date limit))
      <= limit
    /\ (forall t, In t (get_user_transactions db user_id kind start_date end_date limit) ->
          In t db /\ in_scope user_id kind start_date end_date t = true)
    /\ newest_first (get_user_transactions db user_id kind start_date end_date limit)
    /\ (forall r t,
          In r db -> in_scope user_id kind start_date end_date r = true ->
          ~ In r (get_user_transactions db user_id kind start_date end_date limit) ->
          In t (get_user_transactions db user_id kind start_date end_date limit) ->
          t_effective_at r <= t_effective_at t)
    /\ (Z.of_nat (length (filter (in_scope user_id kind start_date end_date) db)) <= limit ->
        Permutation (get_user_transactions db user_id kind start_date end_date limit)
          (filter (in_scope user_id kind start_date end_date) db))
    /\ get_recent_transactions db user_id limit
       = get_user_transactions db user_id None None None limit.
Proof.
  intros db u kind s e limit Hl.
  rewrite QueryFacts.get_user_transactions_eq.
  rewrite SortFacts.sql_limit_firstn by exact Hl.
  set (L := order_by_desc t_effective_at (filter (in_scope u kind s e) db)).
  assert (HL : newest_first L) by apply (SortFacts.order_by_desc_sorted t_effective_at).
  assert (HLin : forall t, In t L <-> In t db /\ in_scope u kind s e t = true).
  { intro t. unfold L, order_by_desc. rewrite SortFacts.sort_by_In. apply filter_In. }
  assert (Hsplit : firstn (Z.to_nat limit) L ++ skipn (Z.to_nat limit) L = L)
    by apply firstn_skipn.
  split; [ | split; [ | split; [ | split; [ | split]]]].
  - pose proof (firstn_le_length (Z.to_nat limit) L). lia.
  - intros t Ht. apply HLin. apply (SortFacts.firstn_incl _ _ _ _ Ht).
  - unfold newest_first in *. rewrite <- Hsplit in HL.
    apply QueryFacts.sorted_app_l in HL. exact HL.
  - intros r t Hr Hsc Hout Ht.
    assert (Hr' : In r L) by (apply HLin; auto).
    rewrite <- Hsplit in Hr'. apply in_app_or in Hr'.
    destruct Hr' as [Hr' | Hr']; [contradiction | ].
    unfold newest_first in HL. rewrite <- Hsplit in HL.
    apply (QueryFacts.sorted_app_cross _ _ _ _ HL t r Ht Hr').
  - intro Hroom. rewrite firstn_all2.
    + apply SortFacts.sort_by_perm.
    + unfold L, order_by_desc. rewrite SortFacts.sort_by_length. lia.
  - reflexivity.
Qed.

(** X8 on the sample table: the two newest transactions of user 1. *)
Lemma X8_witness :
  Z.of_nat (length (get_user_transactions sample_db 1 None None None 2)) <= 2
  /\ (forall t, In t (get_user_transactions sample_db 1 None None None 2) ->
        In t sample_db /\ in_scope 1 None None None t = true)
  /\ newest_first (get_user_transactions sample_db 1 None None None 2)
  /\ (forall r t,
        In r sample_db -> in_scope 1 None None None r = true ->
        ~ In r (get_user_transactions sample_db 1 None None None 2) ->
        In t (get_user_transactions sample_db 1 None None None 2) ->
        t_effective_at r <= t_effective_at t)
  /\ (Z.of_nat (length (filter (in_scope 1 None None None) sample_db)) <= 2 ->
      Permutation (get_user_transactions sample_db 1 None None None 2)
        (filter (in_scope 1 None None None) sample_db))
  /\ get_recent_transactions sample_db 1 2
     = get_user_transactions sample_db 1 None None None 2.
Proof.
  apply (X8_user_transactions sample_db 1 None None None 2).
  vm_compute. discriminate.
Defined.


(** X10.  [get_or_create_user] is idempotent and never rewrites a stored
    user: once a call has answered, a later call for the same id, with any
    names and whether or not a commit would go through, answers the same user
    and leaves the table as the first call left it. *)
Theorem X10_get_or_create_user_idempotent :
  forall (commit_ok : bool) (now user_id : Z) (username first_name last_name : option str)
         (users users' : list User) (user : User),
    get_or_create_user commit_ok now user_id username first_name last_name users
      = Return (user, users') ->
    u_id user = user_id
    /\ In user users'
    /\ incl users users'
    /\ forall commit_ok' now' username' first_name' last_name',
         get_or_create_user commit_ok' now' user_id username' first_name' last_name' users'
         = Return (user, users').
Proof.
  intros c now uid un fn ln users users' user H.
  unfold get_or_create_user in *.
  destruct (filter (fun u => u_id u =? uid) users) as [ | x [ | y l]] eqn:E;
    cbn [scalar_one_or_none bind] in H.
  - destruct c; [ | discriminate]. injection H as <- <-.
    split; [reflexivity | ]. split; [apply in_or_app; right; left; reflexivity | ].
    split; [apply incl_appl, incl_refl | ].
    intros c' now' un' fn' ln'. rewrite filter_app, E. cbn [filter u_id app].
    rewrite Z.eqb_refl. reflexivity.
  - injection H as <- <-.
    assert (Hx : In x (filter (fun u => u_id u =? uid) users)) by (rewrite E; left; reflexivity).
    apply filter_In in Hx. destruct Hx as [Hx Hid]. apply Z.eqb_eq in Hid.
    split; [exact Hid | ]. split; [exact Hx | ]. split; [apply incl_refl | ].
    intros c' now' un' fn' ln'. rewrite E. reflexivity.
  - discriminate.
Qed.

(** X10 for a user that is stored and asked for again under another name. *)
Lemma X10_witness :
  u_id (mkUser 1 (Some (py "tester")) None None (py "Europe/Moscow") 5 5) = 1
  /\ In (mkUser 1 (Some (py "tester")) None None (py "Europe/Moscow") 5 5) sample_users
  /\ incl sample_users sample_users
  /\ forall commit_ok' now' username' first_name' last_name',
       get_or_create_user commit_ok' now' 1 username' first_name' last_name' sample_users
       = Return (mkUser 1 (Some (py "tester")) None None (py "Europe/Moscow") 5 5,
                 sample_users).
Proof.
  apply (X10_get_or_create_user_idempotent false 9 1 (Some (py "renamed")) None None
           sample_users sample_users).
  reflexivity.
Defined.

(** ** Pages and keyboards of the browser *)

Module PageFacts.
Import SortFacts RepoFacts RecentFacts.

Lemma firstn_add : forall A a b (l : list A),
  firstn (a + b) l = firstn a l ++ firstn b (skipn a l).
Proof.
  intros A a. induction a as [ | a IH]; intros b l; [reflexivity | ].
  destruct l as [ | x l]; cbn [Nat.add firstn skipn app].
  - rewrite firstn_nil. reflexivity.
  - rewrite IH. reflexivity.
Qed.

Lemma page_eq : forall db u scope k,
  page db u scope k =
  firstn 10 (skipn (10 * k)
               (order_by_desc t_effective_at (matching db u (scope_filter scope)))).
Proof.
  intros db u scope k. unfold page. rewrite recent_paged_items. unfold offset_limit.
  rewrite Nat2Z.id. reflexivity.
Qed.

Lemma pages_prefix : forall db u scope n,
  concat (map (page db u scope) (seq 0 n))
  = firstn (10 * n) (order_by_desc t_effective_at (matching db u (scope_filter scope))).
Proof.
  intros db u scope n. induction n as [ | n IH]; [reflexivity | ].
  rewrite seq_S, map_app, concat_app, IH. cbn [Nat.add map concat].
  rewrite app_nil_r, page_eq.
  replace (10 * S n)%nat with (10 * n + 10)%nat by lia.
  symmetry. apply firstn_add.
Qed.

Lemma buttons_with_delete : forall scope offset items,
  buttons (_with_delete_buttons scope offset items)
  = [ mkButton LblExpenses (CbRecent (py "expense") 0);
      mkButton LblIncomes (CbRecent (py "income") 0);
      mkButton LblAll (CbRecent (py "all") 0) ]
    ++ map (fun t => mkButton (LblDelete (t_id t)) (CbTxDel (t_id t) scope offset)) items
    ++ (if 0 <? offset then [ mkButton LblBack (CbRecent scope (Z.max 0 (offset - 10))) ]
        else [])
    ++ (if Z.of_nat (length items) =? 10
        then [ mkButton LblForward (CbRecent scope (offset + 10)) ] else [])
    ++ [ mkButton LblMenu CbMainMenu ].
Proof.
  intros scope offset items. unfold buttons, _with_delete_buttons.
  assert (Hd : concat (map (fun t => [ mkButton (LblDelete (t_id t))
                                         (CbTxDel (t_id t) scope offset) ]) items)
               = map (fun t => mkButton (LblDelete (t_id t))
                                 (CbTxDel (t_id t) scope offset)) items).
  { induction items as [ | t items IH]; [reflexivity | ].
    cbn [map concat app]. rewrite IH. reflexivity. }
  destruct (0 <? offset), (Z.of_nat (length items) =? 10); cbn [app];
    rewrite ?concat_app; cbn [concat app]; rewrite ?concat_app, Hd; cbn [concat app];
    rewrite ?app_nil_r, <- ?app_assoc; reflexivity.
Qed.

Lemma filter_map_delete : forall scope offset (items : list Transaction),
  filter is_delete
    (map (fun t => mkButton (LblDelete (t_id t)) (CbTxDel (t_id t) scope offset)) items)
  = map (fun t => mkButton (LblDelete (t_id t)) (CbTxDel (t_id t) scope offset)) items.
Proof.
  intros scope offset items. apply filter_all. intros b Hb.
  apply in_map_iff in Hb. destruct Hb as (t & <- & _). reflexivity.
Qed.

Lemma filter_map_not_back : forall scope offset (items : list Transaction),
  filter is_back
    (map (fun t => mkButton (LblDelete (t_id t)) (CbTxDel (t_id t) scope offset)) items)
  = [].
Proof.
  intros scope offset items. apply filter_nil. intros b Hb.
  apply in_map_iff in Hb. destruct Hb as (t & <- & _). reflexivity.
Qed.

End PageFacts.

(** X11.  The pages of the browser, taken in order at the offsets 0, 10, 20,
    ..., are consecutive stretches of the newest-first listing of the user's
    transactions of the scope: the first [n] pages together are its first
    [10 n] rows, and all of it once [10 n] reaches its length, so every
    transaction is on a page and none is shown twice. *)
Theorem X11_pages_cover_listing :
  forall (db : DB) (user_id : Z) (scope : str) (n : nat),
    concat (map (page db user_id scope) (seq 0 n))
    = firstn (10 * n)
        (order_by_desc t_effective_at (matching db user_id (scope_filter scope)))
    /\ ((length (matching db user_id (scope_filter scope)) <= 10 * n)%nat ->
        concat (map (page db user_id scope) (seq 0 n))
        = order_by_desc t_effective_at (matching db user_id (scope_filter scope)))
    /\ Permutation
         (concat (map (page db user_id scope)
                    (seq 0 (length (matching db user_id (scope_filter scope))))))
         (matching db user_id (scope_filter scope)).
Proof.
  intros db u scope n.
  assert (Hall : forall m,
            (length (matching db u (scope_filter scope)) <= 10 * m)%nat ->
            concat (map (page db u scope) (seq 0 m))
            = order_by_desc t_effective_at (matching db u (scope_filter scope))).
  { intros m Hm. rewrite PageFacts.pages_prefix. apply firstn_all2.
    unfold order_by_desc. rewrite SortFacts.sort_by_length. exact Hm. }
  split; [apply PageFacts.pages_prefix | ]. split; [apply Hall | ].
  rewrite Hall by lia. apply SortFacts.sort_by_perm.
Qed.

(** X12.  The browser offers a next page exactly when the page shown holds
    ten rows, not when more rows exist: when the rows from the offset on are
    exactly ten, the page offers a next page and that next page is empty and
    offers none. *)
Theorem X12_full_last_page :
  forall (db : DB) (user_id : Z) (scope : str) (offset : Z),
    0 <= offset ->
    length (matching db user_id (scope_filter scope)) = (Z.to_nat offset + 10)%nat ->
    length (fst (recent_paged db user_id scope offset)) = 10%nat
    /\ has_more (snd (recent_paged db user_id scope offset)) = true
    /\ fst (recent_paged db user_id scope (offset + 10)) = []
    /\ has_more (snd (recent_paged db user_id scope (offset + 10))) = false.
Proof.
  intros db u scope offset Ho Hlen.
  rewrite !RecentFacts.recent_paged_more, !RecentFacts.recent_paged_items.
  set (L := order_by_desc t_effective_at (matching db u (scope_filter scope))).
  assert (HL : length L = (Z.to_nat offset + 10)%nat).
  { unfold L, order_by_desc. rewrite SortFacts.sort_by_length. exact Hlen. }
  rewrite !SortFacts.offset_limit_firstn by lia.
  replace (Z.to_nat (offset + 10)) with (Z.to_nat offset + 10)%nat by lia.
  change (Z.to_nat 10) with 10%nat.
  assert (H0 : length (firstn 10 (skipn (Z.to_nat offset) L)) = 10%nat).
  { rewrite length_firstn, length_skipn. lia. }
  assert (H1 : skipn (Z.to_nat offset + 10) L = []).
  { apply skipn_all2. lia. }
  rewrite H0, H1. cbn [firstn length]. repeat split.
Qed.

(** X12 on a table with ten transactions of user 1. *)
Lemma X12_witness :
  length (fst (recent_paged sample_ten 1 (py "all") 0)) = 10%nat
  /\ has_more (snd (recent_paged sample_ten 1 (py "all") 0)) = true
  /\ fst (recent_paged sample_ten 1 (py "all") (0 + 10)) = []
  /\ has_more (snd (recent_paged sample_ten 1 (py "all") (0 + 10))) = false.
Proof.
  apply (X12_full_last_page sample_ten 1 (py "all") 0).
  - vm_compute. discriminate.
  - vm_compute. reflexivity.
Defined.

(** X13.  The keyboard of a page has one delete button per transaction
    shown, in the order shown, each carrying the id of its transaction and
    the scope and offset of the page; it has a back button exactly when the
    offset is positive, and the offset that button leads to is never
    negative and lies below the present one. *)
Theorem X13_page_keyboard :
  forall (scope : str) (offset : Z) (items : list Transaction),
    filter is_delete (buttons (_with_delete_buttons scope offset items))
    = map (fun t => mkButton (LblDelete (t_id t)) (CbTxDel (t_id t) scope offset)) items
    /\ filter is_back (buttons (_with_delete_buttons scope offset items))
       = (if 0 <? offset then [ mkButton LblBack (CbRecent scope (Z.max 0 (offset - 10))) ]
          else [])
    /\ (forall b, In b (buttons (_with_delete_buttons scope offset items)) ->
        is_back b = true ->
        exists target, callback_data b = CbRecent scope target
                       /\ 0 <= target < offset).
Proof.
  intros scope offset items. rewrite PageFacts.buttons_with_delete.
  assert (Hback : filter is_back
            ([ mkButton LblExpenses (CbRecent (py "expense") 0);
               mkButton LblIncomes (CbRecent (py "income") 0);
               mkButton LblAll (CbRecent (py "all") 0) ]
             ++ map (fun t => mkButton (LblDelete (t_id t)) (CbTxDel (t_id t) scope offset)) items
             ++ (if 0 <? offset
                 then [ mkButton LblBack (CbRecent scope (Z.max 0 (offset - 10))) ] else [])
             ++ (if Z.of_nat (length items) =? 10
                 then [ mkButton LblForward (CbRecent scope (offset + 10)) ] else [])
             ++ [ mkButton LblMenu CbMainMenu ])
            = (if 0 <? offset
               then [ mkButton LblBack (CbRecent scope (Z.max 0 (offset - 10))) ] else [])).
  { rewrite !filter_app, PageFacts.filter_map_not_back.
    destruct (0 <? offset), (Z.of_nat (length items) =? 10); reflexivity. }
  split; [ | split].
  - rewrite !filter_app, PageFacts.filter_map_delete.
    destruct (0 <? offset), (Z.of_nat (length items) =? 10); cbn; rewrite ?app_nil_r; reflexivity.
  - exact Hback.
  - intros b Hb Hbk.
    assert (Hin : In b (filter is_back
            ([ mkButton LblExpenses (CbRecent (py "expense") 0);
               mkButton LblIncomes (CbRecent (py "income") 0);
               mkButton LblAll (CbRecent (py "all") 0) ]
             ++ map (fun t => mkButton (LblDelete (t_id t)) (CbTxDel (t_id t) scope offset)) items
             ++ (if 0 <? offset
                 then [ mkButton LblBack (CbRecent scope (Z.max 0 (offset - 10))) ] else [])
             ++ (if Z.of_nat (length items) =? 10
                 then [ mkButton LblForward (CbRecent scope (offset + 10)) ] else [])
             ++ [ mkButton LblMenu CbMainMenu ]))).
    { apply filter_In. split; assumption. }
    rewrite Hback in Hin. destruct (0 <? offset) eqn:E; [ | destruct Hin].
    apply Z.ltb_lt in E. destruct Hin as [<- | []].
    exists (Z.max 0 (offset - 10)). split; [reflexivity | lia].
Qed.

(** ** The other aggregation modes, the sections, the artifacts *)

Module AggFacts.
Import SortFacts RepoFacts ReportFacts.

Lemma category_keys : forall pd df,
  map c_category (group_by_category pd df)
  = group_keys str_eq_dec str_leb (map r_category df).
Proof.
  intros pd df. unfold group_by_category. rewrite map_map. cbn [c_category]. apply map_id.
Qed.

Lemma subcategory_keys : forall pd df,
  map (fun x => (s_category x, s_subcategory x)) (group_by_subcategory pd df)
  = group_keys pair_eq_dec pair_leb (map (fun x => (r_category x, r_subcategory x)) df).
Proof.
  intros pd df. unfold group_by_subcategory. rewrite map_map. cbn [s_category s_subcategory].
  rewrite (map_ext _ (fun k => k)); [apply map_id | intros [a b]; reflexivity].
Qed.

Lemma group_nonempty : forall df k,
  In k (map r_category df) ->
  (1 <= length (filter (fun r => str_eqb (r_category r) k) df))%nat.
Proof.
  intros df k Hk. apply in_map_iff in Hk. destruct Hk as (r & E & Hr).
  assert (Hin : In r (filter (fun r => str_eqb (r_category r) k) df)).
  { apply filter_In. split; [exact Hr | apply str_eqb_eq; exact E]. }
  destruct (filter _ df); [destruct Hin | simpl; lia].
Qed.

Lemma falling_sorted : forall A (amount : A -> float) l,
  falling amount (order_by_desc (fun x => sort_key (amount x)) l).
Proof. intros A amount l. apply (order_by_desc_sorted (fun x => sort_key (amount x))). Qed.

End AggFacts.

(** X14.  The table of [by_subcategory] has exactly one row for each pair of
    a category and a subcategory in the data; the amount of a row is the
    grouped float sum of the amounts of its pair, and the rows are ordered by
    falling amount. *)
Theorem X14_by_subcategory_rows :
  forall (pd : Pandas) (r : DetailRow) (df : list DetailRow),
    exists rows,
      _aggregate_df pd (r :: df) (Some (py "by_subcategory"))
      = (BySubcategory rows, Some TitleBySubcategory)
      /\ NoDup (map (fun x => (s_category x, s_subcategory x)) rows)
      /\ (forall c s, In (c, s) (map (fun x => (s_category x, s_subcategory x)) rows)
                      <-> In (c, s) (map (fun x => (r_category x, r_subcategory x)) (r :: df)))
      /\ (forall x, In x rows ->
            s_sum x = subcategory_total pd (r :: df) (s_category x) (s_subcategory x))
      /\ falling s_sum rows.
Proof.
  intros pd r df. eexists. split; [reflexivity | ].
  set (d := r :: df).
  assert (Hp : Permutation (order_by_desc (fun x => sort_key (s_sum x))
                              (group_by_subcategory pd d))
                 (group_by_subcategory pd d)) by apply ReportFacts.order_by_desc_perm.
  pose proof (AggFacts.subcategory_keys pd d) as Hk.
  split; [ | split; [ | split]].
  - apply Permutation_NoDup
      with (l := map (fun x => (s_category x, s_subcategory x)) (group_by_subcategory pd d)).
    + symmetry. apply Permutation_map. exact Hp.
    + rewrite Hk. apply ReportFacts.group_keys_NoDup.
  - intros c s. etransitivity; [ | apply (ReportFacts.group_keys_In _ pair_eq_dec pair_leb)].
    rewrite <- Hk.
    split; apply Permutation_in; [apply Permutation_map; exact Hp | ].
    symmetry. apply Permutation_map. exact Hp.
  - intros x Hx. apply (Permutation_in _ Hp) in Hx.
    unfold group_by_subcategory in Hx. apply in_map_iff in Hx.
    destruct Hx as (k & <- & _). reflexivity.
  - apply AggFacts.falling_sorted.
Qed.

(** X15.  The table of [by_category] has exactly one row for each category
    of the data, every row counts at least one operation and carries the
    grouped float sum of the amounts of its category, and the rows are
    ordered by falling amount. *)
Theorem X15_by_category_rows :
  forall (pd : Pandas) (r : DetailRow) (df : list DetailRow),
    exists rows,
      _aggregate_df pd (r :: df) (Some (py "by_category"))
      = (ByCategory rows, Some TitleByCategory)
      /\ NoDup (map c_category rows)
      /\ (forall c, In c (map c_category rows) <-> In c (map r_category (r :: df)))
      /\ (forall x, In x rows ->
            1 <= c_count x /\ c_sum x = category_total pd (r :: df) (c_category x))
      /\ falling c_sum rows.
Proof.
  intros pd r df. eexists. split; [reflexivity | ].
  set (d := r :: df).
  assert (Hp : Permutation (order_by_desc (fun x => sort_key (c_sum x)) (group_by_category pd d))
                 (group_by_category pd d))
    by apply ReportFacts.order_by_desc_perm.
  split; [ | split; [ | split]].
  - apply Permutation_NoDup with (l := map c_category (group_by_category pd d)).
    + symmetry. apply Permutation_map. exact Hp.
    + rewrite AggFacts.category_keys. apply ReportFacts.group_keys_NoDup.
  - intro c. etransitivity; [ | apply (ReportFacts.group_keys_In _ str_eq_dec str_leb)].
    rewrite <- (AggFacts.category_keys pd).
    split; apply Permutation_in; [apply Permutation_map; exact Hp | ].
    symmetry. apply Permutation_map. exact Hp.
  - intros x Hx. apply (Permutation_in _ Hp) in Hx.
    unfold group_by_category in Hx. apply in_map_iff in Hx. destruct Hx as (k & <- & Hk).
    apply ReportFacts.group_keys_In in Hk. cbn [c_count c_sum c_category]. split.
    + pose proof (AggFacts.group_nonempty d k Hk). lia.
    + reflexivity.
  - apply AggFacts.falling_sorted.
Qed.

Module SectionFacts.
Import SortFacts RepoFacts ReportFacts AggFacts.

Lemma aggregate_unknown : forall pd df mode,
  mode_is mode "by_category" = false ->
  mode_is mode "by_subcategory" = false ->
  mode_is mode "overall" = false ->
  _aggregate_df pd df mode = (Detail df, None).
Proof.
  intros pd df mode H1 H2 H3. unfold _aggregate_df. rewrite H1, H2, H3.
  destruct (is_empty df || no_mode mode || mode_is mode "detail"); reflexivity.
Qed.

Lemma mode_is_other : forall (mode : str) name,
  mode <> py name -> mode_is (Some mode) name = false.
Proof.
  intros mode name H. unfold mode_is, str_eqb.
  destruct (str_eq_dec mode (py name)); [contradiction | reflexivity].
Qed.

Lemma sections_keys : forall pd df,
  Permutation (map fst (sections_of pd df))
    (group_keys str_eq_dec str_leb (map r_category df)).
Proof.
  intros pd df. unfold sections_of. rewrite map_map. cbn [fst].
  rewrite (Permutation_map fst (order_by_desc_perm _ (fun row => sort_key (snd row)) _)).
  rewrite map_map. cbn [fst]. rewrite map_id. reflexivity.
Qed.

(** The rows of one section. *)
Lemma section_rows : forall pd df c rows,
  In (c, rows) (sections_of pd df) ->
  NoDup (map sec_subcategory rows)
  /\ (forall s, In s (map sec_subcategory rows)
                <-> In (c, s) (map (fun r => (r_category r, r_subcategory r)) df))
  /\ (forall x, In x rows -> sec_sum x = subcategory_total pd df c (sec_subcategory x))
  /\ falling sec_sum rows.
Proof.
  intros pd df c rows H. unfold sections_of in H. apply in_map_iff in H.
  destruct H as ([k v] & E & _). cbn [fst] in E. injection E as <- <-.
  set (g := filter (fun r => str_eqb (r_category r) k) df).
  set (unsorted := map _ (group_keys str_eq_dec str_leb (map r_subcategory g))).
  assert (Hp : Permutation (order_by_desc (fun r => sort_key (sec_sum r)) unsorted) unsorted)
    by apply order_by_desc_perm.
  assert (Hk : map sec_subcategory unsorted
               = group_keys str_eq_dec str_leb (map r_subcategory g)).
  { unfold unsorted. rewrite map_map. cbn [sec_subcategory]. apply map_id. }
  split; [ | split; [ | split]].
  - apply Permutation_NoDup with (l := map sec_subcategory unsorted).
    + symmetry. apply Permutation_map. exact Hp.
    + rewrite Hk. apply group_keys_NoDup.
  - intro s.
    assert (Hs : In s (map sec_subcategory (order_by_desc (fun r => sort_key (sec_sum r))
                                               unsorted))
                 <-> In s (map r_subcategory g)).
    { etransitivity; [ | apply (group_keys_In _ str_eq_dec str_leb)]. rewrite <- Hk.
      split; apply Permutation_in; [apply Permutation_map; exact Hp | ].
      symmetry. apply Permutation_map. exact Hp. }
    rewrite Hs. unfold g. rewrite !in_map_iff. split.
    + intros (r & <- & Hr). apply filter_In in Hr. destruct Hr as [Hr Hc].
      apply str_eqb_eq in Hc. exists r. split; [rewrite Hc; reflexivity | exact Hr].
    + intros (r & Er & Hr). injection Er as Ec Es. exists r. split; [exact Es | ].
      apply filter_In. split; [exact Hr | apply str_eqb_eq; exact Ec].
  - intros x Hx. apply (Permutation_in _ Hp) in Hx. unfold unsorted in Hx.
    apply in_map_iff in Hx. destruct Hx as (s & <- & _). cbn [sec_sum sec_subcategory].
    unfold subcategory_total, g. rewrite filter_fuse. reflexivity.
  - apply falling_sorted.
Qed.

Lemma sections_sorted : forall pd df,
  falling (fun s : str * list SectionRow => category_total pd df (fst s)) (sections_of pd df).
Proof.
  intros pd df. unfold falling, sections_of.
  set (cats := order_by_desc _ _).
  assert (Hs : StronglySorted (fun a b : str * float => sort_key (snd b) <= sort_key (snd a))
                 cats)
    by apply (order_by_desc_sorted (fun row : str * float => sort_key (snd row))).
  assert (Hv : forall row, In row cats -> snd row = category_total pd df (fst row)).
  { intros row Hr. unfold cats, order_by_desc in Hr. apply sort_by_In in Hr.
    apply in_map_iff in Hr. destruct Hr as (k & <- & _). reflexivity. }
  induction Hs as [ | row cats' Hs IH Hall]; cbn [map]; constructor.
  - apply IH. intros x Hx. apply Hv. right. exact Hx.
  - rewrite Forall_forall in *. intros s Hin. apply in_map_iff in Hin.
    destruct Hin as (row' & <- & Hr'). cbn [fst].
    rewrite <- (Hv row (or_introl eq_refl)), <- (Hv row' (or_intror Hr')).
    apply Hall. exact Hr'.
Qed.

End SectionFacts.

(** X16.  An aggregation name that is none of the four known ones is not an
    error: the report is the one built without any aggregation. *)
Theorem X16_unknown_mode_is_detail :
  forall ilike pd now db cmap u kind sd ed cids sids amin amax cq (mode : str),
    mode <> py "by_category" ->
    mode <> py "by_subcategory" ->
    mode <> py "overall" ->
    mode <> py "by_category_sections" ->
    build_report ilike pd now db cmap u kind sd ed cids sids amin amax cq (Some mode)
    = build_report ilike pd now db cmap u kind sd ed cids sids amin amax cq None
    /\ _aggregate_df pd (filtered_set ilike now db cmap u kind sd ed cids sids amin amax cq)
         (Some mode)
       = (Detail (filtered_set ilike now db cmap u kind sd ed cids sids amin amax cq), None).
Proof.
  intros ilike pd now db cmap u kind sd ed cids sids amin amax cq mode H1 H2 H3 H4.
  assert (Ha : forall df, _aggregate_df pd df (Some mode) = (Detail df, None)).
  { intro df. apply SectionFacts.aggregate_unknown; apply SectionFacts.mode_is_other; assumption. }
  split; [ | apply Ha].
  rewrite (ReportFacts.build_report_detail ilike pd now db cmap u kind sd ed cids sids
             amin amax cq (Some mode));
    [ | rewrite (SectionFacts.mode_is_other mode "by_category_sections" H4); reflexivity
      | apply Ha].
  rewrite (ReportFacts.build_report_detail ilike pd now db cmap u kind sd ed cids sids
             amin amax cq None);
    [reflexivity | reflexivity | apply ModeFacts.aggregate_none].
Qed.

(** X16 for the name "weekly". *)
Lemma X16_witness :
  build_report (fun _ _ => true) ieee 1300000000 sample_db [] 1 EXPENSE None None [] []
    None None None (Some (py "weekly"))
  = build_report (fun _ _ => true) ieee 1300000000 sample_db [] 1 EXPENSE None None [] []
      None None None None
  /\ _aggregate_df ieee
       (filtered_set (fun _ _ => true) 1300000000 sample_db [] 1 EXPENSE None None [] []
          None None None)
       (Some (py "weekly"))
     = (Detail (filtered_set (fun _ _ => true) 1300000000 sample_db [] 1 EXPENSE None None
                  [] [] None None None), None).
Proof.
  apply (X16_unknown_mode_is_detail (fun _ _ => true) ieee 1300000000 sample_db [] 1 EXPENSE
           None None [] [] None None None (py "weekly")); discriminate.
Defined.

(** X17.  The sections of [_build_category_sections] split the data by
    category: there is one section per category of the data, in the order of
    falling category sums; the rows of a section are the subcategories of its
    category, each once, in the order of falling amounts, each with the
    grouped float sum of its amounts.  The sheets and the tables of the image
    are the same sections. *)
Theorem X17_sections_by_category :
  forall (pd : Pandas) (df : list DetailRow),
    snd (_build_category_sections pd df) = fst (_build_category_sections pd df)
    /\ NoDup (map fst (fst (_build_category_sections pd df)))
    /\ (forall c, In c (map fst (fst (_build_category_sections pd df)))
                  <-> In c (map r_category df))
    /\ (forall c rows, In (c, rows) (fst (_build_category_sections pd df)) ->
          rows <> []
          /\ NoDup (map sec_subcategory rows)
          /\ (forall s, In s (map sec_subcategory rows)
                        <-> In (c, s) (map (fun r => (r_category r, r_subcategory r)) df))
          /\ (forall x, In x rows ->
                sec_sum x = subcategory_total pd df c (sec_subcategory x))
          /\ falling sec_sum rows)
    /\ falling (fun s : str * list SectionRow => category_total pd df (fst s))
         (fst (_build_category_sections pd df)).
Proof.
  intros pd df. rewrite ReportFacts.build_sections_eq.
  destruct df as [ | r df]; cbn [is_empty fst snd].
  - split; [reflexivity | ]. split; [constructor | ]. split; [reflexivity | ].
    split; [intros c rows [] | constructor].
  - set (d := r :: df).
    split; [reflexivity | ]. split; [ | split; [ | split]].
    + apply Permutation_NoDup with (l := group_keys str_eq_dec str_leb (map r_category d)).
      * symmetry. apply SectionFacts.sections_keys.
      * apply ReportFacts.group_keys_NoDup.
    + intro c. etransitivity; [ | apply (ReportFacts.group_keys_In _ str_eq_dec str_leb)].
      split; apply Permutation_in;
        [apply SectionFacts.sections_keys | symmetry; apply SectionFacts.sections_keys].
    + intros c rows H. split.
      * pose proof (ReportFacts.sections_rows pd d) as Hr. rewrite Forall_forall in Hr.
        apply (Hr (c, rows) H).
      * apply (SectionFacts.section_rows pd d c rows H).
    + apply SectionFacts.sections_sorted.
Qed.


(** X19.  A sheet name is never longer than 31 characters: a name of up to
    31 is kept, a longer one is cut to its first 28 followed by three dots.
    Two longer names that agree on their first 28 characters get the same
    sheet name. *)
Theorem X19_sheet_names :
  (forall name, (length (writer_sheet name) <= 31)%nat)
  /\ (forall name, (length name <= 31)%nat -> writer_sheet name = name)
  /\ (forall name, (31 < length name)%nat ->
        writer_sheet name = firstn 28 name ++ py "..."
        /\ length (writer_sheet name) = 31%nat)
  /\ (forall a b, (31 < length a)%nat -> (31 < length b)%nat ->
        firstn 28 a = firstn 28 b -> writer_sheet a = writer_sheet b).
Proof.
  assert (Hlong : forall name, (31 < length name)%nat ->
            writer_sheet name = firstn 28 name ++ py "...").
  { intros name H. unfold writer_sheet.
    destruct (Nat.ltb_spec 31 (length name)); [reflexivity | lia]. }
  assert (Hshort : forall name, (length name <= 31)%nat -> writer_sheet name = name).
  { intros name H. unfold writer_sheet.
    destruct (Nat.ltb_spec 31 (length name)); [lia | reflexivity]. }
  assert (Hlen : forall name, (31 < length name)%nat ->
            length (firstn 28 name ++ py "...") = 31%nat).
  { intros name H. rewrite length_app, length_firstn. cbn [py list_ascii_of_string length]. lia. }
  split; [ | split; [exact Hshort | split]].
  - intro name. destruct (Nat.le_gt_cases (length name) 31) as [H | H].
    + rewrite Hshort by exact H. exact H.
    + rewrite Hlong, Hlen by exact H. lia.
  - intros name H. split; [apply Hlong; exact H | ]. rewrite Hlong by exact H.
    apply Hlen. exact H.
  - intros a b Ha Hb E. rewrite !Hlong by assumption. rewrite E. reflexivity.
Qed.

Module FetchFacts.
Import SortFacts RepoFacts.

Section Asc.
Context {A : Type} (key : A -> Z).

Lemma insert_asc_sorted : forall x l,
  StronglySorted (fun a b => key a <= key b) l ->
  StronglySorted (fun a b => key a <= key b) (insert_by (fun x y => key x <=? key y) x l).
Proof.
  intros x l H. induction H as [ | y t Ht IH Hy]; simpl.
  - repeat constructor.
  - destruct (key x <=? key y) eqn:E.
    + apply Z.leb_le in E. constructor; [constructor; assumption | ].
      constructor; [exact E | ].
      eapply Forall_impl; [ | exact Hy]. simpl. intros; lia.
    + apply Z.leb_gt in E. constructor; [exact IH | ].
      eapply Permutation_Forall; [symmetry; apply insert_by_perm | ].
      constructor; [lia | exact Hy].
Qed.

Lemma order_by_asc_sorted : forall l,
  StronglySorted (fun a b => key a <= key b) (order_by_asc key l).
Proof.
  induction l as [ | x l IH]; simpl; [constructor | ].
  apply insert_asc_sorted. exact IH.
Qed.

End Asc.

Lemma kind_eqb_eq : forall a b, kind_eqb a b = true <-> a = b.
Proof. intros [] []; simpl; split; congruence. Qed.

End FetchFacts.

(** X20.  A report is made of transactions of the requesting user and of the
    requested kind only, with their date inside the window of the report,
    which ends at the end date or now and starts at the start date or thirty
    days before the end, both ends included; they come oldest first, and
    when no further filter is given every such transaction of the table is
    among them.  The rows of the report carry the floats of their amounts in
    that order. *)
Theorem X20_report_rows :
  forall ilike now db cmap u kind sd ed cids sids amin amax cq,
    let txs := report_transactions ilike now db u kind sd ed cids sids amin amax cq in
    let w := report_window now sd ed in
    filtered_set ilike now db cmap u kind sd ed cids sids amin amax cq
      = _build_dataframe txs cmap
    /\ map r_amount (filtered_set ilike now db cmap u kind sd ed cids sids amin amax cq)
       = map (fun t => float_of_Decimal (mkDecimal (t_amount t) 2)) txs
    /\ (forall t, In t txs ->
          In t db /\ t_user_id t = u /\ t_kind t = kind
          /\ fst w <= t_effective_at t <= snd w)
    /\ oldest_first txs
    /\ (cids = [] -> sids = [] -> amin = None -> amax = None -> truthy cq = None ->
        forall t, In t db -> t_user_id t = u -> t_kind t = kind ->
                  fst w <= t_effective_at t <= snd w -> In t txs).
Proof.
  intros. subst txs w.
  unfold report_transactions, fetch_transactions.
  set (keep := fun t : Transaction => _).
  split; [reflexivity | ]. split; [ | split; [ | split]].
  - unfold filtered_set, _build_dataframe. rewrite map_map. reflexivity.
  - intros t Ht. unfold order_by_asc in Ht. apply SortFacts.sort_by_In in Ht.
    apply filter_In in Ht. destruct Ht as [Hin Hk]. subst keep. cbv beta in Hk.
    rewrite !andb_true_iff in Hk.
    destruct Hk as [[[[[[[[Hu Hkind] Hs] He] _] _] _] _] _].
    apply Z.eqb_eq in Hu. apply FetchFacts.kind_eqb_eq in Hkind.
    apply Z.leb_le in Hs, He. auto.
  - apply (FetchFacts.order_by_asc_sorted t_effective_at).
  - intros -> -> -> -> Hcq t Hin Hu Hk [Hs He].
    unfold order_by_asc. apply SortFacts.sort_by_In. apply filter_In.
    split; [exact Hin | ]. subst keep. cbv beta. rewrite Hcq. cbn [is_empty].
    rewrite !andb_true_r, !andb_true_iff.
    repeat split;
      [apply Z.eqb_eq; exact Hu | apply FetchFacts.kind_eqb_eq; exact Hk
       | apply Z.leb_le; exact Hs | apply Z.leb_le; exact He].
Qed.

(** ** Categories and their buttons *)

Module CategoryFacts.
Import RepoFacts TextFacts ParseFacts DisplayFacts CellFacts.

Lemma select_unique : forall A (key : A -> Z) (l : list A) (x : A),
  NoDup (map key l) -> In x l -> filter (fun y => key y =? key x) l = [x].
Proof.
  intros A key l x. induction l as [ | a l IH]; intros Hnd Hin; [destruct Hin | ].
  cbn [map] in Hnd. inversion Hnd as [ | ? ? Hn Hnd']; subst. cbn [filter].
  destruct Hin as [-> | Hin].
  - rewrite Z.eqb_refl. f_equal. apply filter_nil. intros y Hy.
    apply Z.eqb_neq. intro E. apply Hn. rewrite <- E. apply in_map. exact Hy.
  - destruct (key a =? key x) eqn:E.
    + apply Z.eqb_eq in E. exfalso. apply Hn. rewrite E. apply in_map. exact Hin.
    + apply IH; assumption.
Qed.

Lemma entries_length : forall es cs,
  categories_of_entries es = Done cs -> length cs = length es.
Proof.
  induction es as [ | e es IH]; intros cs H; cbn [categories_of_entries] in H.
  - injection H as <-. reflexivity.
  - destruct (category_of_entry e); [ | discriminate].
    destruct (categories_of_entries es) as [cs' | ]; [ | discriminate].
    injection H as <-. cbn [length]. rewrite (IH cs' eq_refl). reflexivity.
Qed.

Lemma split_no_sep : forall sep a, ~ In sep a -> split_str sep a = [a].
Proof.
  intros sep a. induction a as [ | c a IH]; intro H; [reflexivity | ].
  cbn [split_str]. destruct (Ascii.eqb c sep) eqn:E.
  - apply Ascii.eqb_eq in E. exfalso. apply H. left. exact E.
  - rewrite IH; [reflexivity | ]. intro Hin. apply H. right. exact Hin.
Qed.

Lemma split_at_sep : forall sep a b,
  ~ In sep a -> split_str sep (a ++ sep :: b) = a :: split_str sep b.
Proof.
  intros sep a b. induction a as [ | c a IH]; intro H.
  - cbn [app split_str]. rewrite Ascii.eqb_refl. reflexivity.
  - cbn [app split_str]. destruct (Ascii.eqb c sep) eqn:E.
    + apply Ascii.eqb_eq in E. exfalso. apply H. left. exact E.
    + rewrite IH; [reflexivity | ]. intro Hin. apply H. right. exact Hin.
Qed.

Lemma startswith_app : forall p s, startswith (p ++ s) p = true.
Proof.
  induction p as [ | c p IH]; intro s; [destruct s; reflexivity | ].
  cbn [app startswith]. rewrite Ascii.eqb_refl, IH. reflexivity.
Qed.

Lemma int_digits_number : forall ds acc b,
  digits ds -> ds <> [] \/ b = true ->
  int_digits acc b ds = Some (fold_left (fun a c => 10 * a + digit_of c) ds acc).
Proof.
  induction ds as [ | c ds IH]; intros acc b Hd Hb.
  - destruct Hb as [Hb | ->]; [congruence | reflexivity].
  - inversion Hd as [ | ? ? Hc Hds]; subst. cbn [int_digits fold_left]. rewrite Hc.
    apply IH; [exact Hds | right; reflexivity].
Qed.

Lemma digits_no_colon : forall ds, digits ds -> ~ In ":"%char ds.
Proof.
  intros ds Hd Hin. unfold digits in Hd. rewrite Forall_forall in Hd.
  specialize (Hd _ Hin). discriminate.
Qed.

Lemma str_of_Z_no_colon : forall z, ~ In ":"%char (str_of_Z z).
Proof.
  intros z Hin. unfold str_of_Z in Hin.
  destruct (digits_of_spec (Z.abs z) (Z.abs_nonneg z)) as (Hd & _ & _).
  apply in_app_or in Hin. destruct Hin as [Hin | Hin].
  - destruct (z <? 0); [destruct Hin as [H | []]; discriminate | destruct Hin].
  - apply (digits_no_colon _ Hd Hin).
Qed.

Lemma last_of_digits : forall ds,
  digits ds -> ds <> [] -> exists t c, ds = t ++ [c] /\ isdigit c = true.
Proof.
  intros ds Hd Hne. destruct ds as [ | x l] using rev_ind; [congruence | ].
  exists l, x. split; [reflexivity | ].
  apply Forall_app in Hd. destruct Hd as [_ Hx]. inversion Hx. assumption.
Qed.

(** [int(str(z)) == z] *)
Lemma int_of_str_of_Z : forall z, int_of_str (str_of_Z z) = Some z.
Proof.
  intro z. unfold int_of_str, str_of_Z.
  destruct (digits_of_spec (Z.abs z) (Z.abs_nonneg z)) as (Hd & Hne & Hv).
  destruct (last_of_digits _ Hd Hne) as (t & c & Et & Hc).
  destruct (z <? 0) eqn:Eneg.
  - apply Z.ltb_lt in Eneg.
    assert (Hs : strip (py "-" ++ digits_of (Z.abs z)) = py "-" ++ digits_of (Z.abs z)).
    { eapply strip_untouched;
        [reflexivity | reflexivity
         | rewrite Et, app_assoc; reflexivity | apply digit_not_space; exact Hc]. }
    rewrite Hs. cbn [py list_ascii_of_string app]. rewrite Ascii.eqb_refl.
    rewrite (int_digits_number _ 0 false Hd (or_introl Hne)).
    fold (number_of (digits_of (Z.abs z))). rewrite Hv. f_equal. lia.
  - apply Z.ltb_ge in Eneg. cbn [app].
    destruct (digits_of (Z.abs z)) as [ | x l] eqn:Ed; [congruence | ].
    inversion Hd as [ | ? ? Hx _]; subst.
    assert (Hs : strip (x :: l) = x :: l).
    { eapply strip_untouched;
        [reflexivity | apply digit_not_space; exact Hx
         | exact Et | apply digit_not_space; exact Hc]. }
    rewrite Hs.
    rewrite (digit_differs x "-"%char Hx eq_refl), (digit_differs x "+"%char Hx eq_refl).
    rewrite (int_digits_number _ 0 false Hd (or_introl Hne)).
    fold (number_of (x :: l)). rewrite Hv. f_equal. lia.
Qed.

Lemma distinct_NoDup : forall ids, distinct ids = true -> NoDup ids.
Proof.
  induction ids as [ | i rest IH]; intro H; [constructor | ].
  cbn [distinct] in H. apply andb_true_iff in H. destruct H as [Hn Hd].
  constructor; [ | apply IH; exact Hd].
  intro Hin. apply negb_true_iff in Hn.
  assert (Ht : existsb (Z.eqb i) rest = true)
    by (apply existsb_exists; exists i; split; [exact Hin | apply Z.eqb_refl]).
  congruence.
Qed.

Lemma callback_id_of_button : forall action z,
  ~ In ":"%char action ->
  callback_id (action ++ py "_category:" ++ str_of_Z z) = Done z.
Proof.
  intros action z Ha. unfold callback_id.
  change (py "_category:") with (py "_category" ++ [":"%char]).
  rewrite <- app_assoc. cbn [app]. rewrite app_assoc.
  rewrite split_at_sep.
  - rewrite (split_no_sep _ _ (str_of_Z_no_colon z)). cbn [nth_error].
    rewrite int_of_str_of_Z. reflexivity.
  - intro Hin. apply in_app_or in Hin. destruct Hin as [Hin | Hin]; [contradiction | ].
    cbn in Hin. intuition discriminate.
Qed.

End CategoryFacts.

(** X21.  Loading the categories is all or nothing and idempotent: when it
    answers, the table is the one before, or it was empty and now holds the
    categories of the objects of the file, each once, under distinct ids and
    listed by rising id, as SQLite lists a table; a second load of the same
    file changes nothing.  A table that holds a category is never touched,
    whatever the objects of the file.  A file with the ids 50, 36, 41, 40
    gives the roots 36, 50 and, under 36, the subcategories 40, 41. *)
Theorem X21_load_categories_once :
  forall (commit_ok : bool) (file : option (option (list CategoryEntry)))
         (cats cats' : list Category),
    load_categories_from_json commit_ok file cats = Done cats' ->
    (cats' = cats
     \/ (cats = []
         /\ exists es added,
              file = Some (Some es)
              /\ categories_of_entries es = Done added
              /\ length added = length es
              /\ Permutation cats' added
              /\ NoDup (map cat_id cats')
              /\ StronglySorted (fun a b => cat_id a <= cat_id b) cats'))
    /\ load_categories_from_json commit_ok file cats' = Done cats'
    /\ (forall es c l, load_categories_from_json commit_ok (Some (Some es)) (c :: l)
                       = Done (c :: l))
    /\ (exists loaded,
          load_categories_from_json true (Some (Some sample_unordered)) [] = Done loaded
          /\ map cat_id (get_categories_by_kind loaded EXPENSE) = [36; 50]
          /\ map cat_id (get_subcategories loaded 36) = [40; 41]).
Proof.
  intros commit_ok file cats cats' H.
  assert (Hcases :
            cats' = cats
            \/ (cats = []
                /\ exists es added,
                     file = Some (Some es)
                     /\ categories_of_entries es = Done added
                     /\ commit_ok = true
                     /\ distinct (map cat_id added) = true
                     /\ cats' = order_by_asc cat_id added)).
  { unfold load_categories_from_json in H.
    destruct file as [[es | ] | ]; [ | discriminate | left; congruence].
    destruct cats as [ | c l];
      [ | left; change (sql_limit 1 (c :: l)) with [c] in H; cbv iota in H; congruence].
    change (sql_limit 1 (@nil Category)) with (@nil Category) in H. cbv iota in H.
    cbn [app] in H.
    destruct (categories_of_entries es) as [added | ] eqn:E; [ | discriminate].
    destruct (commit_ok && distinct (map cat_id added)) eqn:Ec; [ | discriminate].
    apply andb_true_iff in Ec. destruct Ec as [-> Hd].
    injection H as <-. right. split; [reflexivity | ].
    exists es, added. auto. }
  split; [ | split; [ | split; [reflexivity | ]]].
  - destruct Hcases as [-> | (-> & es & added & -> & E & -> & Hd & ->)]; [left; reflexivity | ].
    right. split; [reflexivity | ]. exists es, added.
    assert (Hp : Permutation (order_by_asc cat_id added) added)
      by apply SortFacts.sort_by_perm.
    split; [reflexivity | ]. split; [exact E | ].
    split; [apply CategoryFacts.entries_length; exact E | ].
    split; [exact Hp | ]. split.
    + apply Permutation_NoDup with (l := map cat_id added).
      * symmetry. apply Permutation_map. exact Hp.
      * apply CategoryFacts.distinct_NoDup. exact Hd.
    + apply (FetchFacts.order_by_asc_sorted cat_id).
  - destruct Hcases as [-> | (-> & es & added & -> & E & -> & Hd & ->)]; [exact H | ].
    destruct (order_by_asc cat_id added) as [ | c l] eqn:Es.
    + exact H.
    + reflexivity.
  - eexists. split; [vm_compute; reflexivity | ]. split; reflexivity.
Qed.

(** X21 for an empty table and a file of two categories. *)
Lemma X21_witness :
  (sample_loaded = @nil Category
   \/ (@nil Category = []
       /\ exists es added,
            sample_file = Some (Some es)
            /\ categories_of_entries es = Done added
            /\ length added = length es
            /\ Permutation sample_loaded added
            /\ NoDup (map cat_id sample_loaded)
            /\ StronglySorted (fun a b => cat_id a <= cat_id b) sample_loaded))
  /\ load_categories_from_json true sample_file sample_loaded = Done sample_loaded
  /\ (forall es c l, load_categories_from_json true (Some (Some es)) (c :: l)
                     = Done (c :: l))
  /\ (exists loaded,
        load_categories_from_json true (Some (Some sample_unordered)) [] = Done loaded
        /\ map cat_id (get_categories_by_kind loaded EXPENSE) = [36; 50]
        /\ map cat_id (get_subcategories loaded 36) = [40; 41]).
Proof.
  apply (X21_load_categories_once true sample_file [] sample_loaded). reflexivity.
Defined.

(** X22.  With unique ids, every stored category is found again by its id,
    and an id that is not stored is answered with none.  A stored category is
    listed among the roots of its kind when it has no parent, and among the
    subcategories of its parent and of no other id when it has one; never
    both. *)
Theorem X22_category_directory :
  forall (cats : list Category) (c : Category),
    NoDup (map cat_id cats) ->
    In c cats ->
    get_category_by_id cats (cat_id c) = Return (Some c)
    /\ (forall i, ~ In i (map cat_id cats) -> get_category_by_id cats i = Return None)
    /\ (forall k, In c (get_categories_by_kind cats k)
                  <-> cat_kind c = k /\ cat_parent_id c = None)
    /\ (forall p, In c (get_subcategories cats p) <-> cat_parent_id c = Some p)
    /\ (forall k p, In c (get_categories_by_kind cats k) ->
                    ~ In c (get_subcategories cats p)).
Proof.
  intros cats c Hnd Hin.
  assert (Hroot : forall k, In c (get_categories_by_kind cats k)
                            <-> cat_kind c = k /\ cat_parent_id c = None).
  { intro k. unfold get_categories_by_kind. rewrite filter_In, andb_true_iff.
    rewrite FetchFacts.kind_eqb_eq. split.
    - intros (_ & Hk & Hp). split; [exact Hk | ].
      destruct (cat_parent_id c); [discriminate | reflexivity].
    - intros [Hk Hp]. rewrite Hp. auto. }
  assert (Hsub : forall p, In c (get_subcategories cats p) <-> cat_parent_id c = Some p).
  { intro p. unfold get_subcategories. rewrite filter_In. split.
    - intros (_ & Hp). destruct (cat_parent_id c) as [q | ]; [ | discriminate].
      apply Z.eqb_eq in Hp. congruence.
    - intro Hp. rewrite Hp. split; [exact Hin | apply Z.eqb_refl]. }
  split; [ | split; [ | split; [exact Hroot | split; [exact Hsub | ]]]].
  - unfold get_category_by_id.
    rewrite (CategoryFacts.select_unique _ cat_id cats c Hnd Hin). reflexivity.
  - intros i Hi. unfold get_category_by_id. rewrite RepoFacts.filter_nil; [reflexivity | ].
    intros x Hx. apply Z.eqb_neq. intro E. apply Hi. rewrite <- E. apply in_map. exact Hx.
  - intros k p Hr Hs. apply Hroot in Hr. apply Hsub in Hs. destruct Hr as [_ Hr]. congruence.
Qed.

Lemma sample_categories_unique : NoDup (map cat_id sample_categories).
Proof.
  simpl.
  constructor; [simpl; intros [H | [H | []]]; discriminate | ].
  constructor; [simpl; intros [H | []]; discriminate | ].
  constructor; [simpl; intros [] | constructor].
Defined.

(** X22 for the subcategory 40 of the sample categories. *)
Lemma X22_witness :
  get_category_by_id sample_categories (cat_id (mkCategory 40 (py "Other") EXPENSE (Some 36)))
    = Return (Some (mkCategory 40 (py "Other") EXPENSE (Some 36)))
  /\ (forall i, ~ In i (map cat_id sample_categories) ->
                get_category_by_id sample_categories i = Return None)
  /\ (forall k, In (mkCategory 40 (py "Other") EXPENSE (Some 36))
                  (get_categories_by_kind sample_categories k)
                <-> cat_kind (mkCategory 40 (py "Other") EXPENSE (Some 36)) = k
                    /\ cat_parent_id (mkCategory 40 (py "Other") EXPENSE (Some 36)) = None)
  /\ (forall p, In (mkCategory 40 (py "Other") EXPENSE (Some 36))
                  (get_subcategories sample_categories p)
                <-> cat_parent_id (mkCategory 40 (py "Other") EXPENSE (Some 36)) = Some p)
  /\ (forall k p, In (mkCategory 40 (py "Other") EXPENSE (Some 36))
                    (get_categories_by_kind sample_categories k) ->
                  ~ In (mkCategory 40 (py "Other") EXPENSE (Some 36))
                      (get_subcategories sample_categories p)).
Proof.
  apply (X22_category_directory sample_categories
           (mkCategory 40 (py "Other") EXPENSE (Some 36))).
  - exact sample_categories_unique.
  - simpl. right. left. reflexivity.
Defined.

(** X23.  The keyboard of categories and the handlers that read its buttons
    agree: the keyboard has one button per category, in order, and a last row
    with the cancel button; the callback data of the button of a category
    starts with the action and "_category:" and the handlers' reading of it,
    the integer after the first colon, is the id of that category.  For the
    actions "expense" and "income" the filter of the category handler takes
    the button, for "subcategory" that of the subcategory handler. *)
Theorem X23_category_buttons_read_back :
  forall (cats : list Category) (action : str),
    ~ In ":"%char action ->
    exists rows,
      get_categories_keyboard cats action = rows ++ [ [ mkKey CaptionCancel (py "cancel") ] ]
      /\ length rows = length cats
      /\ Forall2 (fun row c =>
                    exists b, row = [b]
                      /\ key_text b = CaptionName (cat_name c)
                      /\ callback_id (key_data b) = Done (cat_id c)
                      /\ startswith (key_data b) (action ++ py "_category:") = true)
           rows cats
      /\ Forall (Forall (reads_back cats action)) rows
      /\ (action = py "expense" \/ action = py "income" ->
          Forall (Forall (fun b => is_category_callback (key_data b) = true)) rows)
      /\ (action = py "subcategory" ->
          Forall (Forall (fun b => is_subcategory_callback (key_data b) = true)) rows).
Proof.
  intros cats action Ha. unfold get_categories_keyboard.
  eexists. split; [reflexivity | ].
  split; [apply length_map | ].
  assert (Hstart : forall z,
            startswith (action ++ py "_category:" ++ str_of_Z z) (action ++ py "_category:")
            = true).
  { intro z. rewrite app_assoc. apply CategoryFacts.startswith_app. }
  split; [ | split; [ | split]].
  - induction cats as [ | c cats IH]; cbn [map]; constructor; [ | exact IH].
    eexists. split; [reflexivity | ]. cbn [key_text key_data].
    split; [reflexivity | ].
    split; [apply CategoryFacts.callback_id_of_button; exact Ha | apply Hstart].
  - apply Forall_forall. intros row Hrow. apply in_map_iff in Hrow.
    destruct Hrow as (c & <- & Hc). constructor; [ | constructor].
    exists c. cbn [key_text key_data].
    split; [exact Hc | ]. split; [reflexivity | ]. split; [reflexivity | ].
    split; [apply Hstart | apply CategoryFacts.callback_id_of_button; exact Ha].
  - intros Hact. apply Forall_forall. intros row Hrow. apply in_map_iff in Hrow.
    destruct Hrow as (c & <- & _). constructor; [ | constructor].
    cbn [key_data]. unfold is_category_callback.
    destruct Hact as [-> | ->].
    + change (py "expense" ++ py "_category:" ++ str_of_Z (cat_id c))
        with (py "expense_category:" ++ str_of_Z (cat_id c)).
      rewrite CategoryFacts.startswith_app. reflexivity.
    + change (py "income" ++ py "_category:" ++ str_of_Z (cat_id c))
        with (py "income_category:" ++ str_of_Z (cat_id c)).
      rewrite CategoryFacts.startswith_app. apply orb_true_r.
  - intros ->. apply Forall_forall. intros row Hrow. apply in_map_iff in Hrow.
    destruct Hrow as (c & <- & _). constructor; [ | constructor].
    cbn [key_data]. unfold is_subcategory_callback.
    change (py "subcategory" ++ py "_category:" ++ str_of_Z (cat_id c))
      with (py "subcategory_category:" ++ str_of_Z (cat_id c)).
    apply CategoryFacts.startswith_app.
Qed.

(** X23 for the sample categories and the action "expense". *)
Lemma X23_witness :
  exists rows,
    get_categories_keyboard sample_categories (py "expense")
      = rows ++ [ [ mkKey CaptionCancel (py "cancel") ] ]
    /\ length rows = length sample_categories
    /\ Forall2 (fun row c =>
                  exists b, row = [b]
                    /\ key_text b = CaptionName (cat_name c)
                    /\ callback_id (key_data b) = Done (cat_id c)
                    /\ startswith (key_data b) (py "expense" ++ py "_category:") = true)
         rows sample_categories
    /\ Forall (Forall (reads_back sample_categories (py "expense"))) rows
    /\ (py "expense" = py "expense" \/ py "expense" = py "income" ->
        Forall (Forall (fun b => is_category_callback (key_data b) = true)) rows)
    /\ (py "expense" = py "subcategory" ->
        Forall (Forall (fun b => is_subcategory_callback (key_data b) = true)) rows).
Proof.
  apply (X23_category_buttons_read_back sample_categories (py "expense")).
  simpl. intros [H | [H | [H | [H | [H | [H | [H | []]]]]]]]; discriminate H.
Defined.

(** ** The choices of the dialogue *)

Module ChoiceFacts.
Import CategoryFacts.

Lemma press_finds_category : forall cats c action,
  NoDup (map cat_id cats) -> In c cats -> ~ In ":"%char action ->
  callback_id (category_button_data action c) = Done (cat_id c)
  /\ get_category_by_id cats (cat_id c) = Return (Some c).
Proof.
  intros cats c action Hnd Hin Ha. split.
  - apply callback_id_of_button. exact Ha.
  - unfold get_category_by_id. rewrite (select_unique _ cat_id cats c Hnd Hin). reflexivity.
Qed.

Lemma kind_value_no_colon : forall k, ~ In ":"%char (kind_value k).
Proof. intros [] H; simpl in H; intuition discriminate. Qed.

Lemma export_request_of_data : forall k days agg,
  (forall a, agg = Some a -> ~ In ":"%char a) ->
  export_request (export_data k days agg) = Done (k, days, agg).
Proof.
  intros k days agg Hagg. unfold export_request, export_data.
  change (py "export:") with (py "export" ++ [":"%char]).
  rewrite <- app_assoc. cbn [app].
  rewrite (split_at_sep ":"%char (py "export")); [ | simpl; intuition discriminate].
  change (py ":" ++ str_of_Z days ++ match agg with Some a => py ":" ++ a | None => [] end)
    with (":"%char :: str_of_Z days ++ match agg with Some a => py ":" ++ a | None => [] end).
  rewrite (split_at_sep ":"%char (kind_value k)); [ | apply kind_value_no_colon].
  assert (Hk : (if str_eqb (kind_value k) (py "expense") then EXPENSE else INCOME) = k)
    by (destruct k; reflexivity).
  destruct agg as [a | ].
  - change (py ":" ++ a) with (":"%char :: a).
    rewrite (split_at_sep ":"%char (str_of_Z days)); [ | apply str_of_Z_no_colon].
    rewrite (split_no_sep _ a (Hagg a eq_refl)).
    rewrite int_of_str_of_Z, Hk. reflexivity.
  - rewrite app_nil_r, (split_no_sep _ _ (str_of_Z_no_colon days)).
    rewrite int_of_str_of_Z, Hk. reflexivity.
Qed.

Lemma empty_window : forall ilike db u kind s e cids sids amin amax cq lim,
  e < s ->
  fetch_transactions ilike db u kind (Some s) (Some e) cids sids amin amax cq lim = [].
Proof.
  intros ilike db u kind s e cids sids amin amax cq lim H.
  unfold fetch_transactions.
  rewrite RepoFacts.filter_nil;
    [destruct lim as [l | ];
       [destruct (l =? 0); [reflexivity | unfold sql_limit; destruct (l <? 0); [reflexivity | apply firstn_nil]]
       | reflexivity] | ].
  intros t _.
  destruct (s <=? t_effective_at t) eqn:E1; [ | rewrite !andb_false_r; reflexivity].
  destruct (t_effective_at t <=? e) eqn:E2; [ | rewrite !andb_false_r; reflexivity].
  apply Z.leb_le in E1, E2. lia.
Qed.

(** Inside the range the two steps of the start date go through. *)
Lemma start_in_range : forall now days,
  days_in_range now days ->
  timedelta_of_days days = Done (timedelta_days days)
  /\ datetime_sub now (timedelta_days days) = Done (now - timedelta_days days).
Proof.
  intros now days [[H1 H2] [H3 H4]].
  unfold timedelta_of_days, datetime_sub.
  apply Z.leb_le in H1, H2, H3, H4. rewrite H1, H2, H3, H4. split; reflexivity.
Qed.

End ChoiceFacts.

(** X24.  Pressing the button of a stored category selects that category,
    whatever the state and the kind of the draft: the handler reads the id
    back from the button, writes the id and the name of the category into the
    draft and leaves kind, comment and amount alone.  When the category has
    subcategories the dialogue waits for one and shows their keyboard; when
    it has none the dialogue waits for the comment with the subcategory set
    to none and the message pointer on the message of the button.  An id that
    is not stored changes nothing. *)
Theorem X24_category_button_selects :
  forall (cats : list Category) (c : Category) (action : str) (message_id : Z)
         (ctx : FSMContext),
    NoDup (map cat_id cats) ->
    In c cats ->
    ~ In ":"%char action ->
    (exists ctx' reply,
       process_category_selection cats (category_button_data action c) message_id ctx
       = (ctx', Done reply)
       /\ d_category_id (fsm_data ctx') = Some (cat_id c)
       /\ d_category_name (fsm_data ctx') = Some (cat_name c)
       /\ d_kind (fsm_data ctx') = d_kind (fsm_data ctx)
       /\ d_comment (fsm_data ctx') = d_comment (fsm_data ctx)
       /\ d_amount (fsm_data ctx') = d_amount (fsm_data ctx)
       /\ (get_subcategories cats (cat_id c) <> [] ->
           fsm_state ctx' = Some waiting_for_subcategory
           /\ reply = ChooseSubcategoryText (cat_name c)
                        (get_categories_keyboard (get_subcategories cats (cat_id c))
                           (py "subcategory"))
           /\ d_last_bot_message_id (fsm_data ctx') = d_last_bot_message_id (fsm_data ctx))
       /\ (get_subcategories cats (cat_id c) = [] ->
           fsm_state ctx' = Some waiting_for_comment
           /\ reply = EnterCommentText (cat_name c) None
           /\ d_subcategory_id (fsm_data ctx') = None
           /\ d_subcategory_name (fsm_data ctx') = None
           /\ d_last_bot_message_id (fsm_data ctx') = Some message_id))
    /\ (forall data i, callback_id data = Done i -> ~ In i (map cat_id cats) ->
          process_category_selection cats data message_id ctx
          = (ctx, Done CategoryNotFoundAnswer)).
Proof.
  intros cats c action m ctx Hnd Hin Ha.
  destruct (ChoiceFacts.press_finds_category cats c action Hnd Hin Ha) as [Hid Hget].
  split.
  - unfold process_category_selection. rewrite Hid, Hget.
    destruct (get_subcategories cats (cat_id c)) as [ | s l] eqn:Es.
    + eexists. eexists. split; [reflexivity | ]. cbn.
      repeat split; try reflexivity; intros; congruence.
    + eexists. eexists. split; [reflexivity | ]. cbn.
      repeat split; try reflexivity; intros; congruence.
  - intros data i Hi Hno. unfold process_category_selection, get_category_by_id.
    rewrite Hi, RepoFacts.filter_nil; [reflexivity | ].
    intros x Hx. apply Z.eqb_neq. intro E. apply Hno. rewrite <- E. apply in_map. exact Hx.
Qed.

(** X24 for the expense button of the category 36 of the sample. *)
Lemma X24_witness :
  exists ctx' reply,
    process_category_selection sample_categories
      (category_button_data (py "expense") (mkCategory 36 (py "Gifts") EXPENSE None)) 11 idle
    = (ctx', Done reply)
    /\ fsm_state ctx' = Some waiting_for_subcategory.
Proof.
  destruct (X24_category_button_selects sample_categories
              (mkCategory 36 (py "Gifts") EXPENSE None) (py "expense") 11 idle)
    as [(ctx' & reply & E & _ & _ & _ & _ & _ & Hsub & _) _].
  - exact sample_categories_unique.
  - simpl. left. reflexivity.
  - simpl. intros [H | [H | [H | [H | [H | [H | [H | []]]]]]]]; discriminate H.
  - exists ctx', reply. split; [exact E | ]. apply Hsub. discriminate.
Defined.

(** X25.  Pressing the button of a stored subcategory writes its id and name
    into the draft and moves to the comment, leaving kind, category, comment
    and amount alone, when the draft names a category; the handler does not
    ask whether the subcategory belongs to that category.  When the draft
    names no category it raises KeyError after the state and the subcategory
    have been written. *)
Theorem X25_subcategory_button_selects :
  forall (cats : list Category) (s : Category) (message_id : Z) (ctx : FSMContext),
    NoDup (map cat_id cats) ->
    In s cats ->
    (forall name, d_category_name (fsm_data ctx) = Some name ->
       exists ctx',
         process_subcategory_selection cats (category_button_data (py "subcategory") s)
           message_id ctx
         = (ctx', Done (EnterCommentText name (Some (cat_name s))))
         /\ fsm_state ctx' = Some waiting_for_comment
         /\ d_subcategory_id (fsm_data ctx') = Some (cat_id s)
         /\ d_subcategory_name (fsm_data ctx') = Some (cat_name s)
         /\ d_category_id (fsm_data ctx') = d_category_id (fsm_data ctx)
         /\ d_category_name (fsm_data ctx') = Some name
         /\ d_kind (fsm_data ctx') = d_kind (fsm_data ctx)
         /\ d_comment (fsm_data ctx') = d_comment (fsm_data ctx)
         /\ d_amount (fsm_data ctx') = d_amount (fsm_data ctx)
         /\ d_last_bot_message_id (fsm_data ctx') = Some message_id)
    /\ (d_category_name (fsm_data ctx) = None ->
        exists ctx',
          process_subcategory_selection cats (category_button_data (py "subcategory") s)
            message_id ctx
          = (ctx', Failed (Propagated KeyError))
          /\ fsm_state ctx' = Some waiting_for_comment
          /\ d_subcategory_id (fsm_data ctx') = Some (cat_id s)).
Proof.
  intros cats s m ctx Hnd Hin.
  assert (Ha : ~ In ":"%char (py "subcategory")).
  { simpl. intuition discriminate. }
  destruct (ChoiceFacts.press_finds_category cats s (py "subcategory") Hnd Hin Ha)
    as [Hid Hget].
  split.
  - intros name Hn. unfold process_subcategory_selection. rewrite Hid, Hget, Hn.
    eexists. split; [reflexivity | ]. cbn. rewrite Hn. repeat split.
  - intro Hn. unfold process_subcategory_selection. rewrite Hid, Hget, Hn.
    eexists. split; [reflexivity | ]. cbn. repeat split.
Qed.

(** X25 for the button of the subcategory 40 of the sample, before any
    category was chosen. *)
Lemma X25_witness :
  exists ctx',
    process_subcategory_selection sample_categories
      (category_button_data (py "subcategory") (mkCategory 40 (py "Other") EXPENSE (Some 36)))
      11 idle
    = (ctx', Failed (Propagated KeyError))
    /\ fsm_state ctx' = Some waiting_for_comment
    /\ d_subcategory_id (fsm_data ctx')
       = Some (cat_id (mkCategory 40 (py "Other") EXPENSE (Some 36))).
Proof.
  apply (proj2 (X25_subcategory_button_selects sample_categories
                  (mkCategory 40 (py "Other") EXPENSE (Some 36)) 11 idle
                  sample_categories_unique
                  (or_intror (or_introl eq_refl)))).
  reflexivity.
Defined.

(** X26.  The draft that the dialogue builds is the transaction that a
    confirmation saves.  After the choice of the kind expense, the button of
    a category without subcategories, a comment and an amount that parses to
    a positive value, the amount step raises TypeError at the confirmation
    keyboard and writes nothing to the table; the draft it leaves makes
    [process_confirmation] append one expense of that category, without
    subcategory, with the amount as the column keeps it and the comment (none
    for "-"), owned by the caller.  An amount typed with at most two places
    and below 2^46 is kept as typed. *)
Theorem X26_dialogue_draft_is_saved :
  forall (cats : list Category) (c : Category) (comment_text amount_text : str)
         (d : Decimal) (message_id sent_id user_message_id now user : Z)
         (chat : Chat) (db : DB) (ctx0 : FSMContext),
    NoDup (map cat_id cats) ->
    In c cats ->
    get_subcategories cats (cat_id c) = [] ->
    parse_amount amount_text = Return (Some d) ->
    dec_leb d dec_zero = false ->
    let ctx1 := fst (process_expense cats ctx0) in
    let ctx2 := fst (process_category_selection cats
                       (category_button_data (py "expense") c) message_id ctx1) in
    let ctx3 := fst (process_comment comment_text sent_id ctx2) in
    let r := process_amount user_message_id amount_text (mkWorld ctx3 chat db) in
    snd r = Some TypeError
    /\ w_db (fst r) = db
    /\ fsm_state (w_fsm (fst r)) = Some waiting_for_confirmation
    /\ process_confirmation true now user (w_fsm (fst r)) db
       = (clear (w_fsm (fst r)),
          db ++ [ mkTransaction (fresh_id db) user EXPENSE (cat_id c) None
                    (stored_numeric d) (py "RUB")
                    (truthy (if str_eqb (strip comment_text) (py "-") then None
                             else Some (strip comment_text)))
                    now now ],
          Done (SavedReply Spending d (fresh_id db)))
    /\ ((scale d <= 2)%nat -> below_2_46 d ->
        stored_numeric d = coef d * pow10 (2 - scale d)).
Proof.
  intros cats c comment_text amount_text d m sent i now user chat db ctx0
         Hnd Hin Hleaf Hparse Hpos.
  assert (Ha : ~ In ":"%char (py "expense")).
  { simpl. intuition discriminate. }
  destruct (ChoiceFacts.press_finds_category cats c (py "expense") Hnd Hin Ha) as [Hid Hget].
  cbv zeta.
  unfold process_category_selection. rewrite Hid, Hget, Hleaf.
  unfold process_amount. rewrite Hparse, Hpos.
  cbn -[process_confirmation stored_numeric].
  split; [reflexivity | ]. split; [reflexivity | ].
  split; [reflexivity | ]. split; [reflexivity | ].
  apply FloatFacts.stored_two_places. apply (ParseFacts.parse_amount_nonneg _ _ Hparse).
Qed.

(** X26 for the leaf category 101 of the sample, the comment "-" and the
    amount "100". *)
Lemma X26_witness :
  snd (process_amount 12 (py "100")
         (mkWorld
            (fst (process_comment (py "-") 13
                    (fst (process_category_selection sample_categories
                            (category_button_data (py "expense")
                               (mkCategory 101 (py "Other income") INCOME None))
                            11 (fst (process_expense sample_categories idle))))))
            (mkChat [] 13) sample_db))
  = Some TypeError.
Proof.
  apply (X26_dialogue_draft_is_saved sample_categories
           (mkCategory 101 (py "Other income") INCOME None) (py "-") (py "100")
           (mkDecimal 100 0) 11 13 12 1300000000 1 (mkChat [] 13) sample_db idle).
  - exact sample_categories_unique.
  - simpl. right. right. left. reflexivity.
  - reflexivity.
  - reflexivity.
  - reflexivity.
Defined.

(** X27.  The callback data of an export button reads back as it was made:
    "export:", the value of the kind, the number of days and, when there is
    one, an aggregation name without a colon give that kind, that number and
    that name again.  When the days fit a timedelta and the start they lead
    to is a datetime, the handler asks for the report of the days up to now
    and ends as that report does: with the report when the window holds a
    row, and with IndexError when it holds none, unless the report is the one
    of the expenses by sections.  When the days do not fit a timedelta the
    handler raises OverflowError. *)
Theorem X27_export_data_reads_back :
  forall ilike pd now db cmap from_user (kind : TransactionKind) (days : Z)
         (aggregation : option str),
    (forall a, aggregation = Some a -> ~ In ":"%char a) ->
    days_in_range now days ->
    let df := filtered_set ilike now db cmap from_user kind
                (Some (now - timedelta_days days)) (Some now) [] [] None None None in
    startswith (export_data kind days aggregation) (py "export:") = true
    /\ export_request (export_data kind days aggregation) = Done (kind, days, aggregation)
    /\ handle_export ilike pd now db cmap from_user (export_data kind days aggregation)
       = build_report ilike pd now db cmap from_user kind
           (Some (now - timedelta_days days)) (Some now) [] [] None None None aggregation
    /\ (df <> [] ->
        exists r,
          handle_export ilike pd now db cmap from_user (export_data kind days aggregation)
          = Done r
          /\ summary r = summary_of pd kind df)
    /\ (df = [] ->
        mode_is aggregation "by_category_sections" && kind_eqb kind EXPENSE = false ->
        handle_export ilike pd now db cmap from_user (export_data kind days aggregation)
        = Failed IndexError)
    /\ (forall big, 999999999 < big ->
          handle_export ilike pd now db cmap from_user (export_data kind big aggregation)
          = Failed OverflowError).
Proof.
  intros ilike pd now db cmap u kind days agg Hagg Hr df.
  pose proof (ChoiceFacts.export_request_of_data kind days agg Hagg) as E.
  assert (Eh : handle_export ilike pd now db cmap u (export_data kind days agg)
               = build_report ilike pd now db cmap u kind
                   (Some (now - timedelta_days days)) (Some now) [] [] None None None agg).
  { unfold handle_export. rewrite E.
    destruct (ChoiceFacts.start_in_range now days Hr) as [Et Es].
    rewrite Et, Es. reflexivity. }
  split; [apply CategoryFacts.startswith_app | ]. split; [exact E | ].
  split; [exact Eh | ]. split; [ | split].
  - intro Hdf. rewrite Eh.
    destruct (ReportFacts.build_report_rows ilike pd now db cmap u kind
                (Some (now - timedelta_days days)) (Some now) [] [] None None None agg Hdf)
      as [r Er].
    exists r. split; [exact Er | ].
    apply (ReportFacts.build_report_summary _ _ _ _ _ _ _ _ _ _ _ _ _ _ _ _ Er).
  - intros Hdf Hm. rewrite Eh. apply ReportFacts.build_report_no_rows; assumption.
  - intros big Hbig. unfold handle_export.
    rewrite (ChoiceFacts.export_request_of_data kind big agg Hagg).
    unfold timedelta_of_days.
    replace (big <=? 999999999) with false by (symmetry; apply Z.leb_gt; lia).
    rewrite andb_false_r. reflexivity.
Qed.

(** X27 for the button "export:expense:30:overall", pressed by a user who
    has no transaction: the handler raises IndexError. *)
Lemma X27_witness :
  handle_export (fun _ _ => true) ieee 1300000000 sample_db [] 77
    (export_data EXPENSE 30 (Some (py "overall")))
  = Failed IndexError.
Proof.
  apply (X27_export_data_reads_back (fun _ _ => true) ieee 1300000000 sample_db [] 77
           EXPENSE 30 (Some (py "overall"))).
  - intros a H. injection H as <-. simpl. intuition discriminate.
  - unfold days_in_range, timedelta_days, datetime_min, datetime_max. lia.
  - reflexivity.
  - reflexivity.
Defined.

(** X28.  An export asked for a negative number of days, as long as the start
    it leads to is a datetime, has a window that starts after it ends, so no
    row is selected.  The handler then raises IndexError at the image, unless
    the report is the one of the expenses by sections, which is returned with
    the no-data picture and the summary of total 0 and count 0. *)
Theorem X28_negative_days_empty_report :
  forall ilike pd now db cmap from_user (data : str) (kind : TransactionKind) (days : Z)
         (aggregation : option str),
    export_request data = Done (kind, days, aggregation) ->
    days < 0 ->
    days_in_range now days ->
    filtered_set ilike now db cmap from_user kind
      (Some (now - timedelta_days days)) (Some now) [] [] None None None = []
    /\ (mode_is aggregation "by_category_sections" && kind_eqb kind EXPENSE = false ->
        handle_export ilike pd now db cmap from_user data = Failed IndexError)
    /\ (mode_is aggregation "by_category_sections" && kind_eqb kind EXPENSE = true ->
        handle_export ilike pd now db cmap from_user data
        = Done (mkReport
                  [ (sheet_data, TableSheet (Detail []));
                    (sheet_summary, SummarySheet (mkSummary (kind_value EXPENSE) (Fin 0) 0));
                    (sheet_meta, MetaSheet now (kind_value EXPENSE)) ]
                  [ NoData EXPENSE ]
                  (mkSummary (kind_value EXPENSE) (Fin 0) 0))).
Proof.
  intros ilike pd now db cmap u data kind days agg E Hd Hr.
  assert (Hempty : filtered_set ilike now db cmap u kind
                     (Some (now - timedelta_days days)) (Some now) [] [] None None None = []).
  { unfold filtered_set. rewrite ChoiceFacts.empty_window; [reflexivity | ].
    unfold timedelta_days. lia. }
  assert (Eh : handle_export ilike pd now db cmap u data
               = build_report ilike pd now db cmap u kind
                   (Some (now - timedelta_days days)) (Some now) [] [] None None None agg).
  { unfold handle_export. rewrite E.
    destruct (ChoiceFacts.start_in_range now days Hr) as [Et Es].
    rewrite Et, Es. reflexivity. }
  split; [exact Hempty | ]. split.
  - intro Hm. rewrite Eh. apply ReportFacts.build_report_no_rows; assumption.
  - intro Hm. rewrite Eh.
    destruct (ReportFacts.sections_path agg kind Hm) as [-> ->].
    rewrite ReportFacts.build_report_sections by reflexivity.
    rewrite Hempty. reflexivity.
Qed.

(** X28 for the data "export:expense:-5". *)
Lemma X28_witness :
  filtered_set (fun _ _ => true) 1300000000 sample_db [] 1 EXPENSE
    (Some (1300000000 - timedelta_days (-5))) (Some 1300000000) [] [] None None None
  = []
  /\ handle_export (fun _ _ => true) ieee 1300000000 sample_db [] 1 (py "export:expense:-5")
     = Failed IndexError.
Proof.
  destruct (X28_negative_days_empty_report (fun _ _ => true) ieee 1300000000 sample_db [] 1
              (py "export:expense:-5") EXPENSE (-5) None) as (H1 & H2 & _).
  - reflexivity.
  - reflexivity.
  - unfold days_in_range, timedelta_days, datetime_min, datetime_max. lia.
  - split; [exact H1 | apply H2; reflexivity].
Defined.

